(** * ZagrebTransit: the transit index, the feed store and the realtime client

    A shallow embedding of [gtfs_index.py], [gtfs_store.py] and [realtime.py]
    of the [zagreb_transit] integration, and the properties its design
    document states about them, followed by properties of the selectors,
    the queries by name, the loader, the selection of the active feed and
    the realtime message that are read off the code.

    Conventions of the embedding.
    - Python [int] is [Z]; [str] is [string], read as ASCII text (text
      outside ASCII is carried as its UTF-8 bytes, which no predicate below
      classifies as a digit or as white space).
    - A [dict] keyed by [str] is a [gmap string _]; a key whose value is
      [None] is an absent key (the sources read the cells of a row through
      [.get], and test the result for truth, default it with [or], or
      compare it with a literal).
    - A [set] of [str] is a [gset string].
    - Code that can raise returns [option]; [None] is the raised exception.
    - [datetime.date] is its proleptic Gregorian ordinal, a naive
      [datetime.datetime] is the number of microseconds since
      0001-01-01T00:00:00, a [timedelta] is a number of microseconds; the
      bounds of the three types are checked where Python checks them. *)

From Stdlib Require Import ZArith Lia String Ascii List Bool.
From stdpp Require Import gmap strings list sorting.

Local Open Scope string_scope.
Local Open Scope Z_scope.

(** ** Python text primitives *)

Module Py.

(** [str.isspace] on ASCII: TAB, LF, VT, FF, CR, FS, GS, RS, US, SPACE. *)
Definition is_space (c : ascii) : bool :=
  let n := Z.of_nat (nat_of_ascii c) in
  (n =? 32) || ((9 <=? n) && (n <=? 13)) || ((28 <=? n) && (n <=? 31)).

Definition is_digit (c : ascii) : bool :=
  let n := Z.of_nat (nat_of_ascii c) in (48 <=? n) && (n <=? 57).

Definition digit_val (c : ascii) : Z := Z.of_nat (nat_of_ascii c) - 48.

(** [s.lstrip(chars)], [s.rstrip(chars)], [s.strip(chars)] with the set of
    characters given as a predicate. *)
Fixpoint lstrip_by (p : ascii -> bool) (s : string) : string :=
  match s with
  | EmptyString => EmptyString
  | String c r => if p c then lstrip_by p r else s
  end.

Fixpoint rstrip_by (p : ascii -> bool) (s : string) : string :=
  match s with
  | EmptyString => EmptyString
  | String c r =>
      match rstrip_by p r with
      | EmptyString => if p c then EmptyString else String c EmptyString
      | r' => String c r'
      end
  end.

Definition strip_by (p : ascii -> bool) (s : string) : string :=
  rstrip_by p (lstrip_by p s).

(** [s.strip()] *)
Definition strip (s : string) : string := strip_by is_space s.

(** [s.split(sep)] for a one-character separator: never the empty list. *)
Fixpoint split (sep : ascii) (s : string) : list string :=
  match s with
  | EmptyString => [EmptyString]
  | String c r =>
      if Ascii.eqb c sep then EmptyString :: split sep r
      else match split sep r with
           | p :: ps => String c p :: ps
           | [] => [String c EmptyString]
           end
  end.

(** [s.isdigit()] on ASCII: non-empty and decimal digits only. *)
Fixpoint all_digits (s : string) : bool :=
  match s with
  | EmptyString => true
  | String c r => is_digit c && all_digits r
  end.

Definition isdigit (s : string) : bool :=
  match s with EmptyString => false | _ => all_digits s end.

(** The body of a decimal literal as [int(str)] reads it: digits, with
    single underscores allowed between two digits. [after_digit] tells
    whether the previous character was a digit. *)
Fixpoint int_body (s : string) (after_digit : bool) (acc : Z) : option Z :=
  match s with
  | EmptyString => if after_digit then Some acc else None
  | String c r =>
      if is_digit c then int_body r true (10 * acc + digit_val c)
      else if Ascii.eqb c "_"%char then
        (if after_digit then int_body r false acc else None)
      else None
  end.

(** The white space that [int] skips around a literal: C's [isspace],
    a smaller set than that of [str.strip]. *)
Definition is_int_space (c : ascii) : bool :=
  let n := Z.of_nat (nat_of_ascii c) in
  (n =? 32) || ((9 <=? n) && (n <=? 13)).

(** [int(s)] for a [str] argument, base 10; [None] is [ValueError].
    The interpreter's guard on the length of the literal
    ([sys.set_int_max_str_digits], a run-time setting) is taken as
    disabled. *)
Definition int (s : string) : option Z :=
  match strip_by is_int_space s with
  | String "-" t => Z.opp <$> int_body t false 0
  | String "+" t => int_body t false 0
  | t => int_body t false 0
  end.

(** [x or d] where [x] is [None] or a [str]. *)
Definition or_str (x : option string) (d : string) : string :=
  match x with
  | Some (String c r) => String c r
  | _ => d
  end.

(** Truthiness of an optional string: [not x] is [negb (truthy x)]. *)
Definition truthy (x : option string) : bool :=
  match x with
  | Some (String _ _) => true
  | _ => false
  end.

(** ** The [datetime] module *)

(** Civil calendar, after CPython's [_pydatetime]. *)
Definition is_leap (y : Z) : bool :=
  (y mod 4 =? 0) && (negb (y mod 100 =? 0) || (y mod 400 =? 0)).

Definition days_before_year (y : Z) : Z :=
  let y := y - 1 in y * 365 + y / 4 - y / 100 + y / 400.

(** [_DAYS_IN_MONTH] and [_DAYS_BEFORE_MONTH], for a common year. *)
Definition DAYS_IN_MONTH (m : Z) : Z :=
  match m with
  | 1 => 31 | 2 => 28 | 3 => 31 | 4 => 30 | 5 => 31 | 6 => 30
  | 7 => 31 | 8 => 31 | 9 => 30 | 10 => 31 | 11 => 30 | 12 => 31
  | _ => 0
  end.

Definition DAYS_BEFORE_MONTH (m : Z) : Z :=
  match m with
  | 1 => 0 | 2 => 31 | 3 => 59 | 4 => 90 | 5 => 120 | 6 => 151
  | 7 => 181 | 8 => 212 | 9 => 243 | 10 => 273 | 11 => 304 | 12 => 334
  | _ => 0
  end.

Definition days_in_month (y m : Z) : Z :=
  if (m =? 2) && is_leap y then 29 else DAYS_IN_MONTH m.

Definition days_before_month (y m : Z) : Z :=
  DAYS_BEFORE_MONTH m + (if (2 <? m) && is_leap y then 1 else 0).

Definition ymd2ord (y m d : Z) : Z :=
  days_before_year y + days_before_month y m + d.

Definition ord2ymd (n : Z) : Z * Z * Z :=
  let n := n - 1 in
  let n400 := n / 146097 in
  let n := n mod 146097 in
  let year := n400 * 400 + 1 in
  let n100 := n / 36524 in
  let n := n mod 36524 in
  let n4 := n / 1461 in
  let n := n mod 1461 in
  let n1 := n / 365 in
  let n := n mod 365 in
  let year := year + n100 * 100 + n4 * 4 + n1 in
  if (n1 =? 4) || (n100 =? 4) then (year - 1, 12, 31)
  else
    let leapyear := (n1 =? 3) && (negb (n4 =? 24) || (n100 =? 3)) in
    let month := Z.shiftr (n + 50) 5 in
    let preceding :=
      DAYS_BEFORE_MONTH month + (if (2 <? month) && leapyear then 1 else 0) in
    if n <? preceding then
      let month := month - 1 in
      let preceding :=
        preceding
        - (DAYS_IN_MONTH month + (if (month =? 2) && leapyear then 1 else 0)) in
      (year, month, n - preceding + 1)
    else (year, month, n - preceding + 1).

(** [date]: the proleptic Gregorian ordinal, [date.min] is 1 and
    [date.max] (9999-12-31) is 3652059. *)
Definition date := Z.
Definition date_min : date := 1.
Definition date_max : date := 3652059.
Definition date_ok (d : date) : bool := (date_min <=? d) && (d <=? date_max).

(** A valid civil date, as the [date(y, m, d)] constructor checks it. *)
Definition ymd_ok (y m d : Z) : bool :=
  (1 <=? y) && (y <=? 9999) && (1 <=? m) && (m <=? 12)
  && (1 <=? d) && (d <=? days_in_month y m).

(** [date(y, m, d)]; [None] is [ValueError]. *)
Definition mk_date (y m d : Z) : option date :=
  if ymd_ok y m d then Some (ymd2ord y m d) else None.

(** [d.weekday()]: Monday is 0. *)
Definition weekday (d : date) : Z := (d + 6) mod 7.

(** [d + timedelta(days = k)]; [None] is [OverflowError]. *)
Definition date_add_days (d : date) (k : Z) : option date :=
  let r := d + k in if date_ok r then Some r else None.

(** Decimal rendering on exactly [w] digits, as [%0wd] gives it for
    [0 <= n < 10 ^ w]. *)
Definition digit_char (n : Z) : ascii := ascii_of_nat (Z.to_nat (48 + n)).

Fixpoint zpad (w : nat) (n : Z) : string :=
  match w with
  | O => EmptyString
  | S w' =>
      String (digit_char (n / 10 ^ Z.of_nat w')) (zpad w' (n mod 10 ^ Z.of_nat w'))
  end.

(** Reading back exactly [w] decimal digits at the head of a string. *)
Fixpoint take_digits (w : nat) (s : string) (acc : Z) : option (Z * string) :=
  match w with
  | O => Some (acc, s)
  | S w' =>
      match s with
      | String c r =>
          if is_digit c then take_digits w' r (10 * acc + digit_val c) else None
      | EmptyString => None
      end
  end.

Definition take_char (c : ascii) (s : string) : option string :=
  match s with
  | String c' r => if Ascii.eqb c c' then Some r else None
  | EmptyString => None
  end.

(** [d.isoformat()]: [YYYY-MM-DD]. *)
Definition date_isoformat (d : date) : string :=
  let '(y, m, dd) := ord2ymd d in
  zpad 4 y ++ "-" ++ zpad 2 m ++ "-" ++ zpad 2 dd.

(** [date.fromisoformat(s)] on the extended format [YYYY-MM-DD] that
    [isoformat] writes (later interpreters also read other ISO 8601 forms,
    which [isoformat] never produces); [None] is [ValueError]. *)
Definition date_fromisoformat (s : string) : option date :=
  '(y, s) ← take_digits 4 s 0;
  s ← take_char "-" s;
  '(m, s) ← take_digits 2 s 0;
  s ← take_char "-" s;
  '(d, s) ← take_digits 2 s 0;
  match s with
  | EmptyString => mk_date y m d
  | _ => None
  end.

(** Naive [datetime]: microseconds since 0001-01-01T00:00:00.
    [timedelta]: microseconds. *)
Definition datetime := Z.
Definition timedelta := Z.

Definition US_PER_SECOND : Z := 1000000.
Definition US_PER_DAY : Z := 86400 * US_PER_SECOND.

Definition datetime_ok (t : datetime) : bool :=
  (0 <=? t) && (t <? date_max * US_PER_DAY).

(** The [days] field of a normalised [timedelta] lies within
    [-999999999, 999999999]. *)
Definition timedelta_ok (td : timedelta) : bool :=
  (-999999999 <=? td / US_PER_DAY) && (td / US_PER_DAY <=? 999999999).

(** [timedelta(seconds = n)], [timedelta(minutes = n)] for an [int];
    [None] is [OverflowError]. *)
Definition timedelta_seconds (n : Z) : option timedelta :=
  let td := n * US_PER_SECOND in if timedelta_ok td then Some td else None.

Definition timedelta_minutes (n : Z) : option timedelta :=
  let td := n * 60 * US_PER_SECOND in if timedelta_ok td then Some td else None.

(** [t + td]; [None] is [OverflowError]. *)
Definition datetime_add (t : datetime) (td : timedelta) : option datetime :=
  let r := t + td in if datetime_ok r then Some r else None.

(** [t.date()] *)
Definition datetime_date (t : datetime) : date := t / US_PER_DAY + 1.

(** [datetime.combine(d, datetime.min.time())]: midnight of [d]. *)
Definition combine_midnight (d : date) : datetime := (d - 1) * US_PER_DAY.

(** [t.isoformat()]: [YYYY-MM-DDTHH:MM:SS], followed by [.ffffff] when the
    microsecond field is not zero. *)
Definition datetime_isoformat (t : datetime) : string :=
  let us := t mod US_PER_DAY in
  let secs := us / US_PER_SECOND in
  let frac := us mod US_PER_SECOND in
  date_isoformat (datetime_date t) ++ "T"
  ++ zpad 2 (secs / 3600) ++ ":" ++ zpad 2 (secs / 60 mod 60) ++ ":"
  ++ zpad 2 (secs mod 60)
  ++ (if frac =? 0 then "" else "." ++ zpad 6 frac).

(** Reference instances of the two [%Y%m%d] conversions, to run the
    examples: [datetime.strptime(s, "%Y%m%d").date()] on a string of
    eight characters, where the day may be a blank and a digit, and
    [d.strftime("%Y%m%d")] for a year of four digits. *)
Definition strptime_Ymd (s : string) : option date :=
  '(y, s) ← take_digits 4 s 0;
  '(m, s) ← take_digits 2 s 0;
  '(d, s) ← match s with
            | String " " r => take_digits 1 r 0
            | _ => take_digits 2 s 0
            end;
  match s with
  | EmptyString => mk_date y m d
  | _ => None
  end.

Definition strftime_Ymd (d : date) : string :=
  let '(y, m, dd) := ord2ymd d in zpad 4 y ++ zpad 2 m ++ zpad 2 dd.

(** [sub in s] *)
Fixpoint contains (sub s : string) : bool :=
  String.prefix sub s
  || match s with
     | EmptyString => false
     | String _ r => contains sub r
     end.

(** [s.endswith(c)] for a one-character suffix. *)
Fixpoint endswith_char (c : ascii) (s : string) : bool :=
  match s with
  | EmptyString => false
  | String a EmptyString => Ascii.eqb a c
  | String _ r => endswith_char c r
  end.

(** [s.rsplit(sep, 1)[1]] for a one-character separator: what follows
    the last separator; [None] when [s] has no separator (and [rsplit]
    returns a list of one element). *)
Fixpoint after_last (sep : ascii) (s : string) : option string :=
  match s with
  | EmptyString => None
  | String c r =>
      match after_last sep r with
      | Some t => Some t
      | None => if Ascii.eqb c sep then Some r else None
      end
  end.

(** [s[:-1]] *)
Fixpoint drop_last (s : string) : string :=
  match s with
  | EmptyString => EmptyString
  | String _ EmptyString => EmptyString
  | String c r => String c (drop_last r)
  end.

(** The decimal digits of [n >= 0], prepended to [acc]; [fuel] bounds
    their number. *)
Fixpoint str_digits (fuel : nat) (n : Z) (acc : string) : string :=
  match fuel with
  | O => acc
  | S fuel =>
      let acc := String (Py.digit_char (n mod 10)) acc in
      if n <? 10 then acc else str_digits fuel (n / 10) acc
  end.

(** [str(n)] for an [int]; the guard on the number of digits is taken
    as disabled, as for [int]. *)
Definition str_int (n : Z) : string :=
  if n <? 0 then String "-" (str_digits (S (Z.to_nat (Z.log2 (- n)))) (- n) "")
  else str_digits (S (Z.to_nat (Z.log2 n))) n "".

(** [n] times the character "0". *)
Fixpoint zeros (n : nat) : string :=
  match n with
  | O => EmptyString
  | S n => String "0" (zeros n)
  end.

(** [s.zfill(width)]: zeros are put after a leading sign. *)
Definition zfill (s : string) (width : nat) : string :=
  if (width <=? String.length s)%nat then s
  else
    let fill := zeros (width - String.length s) in
    match s with
    | String "-" t => String "-" (fill ++ t)
    | String "+" t => String "+" (fill ++ t)
    | _ => fill ++ s
    end.

(** [s.rsplit(sep, 1)[0]] for a one-character separator: what precedes
    the last separator, and [s] itself when it has none. *)
Fixpoint before_last (sep : ascii) (s : string) : string :=
  match s with
  | EmptyString => EmptyString
  | String c r =>
      match after_last sep r with
      | Some _ => String c (before_last sep r)
      | None => if Ascii.eqb c sep then EmptyString
                else String c (before_last sep r)
      end
  end.

End Py.

(** ** [gtfs_index.py] *)

Module GtfsIndex.

(** A row of [csv.DictReader]. *)
Abbreviation row := (gmap string string).

(** Python's stable [sorted] / [list.sort] with a [key]; [ltb] is [<] on
    the keys. *)
Fixpoint insert_by {A K : Type} (ltb : K -> K -> bool) (key : A -> K)
    (x : A) (l : list A) : list A :=
  match l with
  | [] => [x]
  | y :: ys =>
      if ltb (key y) (key x) then y :: insert_by ltb key x ys else x :: y :: ys
  end.

Fixpoint sorted_by {A K : Type} (ltb : K -> K -> bool) (key : A -> K)
    (l : list A) : list A :=
  match l with
  | [] => []
  | x :: xs => insert_by ltb key x (sorted_by ltb key xs)
  end.

(** [a] may stand before [b]: the key of [b] is not below that of [a]. *)
Definition key_le {A K : Type} (ltb : K -> K -> bool) (key : A -> K)
    (a b : A) : Prop :=
  ltb (key b) (key a) = false.

(** On the elements that satisfy [P], [ltb] on the keys is a strict
    order whose complement is transitive. *)
Definition ordered_on {A K : Type} (ltb : K -> K -> bool) (key : A -> K)
    (P : A -> Prop) : Prop :=
  (forall x y, P x -> P y -> ltb (key x) (key y) = true -> key_le ltb key x y)
  /\ (forall x y z, P x -> P y -> P z ->
        key_le ltb key x y -> key_le ltb key y z -> key_le ltb key x z).

(** [next((x for x in l if p(x)), None)] *)
Fixpoint next_where {A : Type} (p : A -> bool) (l : list A) : option A :=
  match l with
  | [] => None
  | x :: xs => if p x then Some x else next_where p xs
  end.

(** [l[:limit]] *)
Definition slice_to {A : Type} (l : list A) (limit : Z) : list A :=
  if 0 <=? limit then take (Z.to_nat limit) l
  else take (Z.to_nat (Z.of_nat (length l) + limit)) l.

Record StopTime := {
  stop_id : string;
  stop_sequence : Z;
  departure_secs : Z;
  arrival_secs : Z
}.

(** The three-key dict stored per trip. *)
Record Trip := {
  route_id : string;
  service_id : string;
  trip_headsign : string
}.

(** The tables of a parsed feed: the attributes of [GtfsIndex] that
    [_load] fills ([stop_coords], a table of floats read by the nearby
    query only, is left out). *)
Record t := {
  routes : gmap string string;
  route_types : gmap string Z;
  route_label_to_id : gmap string string;
  stops : gmap string string;
  stop_label_to_id : gmap string string;
  trips : gmap string Trip;
  stop_times_by_trip : gmap string (list StopTime);
  trips_by_route : gmap string (list string);
  departures_by_stop : gmap string (list (string * Z));
  calendar : gmap string row;
  calendar_dates : gmap string (list (string * string))
}.

Definition empty : t := {|
  routes := ∅; route_types := ∅; route_label_to_id := ∅;
  stops := ∅; stop_label_to_id := ∅; trips := ∅;
  stop_times_by_trip := ∅; trips_by_route := ∅; departures_by_stop := ∅;
  calendar := ∅; calendar_dates := ∅
|}.

Definition _route_mode (route_type : option Z) : string :=
  match route_type with
  | None => "other"
  | Some rt =>
      if (rt =? 0) || ((900 <=? rt) && (rt <=? 906)) then "tram"
      else if (rt =? 3) || (rt =? 11) || ((700 <=? rt) && (rt <=? 716))
              || (rt =? 800) then "bus"
      else "other"
  end.

Definition _hhmmss_to_seconds (value : string) : Z :=
  match Py.split ":" value with
  | [p0; p1; p2] =>
      match Py.int p0, Py.int p1, Py.int p2 with
      | Some hours, Some minutes, Some seconds =>
          hours * 3600 + minutes * 60 + seconds
      | _, _, _ => 0
      end
  | _ => 0
  end.

(** *** [_load]

    The archive is given by the rows [_iter_csv] yields for each of its
    tables (the empty list for a missing table). *)

Definition is_space_or_dash (c : ascii) : bool :=
  Ascii.eqb c " " || Ascii.eqb c "-".

Definition load_route (idx : t) (r : row) : t :=
  match r !! "route_id" with
  | Some (String c0 rid0) =>
      let route_id := String c0 rid0 in
      let short := Py.strip (Py.or_str (r !! "route_short_name") "") in
      let long := Py.strip (Py.or_str (r !! "route_long_name") "") in
      let label :=
        match Py.strip_by is_space_or_dash (short ++ " - " ++ long) with
        | EmptyString => route_id
        | l => l
        end in
      let route_type :=
        match Py.int (Py.strip (Py.or_str (r !! "route_type") "3")) with
        | Some n => n
        | None => 3
        end in
      {| routes := <[route_id := label]> (routes idx);
         route_types := <[route_id := route_type]> (route_types idx);
         route_label_to_id := <[label := route_id]> (route_label_to_id idx);
         stops := stops idx; stop_label_to_id := stop_label_to_id idx;
         trips := trips idx; stop_times_by_trip := stop_times_by_trip idx;
         trips_by_route := trips_by_route idx;
         departures_by_stop := departures_by_stop idx;
         calendar := calendar idx; calendar_dates := calendar_dates idx |}
  | _ => idx
  end.

Definition load_stop (idx : t) (r : row) : t :=
  let stop_name := Py.strip (Py.or_str (r !! "stop_name") "") in
  match r !! "stop_id", stop_name with
  | Some (String c0 sid0), String _ _ =>
      let stop_id := String c0 sid0 in
      {| routes := routes idx; route_types := route_types idx;
         route_label_to_id := route_label_to_id idx;
         stops := <[stop_id := stop_name]> (stops idx);
         stop_label_to_id :=
           <[stop_name ++ " [" ++ stop_id ++ "]" := stop_id]>
             (stop_label_to_id idx);
         trips := trips idx; stop_times_by_trip := stop_times_by_trip idx;
         trips_by_route := trips_by_route idx;
         departures_by_stop := departures_by_stop idx;
         calendar := calendar idx; calendar_dates := calendar_dates idx |}
  | _, _ => idx
  end.

(** [d[k].append(x)] on a [defaultdict(list)]. *)
Definition dd_append {A : Type} (k : string) (x : A)
    (d : gmap string (list A)) : gmap string (list A) :=
  <[k := (default [] (d !! k) ++ [x])%list]> d.

Definition load_trip (idx : t) (r : row) : t :=
  match r !! "trip_id", r !! "route_id", r !! "service_id" with
  | Some (String c0 t0), Some (String c1 r1), Some (String c2 s2) =>
      let trip_id := String c0 t0 in
      let route_id := String c1 r1 in
      let service_id := String c2 s2 in
      {| routes := routes idx; route_types := route_types idx;
         route_label_to_id := route_label_to_id idx;
         stops := stops idx; stop_label_to_id := stop_label_to_id idx;
         trips :=
           <[trip_id := {| route_id := route_id; service_id := service_id;
                           trip_headsign :=
                             Py.strip (Py.or_str (r !! "trip_headsign") "") |}]>
             (trips idx);
         stop_times_by_trip := stop_times_by_trip idx;
         trips_by_route := dd_append route_id trip_id (trips_by_route idx);
         departures_by_stop := departures_by_stop idx;
         calendar := calendar idx; calendar_dates := calendar_dates idx |}
  | _, _, _ => idx
  end.

(** One row of [stop_times.txt]; [None] is the [ValueError] that
    [int(row.get("stop_sequence") or 0)] raises, which nothing catches. *)
Definition load_stop_time (idx : t) (r : row) : option t :=
  match r !! "trip_id", r !! "stop_id" with
  | Some (String c0 t0), Some (String c1 s1) =>
      let trip_id := String c0 t0 in
      let stop_id := String c1 s1 in
      let departure := _hhmmss_to_seconds (Py.or_str (r !! "departure_time") "") in
      let arrival := _hhmmss_to_seconds (Py.or_str (r !! "arrival_time") "") in
      seq ← match r !! "stop_sequence" with
            | Some (String c q) => Py.int (String c q)
            | _ => Some 0
            end;
      let stop_time :=
        {| stop_id := stop_id; stop_sequence := seq;
           departure_secs := departure; arrival_secs := arrival |} in
      Some
        {| routes := routes idx; route_types := route_types idx;
           route_label_to_id := route_label_to_id idx;
           stops := stops idx; stop_label_to_id := stop_label_to_id idx;
           trips := trips idx;
           stop_times_by_trip :=
             dd_append trip_id stop_time (stop_times_by_trip idx);
           trips_by_route := trips_by_route idx;
           departures_by_stop :=
             dd_append stop_id (trip_id, departure) (departures_by_stop idx);
           calendar := calendar idx; calendar_dates := calendar_dates idx |}
  | _, _ => Some idx
  end.

(** The two sorting passes that follow the scan of [stop_times.txt]. *)
Definition sort_stop_times (idx : t) : t :=
  {| routes := routes idx; route_types := route_types idx;
     route_label_to_id := route_label_to_id idx;
     stops := stops idx; stop_label_to_id := stop_label_to_id idx;
     trips := trips idx;
     stop_times_by_trip :=
       sorted_by Z.ltb stop_sequence <$> stop_times_by_trip idx;
     trips_by_route := trips_by_route idx;
     departures_by_stop := sorted_by Z.ltb snd <$> departures_by_stop idx;
     calendar := calendar idx; calendar_dates := calendar_dates idx |}.

Definition load_calendar (idx : t) (r : row) : t :=
  match r !! "service_id" with
  | Some (String c0 s0) =>
      {| routes := routes idx; route_types := route_types idx;
         route_label_to_id := route_label_to_id idx;
         stops := stops idx; stop_label_to_id := stop_label_to_id idx;
         trips := trips idx; stop_times_by_trip := stop_times_by_trip idx;
         trips_by_route := trips_by_route idx;
         departures_by_stop := departures_by_stop idx;
         calendar := <[String c0 s0 := r]> (calendar idx);
         calendar_dates := calendar_dates idx |}
  | _ => idx
  end.

Definition load_calendar_date (idx : t) (r : row) : t :=
  match r !! "service_id", r !! "date", r !! "exception_type" with
  | Some (String c0 s0), Some (String c1 d1), Some (String c2 e2) =>
      {| routes := routes idx; route_types := route_types idx;
         route_label_to_id := route_label_to_id idx;
         stops := stops idx; stop_label_to_id := stop_label_to_id idx;
         trips := trips idx; stop_times_by_trip := stop_times_by_trip idx;
         trips_by_route := trips_by_route idx;
         departures_by_stop := departures_by_stop idx;
         calendar := calendar idx;
         calendar_dates :=
           dd_append (String c1 d1) (String c0 s0, String c2 e2)
             (calendar_dates idx) |}
  | _, _, _ => idx
  end.

(** A loop over rows whose body can raise. *)
Fixpoint load_rows (f : t -> row -> option t) (idx : t) (rows : list row)
  : option t :=
  match rows with
  | [] => Some idx
  | r :: rs => idx' ← f idx r; load_rows f idx' rs
  end.

Record Archive := {
  routes_txt : list row;
  stops_txt : list row;
  trips_txt : list row;
  stop_times_txt : list row;
  calendar_txt : list row;
  calendar_dates_txt : list row
}.

Definition _load (a : Archive) : option t :=
  let idx := foldl load_route empty (routes_txt a) in
  let idx := foldl load_stop idx (stops_txt a) in
  let idx := foldl load_trip idx (trips_txt a) in
  idx ← load_rows load_stop_time idx (stop_times_txt a);
  let idx := sort_stop_times idx in
  let idx := foldl load_calendar idx (calendar_txt a) in
  Some (foldl load_calendar_date idx (calendar_dates_txt a)).

(** *** The memo of active services

    [set] objects live in a heap; [_active_services_cache] maps a date to
    a reference, and so does every caller holding a returned set. *)

Abbreviation loc := nat.

Record store := {
  heap : gmap loc (gset string);
  cache : gmap Py.date loc
}.

Definition empty_store : store := {| heap := ∅; cache := ∅ |}.

(** [set(s)] / [set()]: a new object. *)
Definition alloc (s : gset string) (h : gmap loc (gset string))
  : loc * gmap loc (gset string) :=
  let l := fresh (dom h) in (l, <[l := s]> h).

Definition deref (h : gmap loc (gset string)) (l : loc) : gset string :=
  default ∅ (h !! l).

(** [WEEKDAY_MAP[day.weekday()]]; [weekday] ranges over 0..6. *)
Definition WEEKDAY_MAP (n : Z) : string :=
  match n with
  | 0 => "monday" | 1 => "tuesday" | 2 => "wednesday" | 3 => "thursday"
  | 4 => "friday" | 5 => "saturday" | _ => "sunday"
  end.

(** [sorted(cache.keys())[-8:]], then the dict rebuilt on these keys. *)
Definition evict (c : gmap Py.date loc) : gmap Py.date loc :=
  let ks := sorted_by Z.ltb id (map_to_list c).*1 in
  let newest_days := drop (length ks - 8) ks in
  list_to_map (omap (fun k => pair k <$> c !! k) newest_days).

Section Clib.

(** The two [%Y%m%d] conversions of the platform:
    [datetime.strptime(s, "%Y%m%d").date()], [None] being [ValueError],
    and [d.strftime("%Y%m%d")]. *)
Variable strptime_Ymd : string -> option Py.date.
Variable strftime_Ymd : Py.date -> string.

Definition _yyyymmdd_to_date (value : option string) : option Py.date :=
  match value with
  | Some (String c r) =>
      if (String.length (String c r) =? 8)%nat then strptime_Ymd (String c r)
      else None
  | _ => None
  end.

Variable idx : t.

(** The body of the loop over [calendar.items()]. *)
Definition calendar_step (day : Py.date) (services : gset string)
    (item : string * row) : gset string :=
  let '(sid, r) := item in
  let start := _yyyymmdd_to_date (r !! "start_date") in
  let end_ := _yyyymmdd_to_date (r !! "end_date") in
  if match start with Some s => day <? s | None => false end then services
  else if match end_ with Some e => e <? day | None => false end then services
  else if bool_decide (r !! WEEKDAY_MAP (Py.weekday day) = Some "1")
       then {[sid]} ∪ services
       else services.

(** The body of the loop over the exceptions of the date. *)
Definition exception_step (services : gset string) (e : string * string)
  : gset string :=
  let '(sid, exception_type) := e in
  if (exception_type =? "1")%string then {[sid]} ∪ services
  else if (exception_type =? "2")%string then services ∖ {[sid]}
  else services.

Definition compute_services (day : Py.date) : gset string :=
  let services := foldl (calendar_step day) ∅ (map_to_list (calendar idx)) in
  foldl exception_step services
    (default [] (calendar_dates idx !! strftime_Ymd day)).

Definition _active_services_for_day (day : Py.date) (st : store)
  : loc * store :=
  match cache st !! day with
  | Some cached =>
      let '(l, h) := alloc (deref (heap st) cached) (heap st) in
      (l, {| heap := h; cache := cache st |})
  | None =>
      let '(services, h) := alloc (compute_services day) (heap st) in
      let '(copy, h) := alloc (deref h services) h in
      let c := <[day := copy]> (cache st) in
      let c := if (8 <? size c)%nat then evict c else c in
      (services, {| heap := h; cache := c |})
  end.

(** The set that a call returns: the cached one, or the computed one. *)
Definition answer (day : Py.date) (st : store) : gset string :=
  match cache st !! day with
  | Some cached => deref (heap st) cached
  | None => compute_services day
  end.

(** *** The queries *)

Definition _time_for_service_day (service_day : Py.date) (value_secs : Z)
  : option Py.datetime :=
  td ← Py.timedelta_seconds value_secs;
  Py.datetime_add (Py.combine_midnight service_day) td.

(** [[now.date() - 1 day, now.date(), now.date() + 1 day]] *)
Definition service_dates (now_local : Py.datetime) : option (list Py.date) :=
  let today := Py.datetime_date now_local in
  yesterday ← Py.date_add_days today (-1);
  tomorrow ← Py.date_add_days today 1;
  Some [yesterday; today; tomorrow].

(** [{d: self._active_services_for_day(d) for d in service_dates}]; the
    dates are pairwise distinct, so the dict is the list of its items. *)
Fixpoint active_services (dates : list Py.date) (st : store)
  : list (Py.date * loc) * store :=
  match dates with
  | [] => ([], st)
  | d :: ds =>
      let '(l, st) := _active_services_for_day d st in
      let '(rest, st) := active_services ds st in
      ((d, l) :: rest, st)
  end.

(** [wanted and wanted != "All" and actual != wanted] *)
Definition filtered_out (wanted actual : string) : bool :=
  negb (wanted =? "")%string && negb (wanted =? "All")%string
  && negb (actual =? wanted)%string.

(** [self.trips.get(trip_id, {}).get("trip_headsign") or "Unknown"] *)
Definition headsign_of (trip : option Trip) : string :=
  Py.or_str (trip_headsign <$> trip) "Unknown".

(** The records of the station board ([delay_minutes], a float rounded to
    one decimal, is not represented). *)
Record BoardEntry := {
  b_trip_id : string;
  b_route : string;
  b_direction : string;
  b_mode : string;
  b_planned : string;
  b_rt : string
}.

Section Board.

Variables (now_local window_end : Py.datetime) (h : gmap loc (gset string)).
Variables (direction_label board_route_label : string).
Variable delay_by_trip : gmap string Z.

(** The loop over [active_services.items()] for one departure. *)
Fixpoint board_days (trip_id : string) (trip : Trip) (headsign : string)
    (dep_secs : Z) (days : list (Py.date * loc))
  : option (list BoardEntry) :=
  match days with
  | [] => Some []
  | (service_day, services) :: days =>
      if bool_decide (service_id trip ∈ deref h services) then
        dep_planned ← _time_for_service_day service_day dep_secs;
        let delay_seconds := default 0 (delay_by_trip !! trip_id) in
        td ← Py.timedelta_seconds delay_seconds;
        dep_rt ← Py.datetime_add dep_planned td;
        if (dep_rt <? now_local) || (window_end <? dep_rt) then
          board_days trip_id trip headsign dep_secs days
        else
          let route_id := route_id trip in
          let trip_route_label := default route_id (routes idx !! route_id) in
          if filtered_out board_route_label trip_route_label then
            board_days trip_id trip headsign dep_secs days
          else
            rest ← board_days trip_id trip headsign dep_secs days;
            Some ({| b_trip_id := trip_id;
                     b_route := trip_route_label;
                     b_direction := headsign;
                     b_mode := _route_mode (route_types idx !! route_id);
                     b_planned := Py.datetime_isoformat dep_planned;
                     b_rt := Py.datetime_isoformat dep_rt |} :: rest)
      else board_days trip_id trip headsign dep_secs days
  end.

(** The loop over [departures_by_stop.get(stop_id, [])]. *)
Fixpoint board_entries (days : list (Py.date * loc))
    (deps : list (string * Z)) : option (list BoardEntry) :=
  match deps with
  | [] => Some []
  | (trip_id, dep_secs) :: deps =>
      match trips idx !! trip_id with
      | Some trip =>
          if negb (Py.truthy (Some (service_id trip))) then
            board_entries days deps
          else
            let headsign := headsign_of (Some trip) in
            if filtered_out direction_label headsign then
              board_entries days deps
            else
              es ← board_days trip_id trip headsign dep_secs days;
              rest ← board_entries days deps;
              Some (es ++ rest)%list
      | None => board_entries days deps
      end
  end.

End Board.

Definition station_direction_board (now_local : Py.datetime)
    (station_label direction_label board_route_label : string)
    (window_minutes : Z) (delay_by_trip : gmap string Z) (st : store)
  : option (list BoardEntry) * store :=
  match stop_label_to_id idx !! station_label with
  | Some (String c0 s0) =>
      let stop_id := String c0 s0 in
      match (td ← Py.timedelta_minutes window_minutes;
             window_end ← Py.datetime_add now_local td;
             dates ← service_dates now_local;
             Some (window_end, dates)) with
      | Some (window_end, dates) =>
          let '(active, st) := active_services dates st in
          (sorted_by String.ltb b_rt
             <$> board_entries now_local window_end (heap st) direction_label
                   board_route_label delay_by_trip active
                   (default [] (departures_by_stop idx !! stop_id)),
           st)
      | None => (None, st)
      end
  | _ => (Some [], st)
  end.

(** The records of the origin-destination query ([delay_minutes] is not
    represented). *)
Record OdEntry := {
  od_trip_id : string;
  od_route : string;
  od_direction : string;
  od_from_stop : string;
  od_to_stop : string;
  od_departure_planned : string;
  od_departure_rt : string;
  od_arrival_planned : string;
  od_arrival_rt : string
}.

Section OD.

Variables (now_local : Py.datetime) (h : gmap loc (gset string)).
Variables (route_label direction_label from_stop_label to_stop_label : string).
Variable delay_by_trip : gmap string Z.

Fixpoint od_days (trip_id service : string) (headsign : string)
    (from_entry to_entry : StopTime) (days : list (Py.date * loc))
  : option (list OdEntry) :=
  match days with
  | [] => Some []
  | (service_day, services) :: days =>
      if bool_decide (service ∈ deref h services) then
        dep_planned ← _time_for_service_day service_day (departure_secs from_entry);
        arr_planned ← _time_for_service_day service_day (arrival_secs to_entry);
        let delay_seconds := default 0 (delay_by_trip !! trip_id) in
        td ← Py.timedelta_seconds delay_seconds;
        dep_rt ← Py.datetime_add dep_planned td;
        arr_rt ← Py.datetime_add arr_planned td;
        if dep_rt <? now_local then
          od_days trip_id service headsign from_entry to_entry days
        else
          rest ← od_days trip_id service headsign from_entry to_entry days;
          Some ({| od_trip_id := trip_id;
                   od_route := route_label;
                   od_direction := headsign;
                   od_from_stop := from_stop_label;
                   od_to_stop := to_stop_label;
                   od_departure_planned := Py.datetime_isoformat dep_planned;
                   od_departure_rt := Py.datetime_isoformat dep_rt;
                   od_arrival_planned := Py.datetime_isoformat arr_planned;
                   od_arrival_rt := Py.datetime_isoformat arr_rt |} :: rest)
      else od_days trip_id service headsign from_entry to_entry days
  end.

Fixpoint od_trips (from_stop to_stop : string) (days : list (Py.date * loc))
    (trip_ids : list string) : option (list OdEntry) :=
  match trip_ids with
  | [] => Some []
  | trip_id :: trip_ids =>
      let trip := trips idx !! trip_id in
      let headsign := headsign_of trip in
      if filtered_out direction_label headsign then
        od_trips from_stop to_stop days trip_ids
      else
        match service_id <$> trip with
        | Some (String c0 s0) =>
            let stop_times := default [] (stop_times_by_trip idx !! trip_id) in
            let from_entry :=
              next_where (fun st => (stop_id st =? from_stop)%string) stop_times in
            let to_entry :=
              match from_entry with
              | Some fe =>
                  next_where
                    (fun st => (stop_id st =? to_stop)%string
                               && (stop_sequence fe <? stop_sequence st))
                    stop_times
              | None => None
              end in
            match from_entry, to_entry with
            | Some fe, Some te =>
                es ← od_days trip_id (String c0 s0) headsign fe te days;
                rest ← od_trips from_stop to_stop days trip_ids;
                Some (es ++ rest)%list
            | _, _ => od_trips from_stop to_stop days trip_ids
            end
        | _ => od_trips from_stop to_stop days trip_ids
        end
  end.

End OD.

(** The deduplication loop, over the rows sorted by [departure_rt]. *)
Fixpoint dedup (seen : gset (string * string)) (rows : list OdEntry)
  : list OdEntry :=
  match rows with
  | [] => []
  | item :: rows =>
      let key := (od_trip_id item, od_departure_rt item) in
      if bool_decide (key ∈ seen) then dedup seen rows
      else item :: dedup ({[key]} ∪ seen) rows
  end.

Definition upcoming_od_do (now_local : Py.datetime)
    (route_label direction_label from_stop_label to_stop_label : string)
    (delay_by_trip : gmap string Z) (limit : Z) (st : store)
  : option (list OdEntry) * store :=
  match route_label_to_id idx !! route_label,
        stop_label_to_id idx !! from_stop_label,
        stop_label_to_id idx !! to_stop_label with
  | Some (String c0 r0), Some (String c1 f1), Some (String c2 t2) =>
      let route_id := String c0 r0 in
      match service_dates now_local with
      | Some dates =>
          let '(active, st) := active_services dates st in
          ((fun results =>
              slice_to (dedup ∅ (sorted_by String.ltb od_departure_rt results))
                limit)
             <$> od_trips now_local (heap st) route_label direction_label
                   from_stop_label to_stop_label delay_by_trip
                   (String c1 f1) (String c2 t2) active
                   (default [] (trips_by_route idx !! route_id)),
           st)
      | None => (None, st)
      end
  | _, _, _ => (Some [], st)
  end.

End Clib.

(** *** The selectors and the queries by name *)

(** [sorted(d)] for the keys of a dict and [sorted(s)] for a set of
    [str]: the strings are pairwise distinct, so that the order in which
    they are enumerated does not show in the result. *)
Definition sorted_keys {V : Type} (d : gmap string V) : list string :=
  sorted_by String.ltb id (map_to_list d).*1.

Definition sorted_set (s : gset string) : list string :=
  sorted_by String.ltb id (elements s).

(** [seq_min[k] = v] on a dict kept in the order of its insertions: a
    key that is present keeps its place. *)
Fixpoint dict_set (k : string) (v : Z) (d : list (string * Z))
  : list (string * Z) :=
  match d with
  | [] => [(k, v)]
  | (k', v') :: d =>
      if (k' =? k)%string then (k', v) :: d else (k', v') :: dict_set k v d
  end.

(** [d.get(k, default)] on such a dict. *)
Fixpoint dict_get (k : string) (default : Z) (d : list (string * Z)) : Z :=
  match d with
  | [] => default
  | (k', v') :: d => if (k' =? k)%string then v' else dict_get k default d
  end.

Section Options.

Variable idx : t.

Definition route_options (mode_filter : option string) : list string :=
  match mode_filter with
  | Some (String c m) =>
      if (String c m =? "All")%string then sorted_keys (route_label_to_id idx)
      else
        sorted_keys
          (filter (fun item =>
                     _route_mode (route_types idx !! item.2) = String c m)
             (route_label_to_id idx))
  | _ => sorted_keys (route_label_to_id idx)
  end.

Definition station_options : list string :=
  sorted_keys (stop_label_to_id idx).

Definition _stop_label (stop_id : string) : string :=
  default stop_id (stops idx !! stop_id) ++ " [" ++ stop_id ++ "]".

(** [direction_label and direction_label != "All" and
    headsign != direction_label], for a label that may be [None]. *)
Definition other_direction (direction_label : option string)
    (headsign : string) : bool :=
  filtered_out (Py.or_str direction_label "") headsign.

(** The body of the loop over the stop times of a trip. *)
Definition seq_min_step (seq_min : list (string * Z)) (st : StopTime)
  : list (string * Z) :=
  dict_set (stop_id st)
    (Z.min (dict_get (stop_id st) (stop_sequence st) seq_min)
       (stop_sequence st))
    seq_min.

Definition get_stops_for_route (route_label : string)
    (direction_label : option string) : list string :=
  match route_label_to_id idx !! route_label with
  | Some (String c0 r0) =>
      let seq_min :=
        foldl (fun seq_min trip_id =>
                 let trip := trips idx !! trip_id in
                 if other_direction direction_label (headsign_of trip)
                 then seq_min
                 else foldl seq_min_step seq_min
                        (default [] (stop_times_by_trip idx !! trip_id)))
          [] (default [] (trips_by_route idx !! String c0 r0)) in
      let ordered := sorted_by Z.ltb snd seq_min in
      (fun item => _stop_label item.1) <$> ordered
  | _ => []
  end.

(** The body of the loop over the trips of the route. *)
Definition to_stops_step (from_stop : string)
    (direction_label : option string) (to_stops : gset string)
    (trip_id : string) : gset string :=
  let trip := trips idx !! trip_id in
  if other_direction direction_label (headsign_of trip) then to_stops
  else
    let stop_times := default [] (stop_times_by_trip idx !! trip_id) in
    match next_where (fun st => (stop_id st =? from_stop)%string) stop_times with
    | Some from_entry =>
        foldl (fun to_stops st =>
                 if stop_sequence from_entry <? stop_sequence st
                 then {[_stop_label (stop_id st)]} ∪ to_stops
                 else to_stops)
          to_stops stop_times
    | None => to_stops
    end.

Definition get_to_stops (route_label from_stop_label : string)
    (direction_label : option string) : list string :=
  match route_label_to_id idx !! route_label,
        stop_label_to_id idx !! from_stop_label with
  | Some (String c0 r0), Some (String c1 f1) =>
      sorted_set
        (foldl (to_stops_step (String c1 f1) direction_label) ∅
           (default [] (trips_by_route idx !! String c0 r0)))
  | _, _ => []
  end.

Definition get_directions_for_route (route_label : string) : list string :=
  match route_label_to_id idx !! route_label with
  | Some (String c0 r0) =>
      sorted_set
        (foldl (fun directions trip_id =>
                  {[headsign_of (trips idx !! trip_id)]} ∪ directions)
           ∅ (default [] (trips_by_route idx !! String c0 r0)))
  | _ => []
  end.

Definition get_directions_for_station (station_label : string)
  : list string :=
  match stop_label_to_id idx !! station_label with
  | Some (String c0 s0) =>
      sorted_set
        (foldl (fun directions dep =>
                  {[headsign_of (trips idx !! dep.1)]} ∪ directions)
           ∅ (default [] (departures_by_stop idx !! String c0 s0)))
  | _ => []
  end.

End Options.

(** The records of the query by stop names ([delay_minutes] is not
    represented). *)
Record BetweenEntry := {
  n_trip_id : string;
  n_route : string;
  n_mode : string;
  n_direction : string;
  n_from_stop : string;
  n_to_stop : string;
  n_departure_planned : string;
  n_departure_rt : string;
  n_arrival_planned : string;
  n_arrival_rt : string
}.

(** The record that [boards_for_station_queries] gives per station. *)
Record StationBoard := {
  sb_stop : string;
  sb_departures : list BoardEntry
}.

(** The deduplication loop of the query by stop names. *)
Fixpoint dedup_between (seen : gset (string * string))
    (rows : list BetweenEntry) : list BetweenEntry :=
  match rows with
  | [] => []
  | item :: rows =>
      let key := (n_trip_id item, n_departure_rt item) in
      if bool_decide (key ∈ seen) then dedup_between seen rows
      else item :: dedup_between ({[key]} ∪ seen) rows
  end.

Section Names.

Variable strptime_Ymd : string -> option Py.date.
Variable strftime_Ymd : Py.date -> string.

(** [str.lower], which follows the case tables of Unicode: the stop
    names of the feed are not ASCII. *)
Variable lower : string -> string.

Variable idx : t.

Definition _stop_ids_for_query (query : string) : gset string :=
  let raw := Py.strip query in
  let ql := lower raw in
  match raw with
  | EmptyString => ∅
  | _ =>
      let out : gset string :=
        match stop_label_to_id idx !! raw with
        | Some (String c0 s0) => {[String c0 s0]}
        | _ => ∅
        end in
      let out :=
        match Py.after_last "[" raw with
        | Some tail =>
            if Py.endswith_char "]" raw then
              let maybe_id := Py.strip (Py.drop_last tail) in
              if bool_decide (is_Some (stops idx !! maybe_id))
              then {[maybe_id]} ∪ out else out
            else out
        | None => out
        end in
      dom (filter (fun item => Py.contains ql (lower item.2) = true) (stops idx))
      ∪ out
  end.

Section Between.

Variables (now_local window_end : Py.datetime) (h : gmap loc (gset string)).
Variable delay_by_trip : gmap string Z.

(** The loop over [active_services.items()] for one trip. *)
Fixpoint between_days (trip_id : string) (trip : Trip) (route_mode : string)
    (from_entry to_entry : StopTime) (days : list (Py.date * loc))
  : option (list BetweenEntry) :=
  match days with
  | [] => Some []
  | (service_day, services) :: days =>
      if bool_decide (service_id trip ∈ deref h services) then
        dep_planned ← _time_for_service_day service_day (departure_secs from_entry);
        arr_planned ← _time_for_service_day service_day (arrival_secs to_entry);
        let delay_seconds := default 0 (delay_by_trip !! trip_id) in
        td ← Py.timedelta_seconds delay_seconds;
        dep_rt ← Py.datetime_add dep_planned td;
        arr_rt ← Py.datetime_add arr_planned td;
        if (dep_rt <? now_local) || (window_end <? dep_rt) then
          between_days trip_id trip route_mode from_entry to_entry days
        else
          rest ← between_days trip_id trip route_mode from_entry to_entry days;
          Some ({| n_trip_id := trip_id;
                   n_route :=
                     default (route_id trip) (routes idx !! route_id trip);
                   n_mode := route_mode;
                   n_direction := headsign_of (Some trip);
                   n_from_stop := _stop_label idx (stop_id from_entry);
                   n_to_stop := _stop_label idx (stop_id to_entry);
                   n_departure_planned := Py.datetime_isoformat dep_planned;
                   n_departure_rt := Py.datetime_isoformat dep_rt;
                   n_arrival_planned := Py.datetime_isoformat arr_planned;
                   n_arrival_rt := Py.datetime_isoformat arr_rt |} :: rest)
      else between_days trip_id trip route_mode from_entry to_entry days
  end.

(** The loop over [self.trips.items()]. *)
Fixpoint between_trips (mode_filter : option string)
    (from_ids to_ids : gset string) (days : list (Py.date * loc))
    (items : list (string * Trip)) : option (list BetweenEntry) :=
  match items with
  | [] => Some []
  | (trip_id, trip) :: items =>
      let route_mode := _route_mode (route_types idx !! route_id trip) in
      if Py.truthy mode_filter
         && negb (bool_decide (Some route_mode = mode_filter)) then
        between_trips mode_filter from_ids to_ids days items
      else if negb (Py.truthy (Some (service_id trip))) then
        between_trips mode_filter from_ids to_ids days items
      else
        match default [] (stop_times_by_trip idx !! trip_id) with
        | [] => between_trips mode_filter from_ids to_ids days items
        | stop_times =>
            match next_where (fun st => bool_decide (stop_id st ∈ from_ids))
                    stop_times with
            | Some from_entry =>
                match next_where
                        (fun st =>
                           bool_decide (stop_id st ∈ to_ids)
                           && (stop_sequence from_entry <? stop_sequence st))
                        stop_times with
                | Some to_entry =>
                    es ← between_days trip_id trip route_mode from_entry
                           to_entry days;
                    rest ← between_trips mode_filter from_ids to_ids days items;
                    Some (es ++ rest)%list
                | None => between_trips mode_filter from_ids to_ids days items
                end
            | None => between_trips mode_filter from_ids to_ids days items
            end
        end
  end.

End Between.

(** [trip_items] is [self.trips.items()]: the trips in the order in
    which the dict holds them, which is the order of their first
    insertion and which a [gmap] does not keep. *)
Definition upcoming_between_stop_names (trip_items : list (string * Trip))
    (now_local : Py.datetime) (from_query to_query : string)
    (window_minutes : Z) (delay_by_trip : gmap string Z)
    (mode_filter : option string) (limit : Z) (st : store)
  : option (list BetweenEntry) * store :=
  match Py.strip (lower from_query), Py.strip (lower to_query) with
  | String _ _, String _ _ =>
      let from_ids := _stop_ids_for_query from_query in
      let to_ids := _stop_ids_for_query to_query in
      if bool_decide (from_ids = ∅) || bool_decide (to_ids = ∅) then
        (Some [], st)
      else
        match (td ← Py.timedelta_minutes window_minutes;
               window_end ← Py.datetime_add now_local td;
               dates ← service_dates now_local;
               Some (window_end, dates)) with
        | Some (window_end, dates) =>
            let '(active, st) :=
              active_services strptime_Ymd strftime_Ymd idx dates st in
            ((fun results =>
                slice_to
                  (dedup_between ∅
                     (sorted_by String.ltb n_departure_rt results))
                  limit)
               <$> between_trips now_local window_end (heap st) delay_by_trip
                     mode_filter from_ids to_ids active trip_items,
             st)
        | None => (None, st)
        end
  | _, _ => (Some [], st)
  end.

(** The loop over the stations for one query; the first component tells
    whether the function has returned. *)
Fixpoint match_query (max_stops : Z) (query : string) (stations : list string)
    (seen : gset string) (matched : list string)
  : bool * gset string * list string :=
  match stations with
  | [] => (false, seen, matched)
  | station :: stations =>
      if Py.contains query (lower station) && negb (bool_decide (station ∈ seen))
      then
        let seen := {[station]} ∪ seen in
        let matched := (matched ++ [station])%list in
        if max_stops <=? Z.of_nat (length matched) then (true, seen, matched)
        else match_query max_stops query stations seen matched
      else match_query max_stops query stations seen matched
  end.

(** The loop over the queries. *)
Fixpoint match_queries (max_stops : Z) (queries stations : list string)
    (seen : gset string) (matched : list string) : list string :=
  match queries with
  | [] => matched
  | query :: queries =>
      let '(returned, seen, matched) :=
        match_query max_stops query stations seen matched in
      if returned then matched
      else match_queries max_stops queries stations seen matched
  end.

Definition stations_matching_queries (queries : list string) (max_stops : Z)
  : list string :=
  let clean_queries :=
    (fun q => lower (Py.strip q))
      <$> List.filter (fun q => Py.truthy (Some (Py.strip q))) queries in
  match clean_queries with
  | [] => []
  | _ => match_queries max_stops clean_queries (station_options idx) ∅ []
  end.

(** The loop over the matched stations. *)
Fixpoint station_boards (now_local : Py.datetime) (window_minutes : Z)
    (delay_by_trip : gmap string Z) (stations : list string) (st : store)
  : option (list StationBoard) * store :=
  match stations with
  | [] => (Some [], st)
  | station :: stations =>
      let '(departures, st) :=
        station_direction_board strptime_Ymd strftime_Ymd idx now_local station
          "All" "All" window_minutes delay_by_trip st in
      match departures with
      | Some [] => station_boards now_local window_minutes delay_by_trip
                     stations st
      | Some departures =>
          let '(out, st) :=
            station_boards now_local window_minutes delay_by_trip stations st in
          (cons {| sb_stop := station; sb_departures := departures |} <$> out,
           st)
      | None => (None, st)
      end
  end.

Definition boards_for_station_queries (now_local : Py.datetime)
    (station_queries : list string) (window_minutes : Z)
    (delay_by_trip : gmap string Z) (max_stops : Z) (st : store)
  : option (list StationBoard) * store :=
  station_boards now_local window_minutes delay_by_trip
    (stations_matching_queries station_queries max_stops) st.

End Names.

End GtfsIndex.

(** ** [gtfs_store.py] *)

Module GtfsStore.

Definition GTFS_LISTING_URL : string := "https://www.zet.hr/gtfs2".
Definition GTFS_PORTAL_URL : string :=
  "https://www.zet.hr/odredbe/datoteke-u-gtfs-formatu/669".
Definition MAX_LISTING_CANDIDATES_TO_TRY : Z := 5.

Record FeedMeta := {
  version : string;
  start_date : option Py.date;
  end_date : option Py.date;
  file_path : string;
  source : string;
  downloaded_at : string
}.

Definition is_valid_for (self : FeedMeta) (day : Py.date) : bool :=
  if match start_date self with Some s => day <? s | None => false end
  then false
  else if match end_date self with Some e => e <? day | None => false end
  then false
  else true.

(** The values of the metadata dict: a string or [None] (JSON null). *)
Inductive json :=
| JNull
| JStr (s : string).

Definition to_dict (self : FeedMeta) : gmap string json :=
  <["version" := JStr (version self)]>
  (<["start_date" :=
       match start_date self with
       | Some d => JStr (Py.date_isoformat d)
       | None => JNull
       end]>
  (<["end_date" :=
       match end_date self with
       | Some d => JStr (Py.date_isoformat d)
       | None => JNull
       end]>
  (<["file_path" := JStr (file_path self)]>
  (<["source" := JStr (source self)]>
  (<["downloaded_at" := JStr (downloaded_at self)]> ∅))))).

(** [date.fromisoformat(raw[k]) if raw.get(k) else None]; the outer
    [None] is [ValueError]. *)
Definition date_field (raw : gmap string json) (k : string)
  : option (option Py.date) :=
  match raw !! k with
  | Some (JStr (String c r)) => Some <$> Py.date_fromisoformat (String c r)
  | _ => Some None
  end.

(** [raw.get(k, d)] for a field the dataclass declares [str]; [None] is a
    null stored under [k], which is no [str]. *)
Definition str_field (raw : gmap string json) (k d : string) : option string :=
  match raw !! k with
  | Some (JStr s) => Some s
  | Some JNull => None
  | None => Some d
  end.

(** [FeedMeta.from_dict(raw)]; [None] is [ValueError], or a dict that
    holds a null where the dataclass declares [str]. *)
Definition from_dict (raw : gmap string json) : option FeedMeta :=
  start ← date_field raw "start_date";
  end_ ← date_field raw "end_date";
  version ← str_field raw "version" "unknown";
  file_path ← str_field raw "file_path" "";
  source ← str_field raw "source" "local";
  downloaded_at ← str_field raw "downloaded_at" "";
  Some {| version := version; start_date := start; end_date := end_;
          file_path := file_path; source := source;
          downloaded_at := downloaded_at |}.

(** [_meta_rank]: the pair [(version_rank, start_rank)]. *)
Definition _meta_rank (meta : FeedMeta) : Z * Py.date :=
  let version_rank :=
    if Py.isdigit (version meta) then default (-1) (Py.int (version meta))
    else -1 in
  let start_rank := default Py.date_min (start_date meta) in
  (version_rank, start_rank).

(** [<] on the rank tuples. *)
Definition rank_lt (a b : Z * Py.date) : bool :=
  (a.1 <? b.1) || ((a.1 =? b.1) && (a.2 <? b.2)).

(** [max(l, key = _meta_rank)] on a non-empty list: the first of the
    maximal elements. *)
Fixpoint max_from (best : FeedMeta) (l : list FeedMeta) : FeedMeta :=
  match l with
  | [] => best
  | m :: l =>
      max_from (if rank_lt (_meta_rank best) (_meta_rank m) then m else best) l
  end.

(** The keys of [self.debug] that the listing fallback writes. *)
Record Debug := {
  listing_candidates : list string;
  tried_listing_urls : list string;
  selected_strategy : string;
  listing_attempts : Z
}.

Section Listing.

(** The outside world: the network and the feed cache on disk, whose
    directories exist ([_ensure_dirs] has run). *)
Context {World : Type}.

(** The [try] body of the page loop up to the candidates: the page is
    fetched and [_extract_listing_candidates] applied; [None] is any
    exception. *)
Variable fetch_candidates : string -> World -> option (list string) * World.

(** [refresh_from_url(url, source)]; [None] is any exception. *)
Variable refresh_from_url :
  string -> string -> World -> option FeedMeta * World.

(** The inner loop of the page loop. *)
Fixpoint add_candidates (seen : gset string) (all_candidates : list string)
    (candidates : list string) : gset string * list string :=
  match candidates with
  | [] => (seen, all_candidates)
  | candidate :: candidates =>
      if bool_decide (candidate ∈ seen) then
        add_candidates seen all_candidates candidates
      else
        add_candidates ({[candidate]} ∪ seen)
          (all_candidates ++ [candidate])%list candidates
  end.

Fixpoint scan_pages (pages : list string) (seen : gset string)
    (all_candidates : list string) (w : World) : list string * World :=
  match pages with
  | [] => (all_candidates, w)
  | page_url :: pages =>
      let '(r, w) := fetch_candidates page_url w in
      match r with
      | Some candidates =>
          let '(seen, all_candidates) :=
            add_candidates seen all_candidates candidates in
          scan_pages pages seen all_candidates w
      | None => scan_pages pages seen all_candidates w
      end
  end.

(** The loop over [all_candidates[1:]]; the state is [attempts],
    [valid_metas], the tried urls and the world. *)
Fixpoint try_candidates (today : Py.date) (urls : list string) (attempts : Z)
    (valid_metas : list FeedMeta) (tried : list string) (w : World)
  : Z * list FeedMeta * list string * World :=
  match urls with
  | [] => (attempts, valid_metas, tried, w)
  | fallback_url :: urls =>
      if MAX_LISTING_CANDIDATES_TO_TRY <=? attempts then
        (attempts, valid_metas, tried, w)
      else
        let attempts := attempts + 1 in
        let tried := (tried ++ [fallback_url])%list in
        let '(r, w) := refresh_from_url fallback_url "listing_previous" w in
        match r with
        | Some meta =>
            if is_valid_for meta today then
              try_candidates today urls attempts
                (valid_metas ++ [meta])%list tried w
            else try_candidates today urls attempts valid_metas tried w
        | None => try_candidates today urls attempts valid_metas tried w
        end
  end.

Definition refresh_previous_from_listing (today : Py.date) (dbg : Debug)
    (w : World) : option FeedMeta * Debug * World :=
  let '(all_candidates, w) :=
    scan_pages [GTFS_LISTING_URL; GTFS_PORTAL_URL] ∅ [] w in
  let dbg :=
    {| listing_candidates := all_candidates;
       tried_listing_urls := tried_listing_urls dbg;
       selected_strategy := selected_strategy dbg;
       listing_attempts := listing_attempts dbg |} in
  if (length all_candidates <? 2)%nat then (None, dbg, w)
  else
    let '(attempts, valid_metas, tried, w) :=
      try_candidates today (drop 1 all_candidates) 0 []
        (tried_listing_urls dbg) w in
    match valid_metas with
    | [] =>
        (None,
         {| listing_candidates := all_candidates;
            tried_listing_urls := tried;
            selected_strategy := selected_strategy dbg;
            listing_attempts := attempts |}, w)
    | m :: ms =>
        (Some (max_from m ms),
         {| listing_candidates := all_candidates;
            tried_listing_urls := tried;
            selected_strategy := "listing_previous";
            listing_attempts := attempts |}, w)
    end.

(** The metadata that the downloads of [urls], one after the other,
    return; a download that raises contributes nothing. *)
Fixpoint downloaded (urls : list string) (w : World) : list FeedMeta :=
  match urls with
  | [] => []
  | url :: urls =>
      let '(r, w) := refresh_from_url url "listing_previous" w in
      match r with
      | Some meta => meta :: downloaded urls w
      | None => downloaded urls w
      end
  end.

Definition valid_today (today : Py.date) (l : list FeedMeta) : list FeedMeta :=
  List.filter (fun m => is_valid_for m today) l.

End Listing.

(** *** The selection of the active feed *)

Definition STATIC_GTFS_URL : string := "https://www.zet.hr/gtfs-scheduled/latest".
Definition MAX_PREVIOUS_VERSION_TRIES : Z := 5.

(** The characters that [_safe_version] keeps: [a-zA-Z0-9_.-]. *)
Definition is_safe_char (c : ascii) : bool :=
  let n := Z.of_nat (nat_of_ascii c) in
  ((97 <=? n) && (n <=? 122)) || ((65 <=? n) && (n <=? 90))
  || ((48 <=? n) && (n <=? 57))
  || Ascii.eqb c "_" || Ascii.eqb c "." || Ascii.eqb c "-".

(** [re.sub(r"[^a-zA-Z0-9_.-]", "_", value)] (a character outside ASCII
    is one match in the source and one per byte here). *)
Fixpoint _safe_version (value : string) : string :=
  match value with
  | EmptyString => EmptyString
  | String c r => String (if is_safe_char c then c else "_"%char) (_safe_version r)
  end.

Definition valid_range (self : FeedMeta) : string :=
  let start :=
    match start_date self with
    | Some d => Py.date_isoformat d
    | None => "unknown"
    end in
  let end_ :=
    match end_date self with
    | Some d => Py.date_isoformat d
    | None => "unknown"
    end in
  start ++ " -> " ++ end_.

(** The whole of [self.debug]: the keys of the listing fallback and the
    others. *)
Record DebugAll := {
  dbg_today : option string;
  dbg_latest_version : option string;
  dbg_latest_valid_range : option string;
  dbg_listing : Debug;
  tried_version_urls : list string;
  version_attempts : Z
}.

(** [self.debug["selected_strategy"] = s] *)
Definition set_strategy (s : string) (dbg : DebugAll) : DebugAll :=
  {| dbg_today := dbg_today dbg;
     dbg_latest_version := dbg_latest_version dbg;
     dbg_latest_valid_range := dbg_latest_valid_range dbg;
     dbg_listing :=
       {| listing_candidates := listing_candidates (dbg_listing dbg);
          tried_listing_urls := tried_listing_urls (dbg_listing dbg);
          selected_strategy := s;
          listing_attempts := listing_attempts (dbg_listing dbg) |};
     tried_version_urls := tried_version_urls dbg;
     version_attempts := version_attempts dbg |}.

Section Selection.

(** The outside world, as for the listing fallback: the network, the
    feed cache and the state file on disk, whose directories exist. *)
Context {World : Type}.

Variable fetch_candidates : string -> World -> option (list string) * World.
Variable refresh_from_url :
  string -> string -> World -> option FeedMeta * World.

(** The metadata files of the cache in the order of their sorted paths,
    each with what the [try] body of [list_cached_feeds] makes of it: the
    file read, decoded and given to [FeedMeta.from_dict]; [None] is any
    exception. *)
Variable read_metas : World -> list (option FeedMeta) * World.

(** [_save_state({"active_version": v, "status": s})]; [None] is the
    exception of a write that fails. *)
Variable save_state : string -> string -> World -> option World.

(** [(await self._load_state()).get("active_version")] where it is a
    [str]; the state file holds what [_save_state] wrote, or cannot be
    read. *)
Variable load_active_version : World -> option string * World.

(** The loop over the offsets; [None] is the [ValueError] of
    [int(candidate)], the state is [attempts], the tried urls and the
    world. *)
Fixpoint try_versions (today : Py.date) (width : nat) (current : Z)
    (base : string) (offsets : list Z) (attempts : Z) (tried : list string)
    (w : World) : option (option FeedMeta * Z * list string) * World :=
  match offsets with
  | [] => (Some (None, attempts, tried), w)
  | offset :: offsets =>
      let candidate := Py.zfill (Py.str_int (current - offset)) width in
      match Py.int candidate with
      | Some value =>
          if value <=? 0 then (Some (None, attempts, tried), w)
          else
            let attempts := attempts + 1 in
            let candidate_url := base ++ "/" ++ candidate in
            let tried := (tried ++ [candidate_url])%list in
            let '(r, w) := refresh_from_url candidate_url "version_previous" w in
            match r with
            | Some meta =>
                if is_valid_for meta today
                then (Some (Some meta, attempts, tried), w)
                else try_versions today width current base offsets attempts
                       tried w
            | None =>
                try_versions today width current base offsets attempts tried w
            end
      | None => (None, w)
      end
  end.

(** The outer [None] is an exception. *)
Definition refresh_previous_from_version (latest_version : string)
    (today : Py.date) (dbg : DebugAll) (w : World)
  : option (option FeedMeta) * DebugAll * World :=
  if negb (Py.isdigit latest_version) then (Some None, dbg, w)
  else
    match Py.int latest_version with
    | Some current =>
        let width := String.length latest_version in
        let base := Py.before_last "/" STATIC_GTFS_URL in
        let '(r, w) :=
          try_versions today width current base
            (seqZ 1 MAX_PREVIOUS_VERSION_TRIES) 0 (tried_version_urls dbg) w in
        match r with
        | Some (Some meta, attempts, tried) =>
            (Some (Some meta),
             {| dbg_today := dbg_today dbg;
                dbg_latest_version := dbg_latest_version dbg;
                dbg_latest_valid_range := dbg_latest_valid_range dbg;
                dbg_listing :=
                  dbg_listing (set_strategy "version_previous" dbg);
                tried_version_urls := tried;
                version_attempts := attempts |}, w)
        | Some (None, attempts, tried) =>
            (Some None,
             {| dbg_today := dbg_today dbg;
                dbg_latest_version := dbg_latest_version dbg;
                dbg_latest_valid_range := dbg_latest_valid_range dbg;
                dbg_listing := dbg_listing dbg;
                tried_version_urls := tried;
                version_attempts := attempts |}, w)
        | None => (None, dbg, w)
        end
    | None => (None, dbg, w)
    end.

(** [feeds.sort(key=_meta_rank, reverse=True)]: descending, and stable
    as every sort of Python is. *)
Definition list_cached_feeds (w : World) : list FeedMeta * World :=
  let '(files, w) := read_metas w in
  (GtfsIndex.sorted_by (fun a b => rank_lt b a) _meta_rank (omap id files), w).

(** [get_active_feed] from [cached = await self.list_cached_feeds()]
    on. *)
Definition select_cached (today : Py.date) (dbg : DebugAll) (w : World)
  : option (option FeedMeta * string * string) * DebugAll * World :=
  let '(cached, w) := list_cached_feeds w in
  match List.filter (fun item => is_valid_for item today) cached with
  | selected :: _ =>
      let dbg := set_strategy "fallback_local" dbg in
      match save_state (version selected) "fallback_local" w with
      | Some w => (Some (Some selected, "fallback_local", "ok"), dbg, w)
      | None => (None, dbg, w)
      end
  | [] =>
      let '(active_version, w) := load_active_version w in
      match active_version with
      | Some (String c v) =>
          match GtfsIndex.next_where (fun item => (version item =? String c v)%string)
                  cached with
          | Some fallback =>
              (Some (Some fallback, "fallback_local", "degraded"),
               set_strategy "fallback_local_degraded" dbg, w)
          | None => (Some (None, "none", "degraded"), set_strategy "none" dbg, w)
          end
      | _ => (Some (None, "none", "degraded"), set_strategy "none" dbg, w)
      end
  end.

(** [get_active_feed] from the second strategy on. *)
Definition select_listing (today : Py.date) (dbg : DebugAll) (w : World)
  : option (option FeedMeta * string * string) * DebugAll * World :=
  let '(previous_meta, listing, w) :=
    refresh_previous_from_listing fetch_candidates refresh_from_url today
      (dbg_listing dbg) w in
  let dbg :=
    {| dbg_today := dbg_today dbg;
       dbg_latest_version := dbg_latest_version dbg;
       dbg_latest_valid_range := dbg_latest_valid_range dbg;
       dbg_listing := listing;
       tried_version_urls := tried_version_urls dbg;
       version_attempts := version_attempts dbg |} in
  match previous_meta with
  | Some previous_meta =>
      match save_state (version previous_meta) "listing_previous" w with
      | Some w => (Some (Some previous_meta, "listing_previous", "ok"), dbg, w)
      | None => (None, dbg, w)
      end
  | None => select_cached today dbg w
  end.

(** The outer [None] is an exception; the triple is the selected feed,
    its source and the status. *)
Definition get_active_feed (today : Py.date) (latest_meta : option FeedMeta)
    (dbg : DebugAll) (w : World)
  : option (option FeedMeta * string * string) * DebugAll * World :=
  let dbg :=
    {| dbg_today := Some (Py.date_isoformat today);
       dbg_latest_version := version <$> latest_meta;
       dbg_latest_valid_range := valid_range <$> latest_meta;
       dbg_listing :=
         {| listing_candidates := []; tried_listing_urls := [];
            selected_strategy := "none"; listing_attempts := 0 |};
       tried_version_urls := [];
       version_attempts := 0 |} in
  match latest_meta with
  | Some latest =>
      if is_valid_for latest today then
        let dbg := set_strategy "latest" dbg in
        match save_state (version latest) "ok" w with
        | Some w => (Some (Some latest, "latest", "ok"), dbg, w)
        | None => (None, dbg, w)
        end
      else
        let '(previous_by_version, dbg, w) :=
          refresh_previous_from_version (version latest) today dbg w in
        match previous_by_version with
        | Some (Some previous) =>
            match save_state (version previous) "version_previous" w with
            | Some w => (Some (Some previous, "version_previous", "ok"), dbg, w)
            | None => (None, dbg, w)
            end
        | Some None => select_listing today dbg w
        | None => (None, dbg, w)
        end
  | None => select_listing today dbg w
  end.

(** [force_select] *)
Definition force_select (version_ : string) (w : World)
  : option (option FeedMeta) * World :=
  let '(cached, w) := list_cached_feeds w in
  match GtfsIndex.next_where (fun item => (version item =? version_)%string) cached with
  | Some selected =>
      match save_state (version selected) "forced" w with
      | Some w => (Some (Some selected), w)
      | None => (None, w)
      end
  | None => (Some None, w)
  end.

End Selection.

End GtfsStore.

(** ** [realtime.py] *)

Module Realtime.

Definition REALTIME_DELAY_MAX_STALE_SECONDS : Z := 300.

(** The part of a GTFS-RT [FeedMessage] the client reads. A delay is
    present when the update has the sub-message and the sub-message has
    its [delay] field. *)
Record StopTimeUpdate := {
  departure_delay : option Z;
  arrival_delay : option Z
}.

Record TripUpdate := {
  trip_id : string;
  stop_time_update : list StopTimeUpdate;
  timestamp : option Z
}.

Record FeedEntity := { trip_update : option TripUpdate }.

(** The normalised structure kept in [last_result]. *)
Record Result := {
  status : string;
  last_timestamp : option string;
  trip_delays : gmap string Z;
  error : option string
}.

Record RealtimeClient := {
  _last_success_utc : option Py.datetime;
  last_result : Result
}.

(** [RealtimeClient.__init__] *)
Definition init : RealtimeClient := {|
  _last_success_utc := None;
  last_result := {| status := "stale"; last_timestamp := None;
                    trip_delays := ∅; error := None |}
|}.

(** The loop over [updates], with its two [break]s. *)
Fixpoint first_delay (updates : list StopTimeUpdate) : Z :=
  match updates with
  | [] => 0
  | u :: updates =>
      match departure_delay u, arrival_delay u with
      | Some d, _ => d
      | None, Some a => a
      | None, None => first_delay updates
      end
  end.

(** The loop over [message.entity]. *)
Fixpoint scan_entities (entities : list FeedEntity)
    (trip_delays : gmap string Z) (last_ts : option Z)
  : gmap string Z * option Z :=
  match entities with
  | [] => (trip_delays, last_ts)
  | e :: entities =>
      match trip_update e with
      | Some tu =>
          match trip_id tu with
          | EmptyString => scan_entities entities trip_delays last_ts
          | tid =>
              let delay := first_delay (stop_time_update tu) in
              let last_ts :=
                match timestamp tu with
                | Some ts =>
                    Some (Z.max (match last_ts with
                                 | Some l => if l =? 0 then ts else l
                                 | None => ts
                                 end) ts)
                | None => last_ts
                end in
              scan_entities entities (<[tid := delay]> trip_delays) last_ts
          end
      | None => scan_entities entities trip_delays last_ts
      end
  end.

(** What the [try] block meets: the payload fetched and parsed into a
    message, or an exception with its text. *)
Inductive Response :=
| Parsed (entity : list FeedEntity)
| Raised (err : string).

Section Refresh.

(** [datetime.fromtimestamp(ts, tz=timezone.utc).isoformat()]; [inr] is
    the text of the exception raised for a timestamp out of range. *)
Variable utc_isoformat : Z -> string + string.

(** The [except] branch; [now_utc] is [datetime.now(timezone.utc)], and
    [total_seconds() > 300] is compared in microseconds. *)
Definition on_failure (self : RealtimeClient) (now_utc : Py.datetime)
    (err : string) : RealtimeClient :=
  let keep_trip_delays := trip_delays (last_result self) in
  let keep_trip_delays :=
    match _last_success_utc self with
    | None => ∅
    | Some last_success =>
        let stale_for := now_utc - last_success in
        if REALTIME_DELAY_MAX_STALE_SECONDS * Py.US_PER_SECOND <? stale_for
        then ∅ else keep_trip_delays
    end in
  {| _last_success_utc := _last_success_utc self;
     last_result :=
       {| status := "error";
          last_timestamp := last_timestamp (last_result self);
          trip_delays := keep_trip_delays;
          error := Some err |} |}.

(** [refresh]: [pb2] tells whether [gtfs_realtime_pb2] could be imported;
    the returned dict is [last_result] of the new state. *)
Definition refresh (pb2 : bool) (resp : Response) (now_utc : Py.datetime)
    (self : RealtimeClient) : RealtimeClient :=
  if negb pb2 then
    {| _last_success_utc := _last_success_utc self;
       last_result :=
         {| status := "error"; last_timestamp := None; trip_delays := ∅;
            error := Some "gtfs_realtime_pb2_unavailable" |} |}
  else
    match resp with
    | Parsed entity =>
        let '(trip_delays, last_ts) := scan_entities entity ∅ None in
        let last_iso :=
          match last_ts with
          | Some ts => if ts =? 0 then inl None
                       else match utc_isoformat ts with
                            | inl iso => inl (Some iso)
                            | inr err => inr err
                            end
          | None => inl None
          end in
        match last_iso with
        | inl last_iso =>
            {| _last_success_utc := Some now_utc;
               last_result :=
                 {| status := "ok"; last_timestamp := last_iso;
                    trip_delays := trip_delays; error := None |} |}
        | inr err => on_failure self now_utc err
        end
    | Raised err => on_failure self now_utc err
    end.

End Refresh.

End Realtime.

(** * The vocabulary of the properties *)

Import GtfsIndex GtfsStore Realtime.





(** The month and the day of the [n]-th day (from 0) of a year. *)
Definition month_day (leapyear : bool) (n : Z) : Z * Z :=
  let month := Z.shiftr (n + 50) 5 in
  let preceding :=
    Py.DAYS_BEFORE_MONTH month + (if (2 <? month) && leapyear then 1 else 0) in
  if n <? preceding then
    let month := month - 1 in
    let preceding :=
      preceding
      - (Py.DAYS_IN_MONTH month + (if (month =? 2) && leapyear then 1 else 0)) in
    (month, n - preceding + 1)
  else (month, n - preceding + 1).

Definition month_day_ok (leapyear : bool) (n : Z) : bool :=
  let '(m, d) := month_day leapyear n in
  (1 <=? m) && (m <=? 12) && (1 <=? d)
  && (d <=? (if (m =? 2) && leapyear then 29 else Py.DAYS_IN_MONTH m))
  && (Py.DAYS_BEFORE_MONTH m + (if (2 <? m) && leapyear then 1 else 0) + d
      =? n + 1).

(** The lexicographic order of two triples. *)
Definition lex3 (a1 b1 c1 a2 b2 c2 : Z) : comparison :=
  match a1 ?= a2 with
  | Eq => match b1 ?= b2 with Eq => c1 ?= c2 | c => c end
  | c => c
  end.

(** The fraction of a second, as [isoformat] appends it. *)
Definition iso_fraction (frac : Z) : string :=
  if frac =? 0 then "" else "." ++ Py.zpad 6 frac.

(** The dates of a [FeedMeta] are [date] objects. *)
Definition meta_ok (m : FeedMeta) : Prop :=
  (forall s, start_date m = Some s -> Py.date_ok s = true)
  /\ (forall e, end_date m = Some e -> Py.date_ok e = true).

(** A call of [refresh] meets a failure of the fetch or of the decoding:
    the [try] block raises, at the request, at the parse or at the
    rendering of the last timestamp. *)
Definition fetch_or_decode_failure (utc_isoformat : Z -> string + string)
    (resp : Response) : Prop :=
  match resp with
  | Raised _ => True
  | Parsed entity =>
      match (scan_entities entity ∅ None).2 with
      | Some ts => ts <> 0 /\ exists err, utc_isoformat ts = inr err
      | None => False
      end
  end.

(** The states the client reaches by calls of [refresh], each with its
    own response and clock reading. *)
Inductive reachable (utc_isoformat : Z -> string + string) (pb2 : bool)
  : nat -> RealtimeClient -> Prop :=
| reach_init : reachable utc_isoformat pb2 0 init
| reach_refresh n self resp now_utc :
    reachable utc_isoformat pb2 n self ->
    reachable utc_isoformat pb2 (S n)
      (refresh utc_isoformat pb2 resp now_utc self).

(** Every reference held by the cache points into the heap. *)
Definition store_wf (st : store) : Prop :=
  forall d c, cache st !! d = Some c -> is_Some (heap st !! c).

(** A rendered instant lies in a closed interval. *)
Definition rendered_within (lo hi : Py.datetime) (s : string) : Prop :=
  exists rt,
    s = Py.datetime_isoformat rt /\ Py.datetime_ok rt = true /\ lo <= rt <= hi
    /\ forall t, Py.datetime_ok t = true -> Py.datetime_isoformat t = s -> t = rt.



(** The key of the deduplication. *)
Definition dedup_key (e : OdEntry) : string * string :=
  (od_trip_id e, od_departure_rt e).

(** The memo is in step with the tables: every cached set is the set
    computed for its date. *)
Definition store_coherent (strptime_Ymd : string -> option Py.date)
    (strftime_Ymd : Py.date -> string) (idx : GtfsIndex.t) (st : store) : Prop :=
  store_wf st
  /\ forall d c, cache st !! d = Some c ->
       deref (heap st) c = compute_services strptime_Ymd strftime_Ymd idx d.

(** What puts a record on the board of a stop: a departure of the stop,
    of a known trip with a service, on one of the service days on which
    the service runs, that passes the two filters and, with its delay,
    leaves within the window. *)
Definition on_board (services_on : Py.date -> gset string) (idx : GtfsIndex.t)
    (now_local window_end : Py.datetime) (dates : list Py.date)
    (direction_label board_route_label : string)
    (delay_by_trip : gmap string Z) (stop : string) (e : BoardEntry) : Prop :=
  exists trip_id dep_secs trip service_day dep_planned td dep_rt,
    (trip_id, dep_secs) ∈ default [] (departures_by_stop idx !! stop)
    /\ trips idx !! trip_id = Some trip
    /\ service_id trip <> ""
    /\ service_day ∈ dates
    /\ service_id trip ∈ services_on service_day
    /\ filtered_out direction_label (headsign_of (Some trip)) = false
    /\ filtered_out board_route_label
         (default (route_id trip) (routes idx !! route_id trip)) = false
    /\ _time_for_service_day service_day dep_secs = Some dep_planned
    /\ Py.timedelta_seconds (default 0 (delay_by_trip !! trip_id)) = Some td
    /\ Py.datetime_add dep_planned td = Some dep_rt
    /\ now_local <= dep_rt <= window_end
    /\ e = {| b_trip_id := trip_id;
              b_route := default (route_id trip) (routes idx !! route_id trip);
              b_direction := headsign_of (Some trip);
              b_mode := _route_mode (route_types idx !! route_id trip);
              b_planned := Py.datetime_isoformat dep_planned;
              b_rt := Py.datetime_isoformat dep_rt |}.

(** The string [s] renders the instant [t]. *)
Definition renders (s : string) (t : Py.datetime) : Prop :=
  Py.datetime_ok t = true /\ s = Py.datetime_isoformat t.

(** The weekly pattern of [calendar.txt] lets the service run on the
    day: the service has a row, the day is not before the start date nor
    after the end date where the row gives one that can be read, and the
    cell of the weekday is "1". *)
Definition runs_by_calendar (strptime_Ymd : string -> option Py.date)
    (idx : GtfsIndex.t) (service : string) (day : Py.date) : Prop :=
  exists r,
    calendar idx !! service = Some r
    /\ (forall s, _yyyymmdd_to_date strptime_Ymd (r !! "start_date") = Some s ->
          s <= day)
    /\ (forall e, _yyyymmdd_to_date strptime_Ymd (r !! "end_date") = Some e ->
          day <= e)
    /\ r !! WEEKDAY_MAP (Py.weekday day) = Some "1".

(** The type of the last exception, among those given for a date, that
    adds or removes the service. *)
Definition last_exception (service : string)
    (exceptions : list (string * string)) : option string :=
  snd <$> last (filter (fun e => e.1 = service /\ (e.2 = "1" \/ e.2 = "2"))
                  exceptions).

(** A stop time of a trip of the route that goes in the wanted
    direction. *)
Definition served_by (idx : GtfsIndex.t) (route : string)
    (direction_label : option string) (st : StopTime) : Prop :=
  exists trip_id,
    trip_id ∈ default [] (trips_by_route idx !! route)
    /\ other_direction direction_label (headsign_of (trips idx !! trip_id))
       = false
    /\ st ∈ default [] (stop_times_by_trip idx !! trip_id).

(** [d] gives each stop that the stop times in [Q] serve once, with the
    least of its sequence numbers. *)
Definition least_sequences (Q : StopTime -> Prop) (d : list (string * Z))
  : Prop :=
  NoDup d.*1
  /\ (forall st, Q st -> stop_id st ∈ d.*1)
  /\ forall k v, (k, v) ∈ d ->
       (exists st, Q st /\ stop_id st = k /\ stop_sequence st = v)
       /\ forall st, Q st -> stop_id st = k -> v <= stop_sequence st.


(** The labels of the selectors resolve: a route label leads to an id
    that is not empty and has a label and a type, a stop label ends in
    its id between brackets, after a name that is not empty, has no
    white space around it, and the id has a name. *)
Definition labels_resolve (idx : GtfsIndex.t) : Prop :=
  (forall label rid, route_label_to_id idx !! label = Some rid ->
     rid <> "" /\ label <> ""
     /\ is_Some (routes idx !! rid) /\ is_Some (route_types idx !! rid))
  /\ (forall label sid, stop_label_to_id idx !! label = Some sid ->
        sid <> ""
        /\ (exists name, name <> "" /\ label = name ++ " [" ++ sid ++ "]")
        /\ Py.strip label = label
        /\ is_Some (stops idx !! sid)).

(** The trips and the lists of trips per route agree: a listed trip is
    a known trip, and a known trip has an id, a route and a service, none
    of them empty, and is listed under its route. *)
Definition trips_listed (idx : GtfsIndex.t) : Prop :=
  (forall rid tid, tid ∈ default [] (trips_by_route idx !! rid) ->
     rid <> "" /\ is_Some (trips idx !! tid))
  /\ (forall tid trip, trips idx !! tid = Some trip ->
        tid <> "" /\ route_id trip <> "" /\ service_id trip <> ""
        /\ tid ∈ default [] (trips_by_route idx !! route_id trip)).

(** The key of the deduplication of the query by stop names. *)
Definition between_key (e : BetweenEntry) : string * string :=
  (n_trip_id e, n_departure_rt e).

(** Every character of the string is one that [_safe_version] keeps. *)
Fixpoint all_safe (s : string) : bool :=
  match s with
  | EmptyString => true
  | String c r => is_safe_char c && all_safe r
  end.

(** The trip updates of a message that the scan reads: those of the
    entities that have one, with a trip id that is not empty. *)
Definition read_updates (entities : list FeedEntity) : list TripUpdate :=
  List.filter (fun tu => negb (trip_id tu =? "")%string)
    (omap trip_update entities).

(** The timestamps of the trip updates that the scan reads. *)
Definition read_timestamps (entities : list FeedEntity) : list Z :=
  omap timestamp (read_updates entities).

(** ** Sample data *)

Definition sample_meta : FeedMeta := {|
  version := "20240229"; start_date := Py.mk_date 2024 2 29;
  end_date := Py.mk_date 2024 3 31; file_path := "feeds/20240229.zip";
  source := "latest"; downloaded_at := "2024-02-29T06:00:00" |}.

(** A feed with one tram line from X to Y, two trips on it, running
    every day of 2024. *)
Definition sample_archive : Archive := {|
  routes_txt :=
    [ {[ "route_id" := "1"; "route_short_name" := "1";
         "route_long_name" := "A Line"; "route_type" := "0" ]} ];
  stops_txt :=
    [ {[ "stop_id" := "s1"; "stop_name" := "X" ]};
      {[ "stop_id" := "s2"; "stop_name" := "Y" ]} ];
  trips_txt :=
    [ {[ "trip_id" := "t1"; "route_id" := "1"; "service_id" := "wk";
         "trip_headsign" := "Y" ]};
      {[ "trip_id" := "t2"; "route_id" := "1"; "service_id" := "wk";
         "trip_headsign" := "Y" ]} ];
  stop_times_txt :=
    [ {[ "trip_id" := "t2"; "stop_id" := "s1"; "stop_sequence" := "1";
         "departure_time" := "08:25:00"; "arrival_time" := "08:25:00" ]};
      {[ "trip_id" := "t2"; "stop_id" := "s2"; "stop_sequence" := "2";
         "departure_time" := "08:35:00"; "arrival_time" := "08:35:00" ]};
      {[ "trip_id" := "t1"; "stop_id" := "s1"; "stop_sequence" := "1";
         "departure_time" := "08:00:00"; "arrival_time" := "08:00:00" ]};
      {[ "trip_id" := "t1"; "stop_id" := "s2"; "stop_sequence" := "2";
         "departure_time" := "08:10:00"; "arrival_time" := "08:10:00" ]} ];
  calendar_txt :=
    [ {[ "service_id" := "wk"; "monday" := "1"; "tuesday" := "1";
         "wednesday" := "1"; "thursday" := "1"; "friday" := "1";
         "saturday" := "1"; "sunday" := "1";
         "start_date" := "20240101"; "end_date" := "20241231" ]} ];
  calendar_dates_txt := []
|}.

Definition sample_index : GtfsIndex.t :=
  default GtfsIndex.empty (_load sample_archive).

(** 2024-02-29T07:55:00 *)
Definition sample_now : Py.datetime :=
  Py.combine_midnight 738945 + (7 * 3600 + 55 * 60) * Py.US_PER_SECOND.





(** A client whose last fetch succeeded at 2024-02-29T07:55:00 UTC. *)
Definition sample_client : RealtimeClient := {|
  _last_success_utc := Some sample_now;
  last_result := {| status := "ok"; last_timestamp := None;
                    trip_delays := {[ "t1" := 120 ]}; error := None |}
|}.

(** A rendering of timestamps that never fails, for the examples. *)
Definition sample_utc_isoformat (ts : Z) : string + string := inl "".

(** A listing page with four links, the other page failing, and the
    three feeds behind the links that are not the first. *)
Definition sample_listing (url : string) (w : unit)
  : option (list string) * unit :=
  (if String.eqb url GTFS_LISTING_URL
   then Some ["latest"; "feed/100"; "feed/101"; "feed/102"]
   else None, w).

Definition sample_feed (version : string) (first last : Py.date) : FeedMeta :=
  {| version := version; start_date := Some first; end_date := Some last;
     file_path := ""; source := "listing_previous"; downloaded_at := "" |}.

Definition sample_download (url source : string) (w : unit)
  : option FeedMeta * unit :=
  (if String.eqb url "feed/100" then Some (sample_feed "100" 738000 738100)
   else if String.eqb url "feed/101" then Some (sample_feed "101" 738900 739000)
   else if String.eqb url "feed/102" then Some (sample_feed "102" 738900 739000)
   else None, w).

(** The case mapping of ASCII, for the examples. *)
Fixpoint sample_lower (s : string) : string :=
  match s with
  | EmptyString => EmptyString
  | String c r =>
      let n := nat_of_ascii c in
      String (if (65 <=? n)%nat && (n <=? 90)%nat then ascii_of_nat (n + 32)
              else c)
        (sample_lower r)
  end.

(** The items of the trips of the sample feed, in the order of their
    insertion. *)
Definition sample_trip_items : list (string * Trip) :=
  [ ("t1", {| route_id := "1"; service_id := "wk"; trip_headsign := "Y" |});
    ("t2", {| route_id := "1"; service_id := "wk"; trip_headsign := "Y" |}) ].

(** A cache of three feeds, one of them with unreadable metadata, whose
    state file can always be written and names the version 100. *)
Definition sample_read_metas (w : unit) : list (option FeedMeta) * unit :=
  ([Some (sample_feed "100" 738000 738100); None;
    Some (sample_feed "102" 738900 739000);
    Some (sample_feed "101" 738900 739000)], w).

Definition sample_save_state (active_version status : string) (w : unit)
  : option unit := Some w.

Definition sample_load_active_version (w : unit) : option string * unit :=
  (Some "100", w).

Definition sample_debug : DebugAll := {|
  dbg_today := None; dbg_latest_version := None;
  dbg_latest_valid_range := None;
  dbg_listing := {| listing_candidates := []; tried_listing_urls := [];
                    selected_strategy := "none"; listing_attempts := 0 |};
  tried_version_urls := []; version_attempts := 0 |}.

(** A message with two trips, an entity without update and an update
    without trip id. *)
Definition sample_message : list FeedEntity :=
  [ {| trip_update := Some {| trip_id := "t1";
         stop_time_update :=
           [ {| departure_delay := None; arrival_delay := None |};
             {| departure_delay := None; arrival_delay := Some 60 |};
             {| departure_delay := Some 90; arrival_delay := None |} ];
         timestamp := Some 1709190000 |} |};
    {| trip_update := None |};
    {| trip_update := Some {| trip_id := ""; stop_time_update := [];
                              timestamp := Some 1709199999 |} |};
    {| trip_update := Some {| trip_id := "t2"; stop_time_update := [];
                              timestamp := Some 1709180000 |} |} ].

(** A server that holds the version 0099 only. *)
Definition sample_version_download (url source : string) (w : unit)
  : option FeedMeta * unit :=
  (if String.eqb url "https://www.zet.hr/gtfs-scheduled/0099"
   then Some (sample_feed "0099" 738900 739000) else None, w).

(** * Properties *)

(** Case analysis on a finite disjunction of equations on a variable. *)
Ltac by_cases H := repeat (destruct H as [-> | H]); try subst.

(** ** The loader *)

Lemma foldl_preserves {A B C : Type} (f : A -> B -> A) (p : A -> C) :
  (forall a b, p (f a b) = p a) ->
  forall l a, p (foldl f a l) = p a.
Proof.
  intros Hf l. induction l as [|b l IH]; intros a; simpl; [done|].
  by rewrite IH, Hf.
Qed.













(** ** The mode of a route *)

(** C7: route types 0 and 900 are trams, 3 and 715 are buses, 5 is
    neither. *)
Theorem route_mode_table :
  _route_mode (Some 0) = "tram" /\ _route_mode (Some 3) = "bus"
  /\ _route_mode (Some 900) = "tram" /\ _route_mode (Some 715) = "bus"
  /\ _route_mode (Some 5) = "other".
Proof. repeat split; reflexivity. Qed.




(** ** Sorting *)

Lemma insert_by_Permutation {A K} (ltb : K -> K -> bool) (key : A -> K) x l :
  insert_by ltb key x l ≡ₚ x :: l.
Proof.
  induction l as [|y l IH]; simpl; [done|].
  destruct (ltb (key y) (key x)); [|done].
  rewrite IH. apply Permutation_swap.
Qed.

Lemma sorted_by_Permutation {A K} (ltb : K -> K -> bool) (key : A -> K) l :
  sorted_by ltb key l ≡ₚ l.
Proof.
  induction l as [|x l IH]; simpl; [done|].
  by rewrite insert_by_Permutation, IH.
Qed.

Lemma elem_of_sorted_by {A K} (ltb : K -> K -> bool) (key : A -> K) l x :
  x ∈ sorted_by ltb key l <-> x ∈ l.
Proof. by rewrite sorted_by_Permutation. Qed.

(** ** Rows of [stop_times.txt] *)


Lemma dd_append_here {A} k (x : A) d : x ∈ default [] (dd_append k x d !! k).
Proof. unfold dd_append. rewrite lookup_insert_eq. simpl. set_solver. Qed.

Lemma dd_append_mono {A} k k' (x y : A) d :
  y ∈ default [] (d !! k) -> y ∈ default [] (dd_append k' x d !! k).
Proof.
  unfold dd_append. intros H. destruct (decide (k' = k)) as [->|Hne].
  - rewrite lookup_insert_eq. simpl. set_solver.
  - by rewrite lookup_insert_ne.
Qed.







Lemma load_calendar_stop_times idx r :
  stop_times_by_trip (load_calendar idx r) = stop_times_by_trip idx
  /\ departures_by_stop (load_calendar idx r) = departures_by_stop idx.
Proof. unfold load_calendar. repeat case_match; done. Qed.

Lemma load_calendar_date_stop_times idx r :
  stop_times_by_trip (load_calendar_date idx r) = stop_times_by_trip idx
  /\ departures_by_stop (load_calendar_date idx r) = departures_by_stop idx.
Proof. unfold load_calendar_date. repeat case_match; done. Qed.



(** ** The civil calendar *)

Lemma days_before_year_succ y :
  Py.days_before_year (y + 1)
  = Py.days_before_year y + (if Py.is_leap y then 366 else 365).
Proof.
  unfold Py.days_before_year, Py.is_leap.
  destruct (Z.eqb_spec (y mod 4) 0), (Z.eqb_spec (y mod 100) 0),
    (Z.eqb_spec (y mod 400) 0); simpl; Z.to_euclidean_division_equations; lia.
Qed.

Lemma days_before_year_mono y1 y2 :
  y1 <= y2 -> Py.days_before_year y1 + 365 * (y2 - y1) <= Py.days_before_year y2.
Proof.
  unfold Py.days_before_year. intros H.
  Z.to_euclidean_division_equations; lia.
Qed.

Lemma month_day_ok_all (leapyear : bool) n :
  0 <= n < (if leapyear then 366 else 365) -> month_day_ok leapyear n = true.
Proof.
  intros Hn.
  assert (forallb (fun k => month_day_ok leapyear (Z.of_nat k))
            (seq 0 (if leapyear then 366 else 365)) = true) as H
    by (destruct leapyear; vm_compute; reflexivity).
  rewrite forallb_forall in H.
  rewrite <- (Z2Nat.id n) by lia. apply H, in_seq. destruct leapyear; lia.
Qed.

Lemma ord2ymd_month_day n :
  Py.ord2ymd n =
  let n0 := n - 1 in
  let n400 := n0 / 146097 in
  let r400 := n0 mod 146097 in
  let n100 := r400 / 36524 in
  let r100 := r400 mod 36524 in
  let n4 := r100 / 1461 in
  let r4 := r100 mod 1461 in
  let n1 := r4 / 365 in
  let r1 := r4 mod 365 in
  let year := n400 * 400 + 1 + n100 * 100 + n4 * 4 + n1 in
  if (n1 =? 4) || (n100 =? 4) then (year - 1, 12, 31)
  else
    let leapyear := (n1 =? 3) && (negb (n4 =? 24) || (n100 =? 3)) in
    (year, (month_day leapyear r1).1, (month_day leapyear r1).2).
Proof.
  unfold Py.ord2ymd, month_day. cbv zeta.
  repeat case_match; reflexivity.
Qed.

Lemma ord2ymd_spec n :
  Py.date_ok n = true ->
  let '(y, m, d) := Py.ord2ymd n in
  Py.ymd_ok y m d = true /\ Py.ymd2ord y m d = n.
Proof.
  unfold Py.date_ok, Py.date_min, Py.date_max. intros Hn.
  rewrite ord2ymd_month_day. cbv zeta.
  set (n0 := n - 1).
  set (n400 := n0 / 146097). set (r400 := n0 mod 146097).
  set (n100 := r400 / 36524). set (r100 := r400 mod 36524).
  set (n4 := r100 / 1461). set (r4 := r100 mod 1461).
  set (n1 := r4 / 365). set (r1 := r4 mod 365).
  assert (0 <= n0 < 3652059) by (unfold n0; lia).
  assert (n0 = 146097 * n400 + r400 /\ 0 <= r400 < 146097) as [E400 B400]
    by (unfold n400, r400; Z.to_euclidean_division_equations; lia).
  assert (r400 = 36524 * n100 + r100 /\ 0 <= r100 < 36524) as [E100 B100]
    by (unfold n100, r100; Z.to_euclidean_division_equations; lia).
  assert (r100 = 1461 * n4 + r4 /\ 0 <= r4 < 1461) as [E4 B4]
    by (unfold n4, r4; Z.to_euclidean_division_equations; lia).
  assert (r4 = 365 * n1 + r1 /\ 0 <= r1 < 365) as [E1 B1]
    by (unfold n1, r1; Z.to_euclidean_division_equations; lia).
  assert (0 <= n400 <= 24 /\ 0 <= n100 <= 4 /\ 0 <= n4 <= 24 /\ 0 <= n1 <= 4)
    as (? & ? & ? & ?) by lia.
  clearbody n400 r400 n100 r100 n4 r4 n1 r1.
  destruct ((n1 =? 4) || (n100 =? 4)) eqn:Hsp.
  - (* the last day of a leap year *)
    rewrite orb_true_iff, !Z.eqb_eq in Hsp.
    set (year := n400 * 400 + 1 + n100 * 100 + n4 * 4 + n1 - 1).
    assert (Py.is_leap year = true) as Hleap.
    { unfold Py.is_leap, year.
      rewrite andb_true_iff, orb_true_iff, negb_true_iff, !Z.eqb_eq, Z.eqb_neq.
      Z.to_euclidean_division_equations; lia. }
    assert (Py.days_before_year year = n0 - 365) as Hdby.
    { unfold Py.days_before_year, year.
      Z.to_euclidean_division_equations; lia. }
    unfold Py.ymd_ok, Py.ymd2ord, Py.days_in_month, Py.days_before_month.
    rewrite Hleap, Hdby. cbn. split.
    + rewrite !andb_true_iff, !Z.leb_le. unfold year. lia.
    + unfold n0. lia.
  - apply orb_false_iff in Hsp as [Hn1 Hn100].
    apply Z.eqb_neq in Hn1, Hn100.
    set (leapyear := (n1 =? 3) && (negb (n4 =? 24) || (n100 =? 3))).
    set (year := n400 * 400 + 1 + n100 * 100 + n4 * 4 + n1).
    assert (Py.is_leap year = leapyear) as Hleap.
    { unfold Py.is_leap, leapyear, year.
      destruct (Z.eqb_spec n1 3), (Z.eqb_spec n4 24), (Z.eqb_spec n100 3);
        simpl;
        repeat match goal with
        | |- context [?a mod ?b =? 0] =>
            destruct (Z.eqb_spec (a mod b) 0)
        end; simpl; try reflexivity;
        exfalso; Z.to_euclidean_division_equations; lia. }
    assert (Py.days_before_year year = n0 - r1) as Hdby.
    { unfold Py.days_before_year, year.
      Z.to_euclidean_division_equations; lia. }
    assert (1 <= year <= 9999) as Hyear by (unfold year; lia).
    assert (month_day_ok leapyear r1 = true) as Hmd
      by (apply month_day_ok_all; destruct leapyear; lia).
    unfold month_day_ok in Hmd.
    destruct (month_day leapyear r1) as [m d]. simpl.
    rewrite !andb_true_iff in Hmd.
    destruct Hmd as ((((Hm1 & Hm2) & Hd1) & Hd2) & Hsum).
    apply Z.leb_le in Hm1, Hm2, Hd1, Hd2. apply Z.eqb_eq in Hsum.
    unfold Py.ymd_ok, Py.ymd2ord, Py.days_in_month, Py.days_before_month.
    rewrite Hleap, Hdby. split.
    + repeat (apply andb_true_intro; split); apply Z.leb_le; lia.
    + unfold n0. lia.
Qed.

Lemma ymd_ok_inv y m d :
  Py.ymd_ok y m d = true ->
  1 <= y <= 9999 /\ 1 <= m <= 12 /\ 1 <= d <= Py.days_in_month y m.
Proof.
  unfold Py.ymd_ok. rewrite !andb_true_iff, !Z.leb_le. lia.
Qed.

Lemma month_cases m :
  1 <= m <= 12 ->
  m = 1 \/ m = 2 \/ m = 3 \/ m = 4 \/ m = 5 \/ m = 6 \/ m = 7 \/ m = 8
  \/ m = 9 \/ m = 10 \/ m = 11 \/ m = 12.
Proof. lia. Qed.

Lemma day_of_year_bound y m d :
  Py.ymd_ok y m d = true ->
  1 <= Py.days_before_month y m + d <= (if Py.is_leap y then 366 else 365).
Proof.
  intros H. apply ymd_ok_inv in H as (_ & Hm & Hd).
  unfold Py.days_before_month, Py.days_in_month in *.
  pose proof (month_cases m Hm) as C.
  destruct (Py.is_leap y); by_cases C; simpl in *; lia.
Qed.

Lemma day_of_year_lex y m1 d1 m2 d2 :
  Py.ymd_ok y m1 d1 = true -> Py.ymd_ok y m2 d2 = true ->
  (Py.days_before_month y m1 + d1 ?= Py.days_before_month y m2 + d2)
  = match m1 ?= m2 with Eq => d1 ?= d2 | c => c end.
Proof.
  intros H1 H2.
  apply ymd_ok_inv in H1 as (_ & Hm1 & Hd1).
  apply ymd_ok_inv in H2 as (_ & Hm2 & Hd2).
  unfold Py.days_before_month, Py.days_in_month in *.
  destruct (Z.compare_spec m1 m2) as [->|Hlt|Hgt].
  - destruct (Z.compare_spec d1 d2);
      [apply Z.compare_eq_iff|apply Z.compare_lt_iff|apply Z.compare_gt_iff];
      lia.
  - apply Z.compare_lt_iff.
    pose proof (month_cases m1 Hm1) as C1. pose proof (month_cases m2 Hm2) as C2.
    destruct (Py.is_leap y); by_cases C1; by_cases C2; simpl in *; lia.
  - apply Z.compare_gt_iff.
    pose proof (month_cases m1 Hm1) as C1. pose proof (month_cases m2 Hm2) as C2.
    destruct (Py.is_leap y); by_cases C1; by_cases C2; simpl in *; lia.
Qed.

Lemma ymd2ord_lex y1 m1 d1 y2 m2 d2 :
  Py.ymd_ok y1 m1 d1 = true -> Py.ymd_ok y2 m2 d2 = true ->
  (Py.ymd2ord y1 m1 d1 ?= Py.ymd2ord y2 m2 d2) = lex3 y1 m1 d1 y2 m2 d2.
Proof.
  intros H1 H2. unfold lex3, Py.ymd2ord.
  pose proof (day_of_year_bound _ _ _ H1) as B1.
  pose proof (day_of_year_bound _ _ _ H2) as B2.
  destruct (Z.compare_spec y1 y2) as [->|Hlt|Hgt].
  - rewrite <- (day_of_year_lex y2 m1 d1 m2 d2) by done.
    rewrite <- !Z.add_assoc. apply Z.add_compare_mono_l.
  - apply Z.compare_lt_iff.
    pose proof (days_before_year_succ y1).
    pose proof (days_before_year_mono (y1 + 1) y2). lia.
  - apply Z.compare_gt_iff.
    pose proof (days_before_year_succ y2).
    pose proof (days_before_year_mono (y2 + 1) y1). lia.
Qed.

(** ** Decimal fields of fixed width *)

Lemma digit_cases a :
  0 <= a <= 9 ->
  a = 0 \/ a = 1 \/ a = 2 \/ a = 3 \/ a = 4 \/ a = 5 \/ a = 6 \/ a = 7
  \/ a = 8 \/ a = 9.
Proof. lia. Qed.

Lemma is_digit_digit_char a :
  0 <= a <= 9 ->
  Py.is_digit (Py.digit_char a) = true /\ Py.digit_val (Py.digit_char a) = a.
Proof.
  intros H. pose proof (digit_cases a H) as C.
  by_cases C; split; reflexivity.
Qed.

Lemma compare_digit_char a b :
  0 <= a <= 9 -> 0 <= b <= 9 ->
  Ascii.compare (Py.digit_char a) (Py.digit_char b) = (a ?= b).
Proof.
  intros Ha Hb.
  pose proof (digit_cases a Ha) as Ca. pose proof (digit_cases b Hb) as Cb.
  by_cases Ca; by_cases Cb; reflexivity.
Qed.

Lemma ascii_compare_refl c : Ascii.compare c c = Eq.
Proof. unfold Ascii.compare. apply N.compare_refl. Qed.

Lemma string_compare_cons c s1 s2 :
  String.compare (String c s1) (String c s2) = String.compare s1 s2.
Proof. cbn [String.compare]. by rewrite ascii_compare_refl. Qed.

Lemma string_compare_refl s : String.compare s s = Eq.
Proof.
  induction s; cbn [String.compare]; [done|]. by rewrite ascii_compare_refl.
Qed.

Lemma string_app_cons c (s1 s2 : string) :
  String c s1 ++ s2 = String c (s1 ++ s2).
Proof. reflexivity. Qed.

Lemma string_app_nil (s : string) : "" ++ s = s.
Proof. reflexivity. Qed.

Lemma string_app_assoc (s1 s2 s3 : string) :
  (s1 ++ s2) ++ s3 = s1 ++ (s2 ++ s3).
Proof.
  induction s1 as [|c s1 IH]; [done|].
  by rewrite !string_app_cons, IH.
Qed.

Lemma zpad_step w n :
  Py.zpad (S w) n
  = String (Py.digit_char (n / 10 ^ Z.of_nat w))
      (Py.zpad w (n mod 10 ^ Z.of_nat w)).
Proof. reflexivity. Qed.

Lemma pow10_pos w : 0 < 10 ^ Z.of_nat w.
Proof. apply Z.pow_pos_nonneg; lia. Qed.

Lemma pow10_succ w : 10 ^ Z.of_nat (S w) = 10 * 10 ^ Z.of_nat w.
Proof. rewrite Nat2Z.inj_succ, Z.pow_succ_r; lia. Qed.

Lemma zpad_head_digit w n :
  0 <= n < 10 ^ Z.of_nat (S w) ->
  0 <= n / 10 ^ Z.of_nat w <= 9
  /\ 0 <= n mod 10 ^ Z.of_nat w < 10 ^ Z.of_nat w.
Proof.
  rewrite pow10_succ. pose proof (pow10_pos w) as Hp. intros Hn. split.
  - split; [apply Z.div_pos; lia|].
    assert (n / 10 ^ Z.of_nat w < 10); [|lia].
    apply Z.div_lt_upper_bound; lia.
  - apply Z.mod_pos_bound; lia.
Qed.

(** Two fields of the same width compare as their numbers do. *)
Lemma compare_zpad w a b s1 s2 :
  0 <= a < 10 ^ Z.of_nat w -> 0 <= b < 10 ^ Z.of_nat w ->
  String.compare (Py.zpad w a ++ s1) (Py.zpad w b ++ s2)
  = match a ?= b with Eq => String.compare s1 s2 | c => c end.
Proof.
  revert a b. induction w as [|w IH]; intros a b Ha Hb.
  - simpl in *. assert (a = 0) as -> by lia. assert (b = 0) as -> by lia. done.
  - rewrite !zpad_step.
    destruct (zpad_head_digit w a Ha) as [Hqa Hra].
    destruct (zpad_head_digit w b Hb) as [Hqb Hrb].
    rewrite !string_app_cons. cbn [String.compare].
    rewrite compare_digit_char by done.
    rewrite IH by done.
    pose proof (pow10_pos w) as Hp.
    pose proof (Z.div_mod a (10 ^ Z.of_nat w) ltac:(lia)) as Ea.
    pose proof (Z.div_mod b (10 ^ Z.of_nat w) ltac:(lia)) as Eb.
    set (P := 10 ^ Z.of_nat w) in *.
    set (qa := a / P) in *. set (ra := a mod P) in *.
    set (qb := b / P) in *. set (rb := b mod P) in *.
    clearbody P qa ra qb rb.
    subst a b.
    destruct (Z.compare_spec qa qb) as [->|Hlt|Hgt].
    + destruct (Z.compare_spec ra rb) as [->|Hlt|Hgt].
      * by rewrite Z.compare_refl.
      * by replace (P * qb + ra ?= P * qb + rb) with Lt
          by (symmetry; apply Z.compare_lt_iff; lia).
      * by replace (P * qb + ra ?= P * qb + rb) with Gt
          by (symmetry; apply Z.compare_gt_iff; lia).
    + by replace (P * qa + ra ?= P * qb + rb) with Lt
        by (symmetry; apply Z.compare_lt_iff; nia).
    + by replace (P * qa + ra ?= P * qb + rb) with Gt
        by (symmetry; apply Z.compare_gt_iff; nia).
Qed.

(** Reading back a field of [w] digits. *)
Lemma take_digits_zpad w n rest acc :
  0 <= n < 10 ^ Z.of_nat w ->
  Py.take_digits w (Py.zpad w n ++ rest) acc
  = Some (acc * 10 ^ Z.of_nat w + n, rest).
Proof.
  revert n acc. induction w as [|w IH]; intros n acc Hn.
  - simpl in *. do 2 f_equal. lia.
  - rewrite zpad_step.
    destruct (zpad_head_digit w n Hn) as [Hq Hr].
    destruct (is_digit_digit_char _ Hq) as [Hd Hv].
    rewrite string_app_cons. cbn [Py.take_digits].
    rewrite Hd, Hv, IH by done.
    do 2 f_equal. rewrite pow10_succ.
    pose proof (pow10_pos w) as Hp.
    pose proof (Z.div_mod n (10 ^ Z.of_nat w) ltac:(lia)). lia.
Qed.

(** ** ISO 8601 renderings *)

Lemma days_in_month_le y m : Py.days_in_month y m <= 31.
Proof.
  unfold Py.days_in_month, Py.DAYS_IN_MONTH.
  repeat case_match; lia.
Qed.

Lemma ymd_ok_fields y m d :
  Py.ymd_ok y m d = true ->
  0 <= y < 10 ^ Z.of_nat 4 /\ 0 <= m < 10 ^ Z.of_nat 2
  /\ 0 <= d < 10 ^ Z.of_nat 2.
Proof.
  intros H. apply ymd_ok_inv in H as (Hy & Hm & Hd).
  pose proof (days_in_month_le y m).
  change (10 ^ Z.of_nat 4) with 10000. change (10 ^ Z.of_nat 2) with 100. lia.
Qed.

Lemma take_char_cons c s : Py.take_char c (String c s) = Some s.
Proof. cbn [Py.take_char]. by rewrite Ascii.eqb_refl. Qed.

Lemma string_app_nil_r (s : string) : s ++ "" = s.
Proof.
  induction s as [|c s IH]; [done|]. by rewrite string_app_cons, IH.
Qed.

Lemma take_digits_zpad0 w n rest :
  0 <= n < 10 ^ Z.of_nat w ->
  Py.take_digits w (Py.zpad w n ++ rest) 0 = Some (n, rest).
Proof. intros H. by rewrite take_digits_zpad. Qed.

Lemma date_fromisoformat_isoformat d :
  Py.date_ok d = true -> Py.date_fromisoformat (Py.date_isoformat d) = Some d.
Proof.
  intros Hd. pose proof (ord2ymd_spec d Hd) as H.
  unfold Py.date_isoformat, Py.date_fromisoformat.
  destruct (Py.ord2ymd d) as [[y m] dd]. destruct H as [Hok Hord].
  destruct (ymd_ok_fields _ _ _ Hok) as (Hy & Hm & Hdd).
  rewrite take_digits_zpad0 by done. cbn [mbind option_bind].
  rewrite string_app_cons, string_app_nil, take_char_cons.
  cbn [mbind option_bind].
  rewrite take_digits_zpad0 by done. cbn [mbind option_bind].
  rewrite string_app_cons, string_app_nil, take_char_cons.
  cbn [mbind option_bind].
  rewrite <- (string_app_nil_r (Py.zpad 2 dd)).
  rewrite take_digits_zpad0 by done. cbn [mbind option_bind].
  unfold Py.mk_date. rewrite Hok. f_equal. lia.
Qed.

(** The order of two renderings is the order of the dates. *)
Lemma compare_date_isoformat d1 d2 s1 s2 :
  Py.date_ok d1 = true -> Py.date_ok d2 = true ->
  String.compare (Py.date_isoformat d1 ++ s1) (Py.date_isoformat d2 ++ s2)
  = match d1 ?= d2 with Eq => String.compare s1 s2 | c => c end.
Proof.
  intros Hd1 Hd2.
  pose proof (ord2ymd_spec d1 Hd1) as H1. pose proof (ord2ymd_spec d2 Hd2) as H2.
  unfold Py.date_isoformat.
  destruct (Py.ord2ymd d1) as [[y1 m1] dd1]. destruct H1 as [Hok1 Hord1].
  destruct (Py.ord2ymd d2) as [[y2 m2] dd2]. destruct H2 as [Hok2 Hord2].
  destruct (ymd_ok_fields _ _ _ Hok1) as (Hy1 & Hm1 & Hdd1).
  destruct (ymd_ok_fields _ _ _ Hok2) as (Hy2 & Hm2 & Hdd2).
  rewrite <- Hord1, <- Hord2, ymd2ord_lex by done. unfold lex3.
  rewrite !string_app_assoc.
  rewrite !string_app_cons, !string_app_nil.
  rewrite compare_zpad by done. rewrite string_compare_cons.
  rewrite compare_zpad by done. rewrite string_compare_cons.
  rewrite compare_zpad by done.
  destruct (y1 ?= y2), (m1 ?= m2), (dd1 ?= dd2); reflexivity.
Qed.

Lemma datetime_ok_inv t :
  Py.datetime_ok t = true -> 0 <= t < Py.date_max * Py.US_PER_DAY.
Proof. unfold Py.datetime_ok. rewrite andb_true_iff, Z.leb_le, Z.ltb_lt. lia. Qed.

Lemma datetime_date_ok t :
  Py.datetime_ok t = true -> Py.date_ok (Py.datetime_date t) = true.
Proof.
  intros H. apply datetime_ok_inv in H.
  unfold Py.date_ok, Py.datetime_date, Py.date_min, Py.date_max,
    Py.US_PER_DAY, Py.US_PER_SECOND in *.
  apply andb_true_iff. rewrite !Z.leb_le.
  Z.to_euclidean_division_equations; lia.
Qed.

Lemma compare_iso_fraction f1 f2 :
  0 <= f1 < 1000000 -> 0 <= f2 < 1000000 ->
  String.compare (iso_fraction f1) (iso_fraction f2) = (f1 ?= f2).
Proof.
  intros H1 H2. unfold iso_fraction.
  destruct (Z.eqb_spec f1 0) as [->|N1], (Z.eqb_spec f2 0) as [->|N2].
  - done.
  - rewrite string_app_cons. cbn [String.compare].
    symmetry. apply Z.compare_lt_iff. lia.
  - rewrite string_app_cons. cbn [String.compare].
    symmetry. apply Z.compare_gt_iff. lia.
  - rewrite !string_app_cons, !string_app_nil, string_compare_cons.
    rewrite <- (string_app_nil_r (Py.zpad 6 f1)).
    rewrite <- (string_app_nil_r (Py.zpad 6 f2)).
    rewrite compare_zpad by (change (10 ^ Z.of_nat 6) with 1000000; lia).
    by destruct (f1 ?= f2).
Qed.

(** A valid instant is a date, a time of day and a fraction of a second,
    and its rendering is that of the fields. *)
Lemma datetime_fields t :
  Py.datetime_ok t = true ->
  exists o hh mm ss frac,
    Py.date_ok o = true
    /\ 0 <= hh < 24 /\ 0 <= mm < 60 /\ 0 <= ss < 60 /\ 0 <= frac < 1000000
    /\ t = (o - 1) * Py.US_PER_DAY
           + ((hh * 3600 + mm * 60 + ss) * Py.US_PER_SECOND + frac)
    /\ Py.datetime_isoformat t
       = Py.date_isoformat o ++ "T" ++ Py.zpad 2 hh ++ ":" ++ Py.zpad 2 mm
         ++ ":" ++ Py.zpad 2 ss ++ iso_fraction frac.
Proof.
  intros Hok. pose proof (datetime_date_ok t Hok) as Hd.
  apply datetime_ok_inv in Hok.
  exists (Py.datetime_date t),
    (t mod Py.US_PER_DAY / Py.US_PER_SECOND / 3600),
    (t mod Py.US_PER_DAY / Py.US_PER_SECOND / 60 mod 60),
    (t mod Py.US_PER_DAY / Py.US_PER_SECOND mod 60),
    (t mod Py.US_PER_DAY mod Py.US_PER_SECOND).
  split; [done|].
  unfold Py.datetime_date, Py.date_max, Py.US_PER_DAY, Py.US_PER_SECOND in *.
  repeat split; try (Z.to_euclidean_division_equations; lia).
Qed.

Lemma two_digits n : 0 <= n < 60 -> 0 <= n < 10 ^ Z.of_nat 2.
Proof. change (10 ^ Z.of_nat 2) with 100. lia. Qed.

(** The renderings of two valid instants compare as the instants do. *)
Lemma compare_datetime_isoformat t1 t2 :
  Py.datetime_ok t1 = true -> Py.datetime_ok t2 = true ->
  String.compare (Py.datetime_isoformat t1) (Py.datetime_isoformat t2)
  = (t1 ?= t2).
Proof.
  intros H1 H2.
  destruct (datetime_fields t1 H1)
    as (o1 & hh1 & mm1 & ss1 & f1 & Ho1 & Bh1 & Bm1 & Bs1 & Bf1 & E1 & ->).
  destruct (datetime_fields t2 H2)
    as (o2 & hh2 & mm2 & ss2 & f2 & Ho2 & Bh2 & Bm2 & Bs2 & Bf2 & E2 & ->).
  rewrite compare_date_isoformat by done.
  rewrite !string_app_cons, !string_app_nil, string_compare_cons.
  rewrite compare_zpad by (apply two_digits; lia). rewrite string_compare_cons.
  rewrite compare_zpad by (apply two_digits; lia). rewrite string_compare_cons.
  rewrite compare_zpad by (apply two_digits; lia).
  rewrite compare_iso_fraction by done.
  unfold Py.US_PER_DAY, Py.US_PER_SECOND in *. subst t1 t2.
  symmetry.
  destruct (Z.compare_spec o1 o2) as [->|?|?];
    [|apply Z.compare_lt_iff; lia|apply Z.compare_gt_iff; lia].
  destruct (Z.compare_spec hh1 hh2) as [->|?|?];
    [|apply Z.compare_lt_iff; lia|apply Z.compare_gt_iff; lia].
  destruct (Z.compare_spec mm1 mm2) as [->|?|?];
    [|apply Z.compare_lt_iff; lia|apply Z.compare_gt_iff; lia].
  destruct (Z.compare_spec ss1 ss2) as [->|?|?];
    [|apply Z.compare_lt_iff; lia|apply Z.compare_gt_iff; lia].
  destruct (Z.compare_spec f1 f2) as [->|?|?];
    [apply Z.compare_refl|apply Z.compare_lt_iff; lia|apply Z.compare_gt_iff; lia].
Qed.

Lemma datetime_isoformat_inj t1 t2 :
  Py.datetime_ok t1 = true -> Py.datetime_ok t2 = true ->
  Py.datetime_isoformat t1 = Py.datetime_isoformat t2 -> t1 = t2.
Proof.
  intros H1 H2 E. apply Z.compare_eq.
  rewrite <- compare_datetime_isoformat, E by done.
  apply string_compare_refl.
Qed.

Lemma ltb_datetime_isoformat t1 t2 :
  Py.datetime_ok t1 = true -> Py.datetime_ok t2 = true ->
  String.ltb (Py.datetime_isoformat t1) (Py.datetime_isoformat t2)
  = (t1 <? t2).
Proof.
  intros H1 H2. unfold String.ltb, Z.ltb.
  by rewrite compare_datetime_isoformat.
Qed.

(** ** Feed metadata *)

Lemma date_isoformat_nonempty d :
  exists c r, Py.date_isoformat d = String c r.
Proof.
  unfold Py.date_isoformat. destruct (Py.ord2ymd d) as [[y m] dd].
  change 4%nat with (S 3). rewrite zpad_step, string_app_cons. eauto.
Qed.

Lemma date_field_to_dict (k : string) (o : option Py.date) (raw : gmap string json) :
  (forall d, o = Some d -> Py.date_ok d = true) ->
  raw !! k = Some (match o with
                   | Some d => JStr (Py.date_isoformat d)
                   | None => JNull
                   end) ->
  date_field raw k = Some o.
Proof.
  intros Hok Hk. unfold date_field. rewrite Hk. destruct o as [d|]; [|done].
  destruct (date_isoformat_nonempty d) as (c & r & E).
  rewrite E, <- E, date_fromisoformat_isoformat by auto. done.
Qed.

Lemma from_dict_to_dict m : meta_ok m -> from_dict (to_dict m) = Some m.
Proof.
  intros [Hs He]. unfold from_dict.
  rewrite (date_field_to_dict "start_date" (start_date m)) by done.
  rewrite (date_field_to_dict "end_date" (end_date m)) by done.
  unfold str_field, to_dict. simplify_map_eq. by destruct m.
Qed.

Lemma is_valid_for_iff m d :
  is_valid_for m d = true <->
  match start_date m with Some s => s <= d | None => True end
  /\ match end_date m with Some e => d <= e | None => True end.
Proof.
  unfold is_valid_for.
  destruct (start_date m) as [s|], (end_date m) as [e|];
    repeat match goal with
    | |- context [?a <? ?b] => destruct (Z.ltb_spec a b)
    end; split; try done; lia.
Qed.

(** C6: a [FeedMeta] written by [to_dict] and read back by [from_dict]
    is valid for the same dates, and a feed is valid for a date exactly
    when the date is not before its start and not after its end, an
    absent bound excluding nothing. *)
Theorem feed_meta_round_trip_validity m d :
  meta_ok m ->
  (exists m', from_dict (to_dict m) = Some m'
              /\ is_valid_for m' d = is_valid_for m d)
  /\ (is_valid_for m d = true <->
      match start_date m with Some s => s <= d | None => True end
      /\ match end_date m with Some e => d <= e | None => True end).
Proof.
  intros Hok. split.
  - exists m. by rewrite from_dict_to_dict.
  - apply is_valid_for_iff.
Qed.

Lemma feed_meta_round_trip_validity_witness :
  meta_ok sample_meta
  /\ (exists m', from_dict (to_dict sample_meta) = Some m'
              /\ is_valid_for m' 738950 = is_valid_for sample_meta 738950)
  /\ (is_valid_for sample_meta 738950 = true <->
      match start_date sample_meta with Some s => s <= 738950 | None => True end
      /\ match end_date sample_meta with Some e => 738950 <= e | None => True end).
Proof.
  assert (meta_ok sample_meta) as H.
  { split; intros x Hx; vm_compute in Hx; injection Hx as <-; reflexivity. }
  split; [exact H|]. exact (feed_meta_round_trip_validity sample_meta 738950 H).
Defined.

(** ** The realtime client *)

Lemma refresh_failure utc_isoformat resp now_utc self :
  fetch_or_decode_failure utc_isoformat resp ->
  exists err,
    refresh utc_isoformat true resp now_utc self = on_failure self now_utc err.
Proof.
  unfold fetch_or_decode_failure, refresh. simpl.
  destruct resp as [entity|err]; [|eauto].
  destruct (scan_entities entity ∅ None) as [delays [ts|]]; simpl; [|done].
  intros [Hts [err Herr]]. apply Z.eqb_neq in Hts. rewrite Hts, Herr. eauto.
Qed.

(** C5: when the fetch or the decoding fails, the delays of the previous
    result are kept if the last success is at most 300 seconds old, and
    are cleared if it is older or if no fetch ever succeeded; the status
    is ["error"] either way. *)
Theorem refresh_failure_keeps_recent_delays utc_isoformat resp now_utc self :
  fetch_or_decode_failure utc_isoformat resp ->
  let self' := refresh utc_isoformat true resp now_utc self in
  status (last_result self') = "error"
  /\ match _last_success_utc self with
     | Some last_success =>
         if now_utc - last_success <=? 300 * Py.US_PER_SECOND
         then trip_delays (last_result self') = trip_delays (last_result self)
         else trip_delays (last_result self') = ∅
     | None => trip_delays (last_result self') = ∅
     end.
Proof.
  intros Hfail. destruct (refresh_failure _ _ now_utc self Hfail) as [err ->].
  unfold on_failure, REALTIME_DELAY_MAX_STALE_SECONDS. simpl. split; [done|].
  destruct (_last_success_utc self) as [t0|]; [|done].
  destruct (Z.leb_spec (now_utc - t0) (300 * Py.US_PER_SECOND)),
    (Z.ltb_spec (300 * Py.US_PER_SECOND) (now_utc - t0)); try done; lia.
Qed.

Lemma refresh_status utc_isoformat pb2 resp now_utc self :
  let s := status (last_result (refresh utc_isoformat pb2 resp now_utc self)) in
  s = "ok" \/ s = "error".
Proof.
  unfold refresh. destruct pb2; simpl; [|by right].
  destruct resp as [entity|err]; simpl; [|by right].
  destruct (scan_entities entity ∅ None) as [delays [ts|]]; simpl.
  - destruct (ts =? 0); simpl; [by left|].
    destruct (utc_isoformat ts); simpl; [by left|by right].
  - by left.
Qed.

(** C9: the status is ["stale"] before the first call of [refresh] and
    never after a completed one, which leaves ["ok"] or ["error"]. *)
Theorem stale_only_before_first_refresh utc_isoformat pb2 n self :
  reachable utc_isoformat pb2 n self ->
  match n with
  | O => status (last_result self) = "stale"
  | S _ =>
      (status (last_result self) = "ok" \/ status (last_result self) = "error")
      /\ status (last_result self) <> "stale"
  end.
Proof.
  intros H. destruct H as [|n self resp now_utc _]; [done|].
  pose proof (refresh_status utc_isoformat pb2 resp now_utc self) as Hs.
  simpl in Hs. split; [done|]. by destruct Hs as [-> | ->].
Qed.

(** ** The listing fallback *)

Lemma rank_lt_iff a b :
  rank_lt a b = true <-> a.1 < b.1 \/ (a.1 = b.1 /\ a.2 < b.2).
Proof.
  unfold rank_lt. rewrite orb_true_iff, andb_true_iff, !Z.ltb_lt, Z.eqb_eq.
  done.
Qed.

Lemma rank_lt_false_iff a b :
  rank_lt a b = false <-> b.1 < a.1 \/ (a.1 = b.1 /\ b.2 <= a.2).
Proof.
  rewrite <- not_true_iff_false, rank_lt_iff. lia.
Qed.

(** [max_from] returns a member that no member outranks. *)
Lemma max_from_spec l best :
  max_from best l ∈ best :: l
  /\ forall m, m ∈ best :: l ->
       rank_lt (_meta_rank (max_from best l)) (_meta_rank m) = false.
Proof.
  revert best. induction l as [|x l IH]; intros best; simpl.
  - split; [set_solver|]. intros m Hm. apply list_elem_of_singleton in Hm as ->.
    apply rank_lt_false_iff. lia.
  - destruct (IH (if rank_lt (_meta_rank best) (_meta_rank x) then x else best))
      as [Hin Hmax].
    split.
    + destruct (rank_lt (_meta_rank best) (_meta_rank x)); set_solver.
    + intros m Hm.
      assert (rank_lt (_meta_rank (max_from
                (if rank_lt (_meta_rank best) (_meta_rank x) then x else best) l))
                (_meta_rank (if rank_lt (_meta_rank best) (_meta_rank x)
                             then x else best)) = false) as Hb
        by (apply Hmax; set_solver).
      destruct (rank_lt (_meta_rank best) (_meta_rank x)) eqn:E.
      * apply elem_of_cons in Hm as [->|Hm].
        -- apply rank_lt_false_iff. apply rank_lt_false_iff in Hb.
           apply rank_lt_iff in E. lia.
        -- by apply Hmax.
      * apply elem_of_cons in Hm as [->|Hm]; [done|].
        apply elem_of_cons in Hm as [->|Hm].
        -- apply rank_lt_false_iff. apply rank_lt_false_iff in Hb, E. lia.
        -- apply Hmax. set_solver.
Qed.

Section ListingFacts.

Context {World : Type}.
Variable fetch_candidates : string -> World -> option (list string) * World.
Variable refresh_from_url :
  string -> string -> World -> option FeedMeta * World.



Lemma valid_today_cons today m l :
  valid_today today (m :: l)
  = if is_valid_for m today then m :: valid_today today l
    else valid_today today l.
Proof. reflexivity. Qed.

Lemma try_candidates_valid today urls attempts valid_metas tried w :
  0 <= attempts <= MAX_LISTING_CANDIDATES_TO_TRY ->
  (try_candidates refresh_from_url today urls attempts valid_metas tried w).1.1.2
  = (valid_metas
     ++ valid_today today
          (downloaded refresh_from_url
             (take (Z.to_nat (MAX_LISTING_CANDIDATES_TO_TRY - attempts)) urls)
             w))%list.
Proof.
  unfold MAX_LISTING_CANDIDATES_TO_TRY.
  revert attempts valid_metas tried w.
  induction urls as [|u urls IH]; intros attempts valid tried w Ha.
  - rewrite take_nil. cbn. by rewrite app_nil_r.
  - cbn [try_candidates]. unfold MAX_LISTING_CANDIDATES_TO_TRY.
    destruct (Z.leb_spec 5 attempts) as [Hge|Hlt].
    + replace (5 - attempts) with 0 by lia. cbn. by rewrite app_nil_r.
    + replace (Z.to_nat (5 - attempts))
        with (S (Z.to_nat (5 - (attempts + 1)))) by lia.
      cbn [take downloaded].
      destruct (refresh_from_url u "listing_previous" w) as [[meta|] w1].
      * rewrite valid_today_cons.
        destruct (is_valid_for meta today) eqn:Hv.
        -- rewrite IH by lia. by rewrite <- app_assoc.
        -- by rewrite IH by lia.
      * by rewrite IH by lia.
Qed.


End ListingFacts.

(** ** The memo of active services *)

Lemma store_wf_empty : store_wf empty_store.
Proof. intros d c H. simpl in H. by rewrite lookup_empty in H. Qed.

Lemma alloc_spec s h :
  let '(l, h') := alloc s h in
  h !! l = None /\ h' !! l = Some s
  /\ forall l0, l0 <> l -> h' !! l0 = h !! l0.
Proof.
  unfold alloc. simpl. split; [|split].
  - apply not_elem_of_dom, is_fresh.
  - apply lookup_insert_eq.
  - intros l0 Hne. by rewrite lookup_insert_ne.
Qed.

Lemma evict_lookup c d l : evict c !! d = Some l -> c !! d = Some l.
Proof.
  unfold evict. intros H. apply elem_of_list_to_map_2 in H.
  apply list_elem_of_omap in H as (k & _ & Hk).
  destruct (c !! k) as [v|] eqn:E; simpl in Hk; [|done].
  by simplify_eq.
Qed.

Section CacheFacts.

Variable strptime_Ymd : string -> option Py.date.
Variable strftime_Ymd : Py.date -> string.
Variable idx : GtfsIndex.t.

Local Abbreviation active_for_day :=
  (_active_services_for_day strptime_Ymd strftime_Ymd idx).
Local Abbreviation computed := (compute_services strptime_Ymd strftime_Ymd idx).
Local Abbreviation answer := (GtfsIndex.answer strptime_Ymd strftime_Ymd idx).

Lemma active_services_for_day_spec day st :
  store_wf st ->
  let '(l, st') := active_for_day day st in
  heap st !! l = None
  /\ heap st' !! l = Some (answer day st)
  /\ (forall l0, is_Some (heap st !! l0) -> heap st' !! l0 = heap st !! l0)
  /\ (forall d c, cache st' !! d = Some c -> c <> l /\ is_Some (heap st' !! c))
  /\ match cache st' !! day with
     | Some c => deref (heap st') c = answer day st
     | None => cache st !! day = None
     end.
Proof.
  intros Hwf. unfold _active_services_for_day, answer.
  destruct (cache st !! day) as [cached|] eqn:Hday.
  - pose proof (alloc_spec (deref (heap st) cached) (heap st)) as Ha.
    destruct (alloc (deref (heap st) cached) (heap st)) as [l h].
    destruct Ha as (Hfresh & Hnew & Hold). simpl.
    assert (forall l0, is_Some (heap st !! l0) -> l0 <> l) as Hne.
    { intros l0 [x Hx] ->. congruence. }
    repeat split; try done.
    + intros l0 H0. apply Hold. auto.
    + apply Hne. eauto.
    + rewrite Hold by (apply Hne; eauto). eauto.
    + rewrite Hday. unfold deref. rewrite Hold by (apply Hne; eauto). done.
  - pose proof (alloc_spec (computed day) (heap st)) as Ha.
    destruct (alloc (computed day) (heap st)) as [services h1].
    destruct Ha as (Hfresh1 & Hnew1 & Hold1).
    pose proof (alloc_spec (deref h1 services) h1) as Ha.
    destruct (alloc (deref h1 services) h1) as [copy h2].
    destruct Ha as (Hfresh2 & Hnew2 & Hold2). simpl.
    assert (deref h1 services = computed day) as Hs
      by (unfold deref; by rewrite Hnew1).
    rewrite Hs in Hnew2.
    assert (copy <> services) as Hcs by congruence.
    assert (forall l0, is_Some (heap st !! l0) ->
              l0 <> services /\ l0 <> copy /\ h2 !! l0 = heap st !! l0) as Hne.
    { intros l0 [x Hx].
      assert (l0 <> services) by congruence.
      assert (h1 !! l0 = Some x) as H1 by (by rewrite Hold1).
      assert (l0 <> copy) by congruence.
      by rewrite Hold2, Hold1. }
    assert (forall d c,
              (if (8 <? size (<[day:=copy]> (cache st)))%nat
               then evict (<[day:=copy]> (cache st))
               else <[day:=copy]> (cache st)) !! d = Some c ->
              <[day:=copy]> (cache st) !! d = Some c) as Hsub.
    { intros d c. destruct (8 <? _)%nat; [apply evict_lookup|done]. }
    split; [done|]. split; [by rewrite Hold2|].
    split; [intros l0 H0; by apply Hne|].
    split.
    + intros d c Hc. apply Hsub in Hc.
      destruct (decide (day = d)) as [->|Hd].
      * rewrite lookup_insert_eq in Hc. simplify_eq.
        split; [done|by eexists].
      * rewrite lookup_insert_ne in Hc by done.
        destruct (Hne c (Hwf _ _ Hc)) as (? & ? & ->). split; [done|].
        by eapply Hwf.
    + match goal with
      | |- match ?m !! day with _ => _ end => destruct (m !! day) as [c|] eqn:Hc
      end; [|done].
      apply Hsub in Hc. rewrite lookup_insert_eq in Hc. simplify_eq.
      unfold deref. by rewrite Hnew2.
Qed.

Lemma active_services_for_day_wf day st :
  store_wf st -> store_wf (active_for_day day st).2.
Proof.
  intros Hwf. pose proof (active_services_for_day_spec day st Hwf) as H.
  destruct (active_for_day day st) as [l st'].
  destruct H as (_ & _ & _ & Hc & _). intros d c Hd. simpl in *.
  by apply Hc in Hd as [_ ?].
Qed.

(** C8: two calls for the same date return equal sets, and the set
    handed to the caller is an object of its own: it is new in the heap
    and it is not the cached object, so whatever the caller stores in it
    between the calls, the second call returns what the first one did. *)
Theorem active_services_for_day_idempotent day st (s : gset string) :
  store_wf st ->
  let '(l1, st1) := active_for_day day st in
  let '(l2, st2) := active_for_day day st1 in
  let '(l2', st2') :=
    active_for_day day {| heap := <[l1 := s]> (heap st1); cache := cache st1 |} in
  deref (heap st2) l2 = deref (heap st1) l1
  /\ heap st !! l1 = None
  /\ (forall d c, cache st1 !! d = Some c -> c <> l1)
  /\ l2 <> l1 /\ l2' <> l1
  /\ deref (heap st2') l2' = deref (heap st1) l1.
Proof.
  intros Hwf.
  pose proof (active_services_for_day_spec day st Hwf) as H1.
  pose proof (active_services_for_day_wf day st Hwf) as Hwf1.
  destruct (active_for_day day st) as [l1 st1]. simpl in Hwf1.
  destruct H1 as (Hfresh1 & Hnew1 & Hold1 & Hc1 & Hday1).
  assert (deref (heap st1) l1 = answer day st) as Hans
    by (unfold deref; by rewrite Hnew1).
  set (st1m := {| heap := <[l1 := s]> (heap st1); cache := cache st1 |}).
  assert (store_wf st1m) as Hwfm.
  { intros d c Hd. simpl in *. destruct (Hc1 _ _ Hd) as [Hne Hs].
    by rewrite lookup_insert_ne. }
  assert (answer day st1 = answer day st /\ answer day st1m = answer day st)
    as [Ha Ham].
  { unfold answer. simpl. destruct (cache st1 !! day) as [c|] eqn:Hc.
    - destruct (Hc1 _ _ Hc) as [Hne _]. split; [done|].
      unfold deref. simpl. by rewrite lookup_insert_ne.
    - unfold answer. by rewrite Hday1. }
  pose proof (active_services_for_day_spec day st1 Hwf1) as H2.
  destruct (active_for_day day st1) as [l2 st2].
  destruct H2 as (Hfresh2 & Hnew2 & _).
  pose proof (active_services_for_day_spec day st1m Hwfm) as H2m.
  destruct (active_for_day day st1m) as [l2' st2'].
  destruct H2m as (Hfresh2m & Hnew2m & _).
  rewrite Hans. unfold deref. rewrite Hnew2, Hnew2m, Ha, Ham. simpl.
  repeat split; try done.
  - intros d c Hd. by apply Hc1 in Hd as [? _].
  - intros ->. congruence.
  - intros ->. simpl in Hfresh2m. by rewrite lookup_insert_eq in Hfresh2m.
Qed.

End CacheFacts.

(** ** The station board *)

Lemma datetime_add_Some t td r :
  Py.datetime_add t td = Some r -> r = t + td /\ Py.datetime_ok r = true.
Proof.
  unfold Py.datetime_add. destruct (Py.datetime_ok (t + td)) eqn:E; [|done].
  intros ?. by simplify_eq.
Qed.

Lemma timedelta_minutes_Some n td :
  Py.timedelta_minutes n = Some td -> td = n * 60 * Py.US_PER_SECOND.
Proof. unfold Py.timedelta_minutes. case_match; [|done]. congruence. Qed.

Lemma rendered_within_intro lo hi rt :
  Py.datetime_ok rt = true -> lo <= rt <= hi ->
  rendered_within lo hi (Py.datetime_isoformat rt).
Proof.
  intros Hok Hb. exists rt. repeat split; try done; try lia.
  intros t Ht E. by apply datetime_isoformat_inj.
Qed.

Section BoardFacts.

Variable idx : GtfsIndex.t.
Variables (now_local window_end : Py.datetime) (h : gmap loc (gset string)).
Variables (direction_label board_route_label : string).
Variable delay_by_trip : gmap string Z.

Local Abbreviation in_window :=
  (fun e => rendered_within now_local window_end (b_rt e)).

Lemma board_days_in_window trip_id trip headsign dep_secs days es :
  board_days idx now_local window_end h board_route_label delay_by_trip
    trip_id trip headsign dep_secs days = Some es ->
  Forall in_window es.
Proof.
  revert es. induction days as [|[service_day services] days IH]; intros es H.
  - cbn in H. by simplify_eq.
  - cbn [board_days] in H. case_bool_decide; [|by apply IH].
    apply bind_Some in H as (dep_planned & _ & H).
    apply bind_Some in H as (td & _ & H).
    apply bind_Some in H as (dep_rt & Hrt & H).
    apply datetime_add_Some in Hrt as [_ Hok].
    destruct (Z.ltb_spec dep_rt now_local), (Z.ltb_spec window_end dep_rt);
      cbn [orb] in H; try by apply IH.
    case_match; [by apply IH|].
    apply bind_Some in H as (rest & Hrest & H). simplify_eq.
    constructor; [|by apply IH].
    cbn [b_rt]. apply rendered_within_intro; [done|lia].
Qed.

Lemma board_entries_in_window days deps es :
  board_entries idx now_local window_end h direction_label board_route_label
    delay_by_trip days deps = Some es ->
  Forall in_window es.
Proof.
  revert es. induction deps as [|[trip_id dep_secs] deps IH]; intros es H.
  - cbn in H. by simplify_eq.
  - cbn [board_entries] in H. repeat case_match; try by apply IH.
    apply bind_Some in H as (es1 & Hes1 & H).
    apply bind_Some in H as (rest & Hrest & H). simplify_eq.
    apply Forall_app. split; [by eapply board_days_in_window|by apply IH].
Qed.

End BoardFacts.

(** C1: every record of the station board carries, as its [rt], the
    rendering of one instant, and that instant is neither before [now]
    nor after [now] plus the window. *)
Theorem station_board_within_window strptime_Ymd strftime_Ymd idx now_local
    station_label direction_label board_route_label window_minutes
    delay_by_trip st entries st' :
  station_direction_board strptime_Ymd strftime_Ymd idx now_local station_label
    direction_label board_route_label window_minutes delay_by_trip st
  = (Some entries, st') ->
  Forall (fun e =>
            rendered_within now_local
              (now_local + window_minutes * 60 * Py.US_PER_SECOND) (b_rt e))
    entries.
Proof.
  unfold station_direction_board. intros H.
  destruct (stop_label_to_id idx !! station_label) as [[|c0 s0]|];
    try (simplify_eq; by constructor).
  destruct (Py.timedelta_minutes window_minutes) as [td|] eqn:Htd;
    cbn [mbind option_bind] in H; [|by simplify_eq].
  destruct (Py.datetime_add now_local td) as [window_end|] eqn:Hwe;
    cbn [mbind option_bind] in H; [|by simplify_eq].
  destruct (service_dates now_local) as [dates|];
    cbn [mbind option_bind] in H; [|by simplify_eq].
  destruct (active_services strptime_Ymd strftime_Ymd idx dates st)
    as [active st1].
  apply timedelta_minutes_Some in Htd as ->.
  apply datetime_add_Some in Hwe as [-> _].
  destruct (board_entries _ _ _ _ _ _ _ _ _) as [es|] eqn:Hes;
    cbn [fmap option_fmap option_map] in H; [|by simplify_eq].
  simplify_eq. apply board_entries_in_window in Hes.
  apply Forall_forall. intros e He. apply elem_of_sorted_by in He.
  by eapply Forall_forall in Hes.
Qed.

(** ** The stable sort sorts *)

Section SortedBy.

Context {A K : Type} (ltb : K -> K -> bool) (key : A -> K).

Local Abbreviation key_le := (GtfsIndex.key_le ltb key).
Local Abbreviation ordered_on := (GtfsIndex.ordered_on ltb key).

Lemma insert_by_sorted P x l :
  ordered_on P -> P x -> Forall P l ->
  StronglySorted key_le l -> StronglySorted key_le (insert_by ltb key x l).
Proof.
  intros [Hasym Htrans] Hx Hl Hs.
  induction l as [|y l IH]; cbn [insert_by].
  - repeat constructor.
  - apply Forall_cons in Hl as [Hy Hl].
    apply StronglySorted_inv in Hs as [Hs Hyl].
    destruct (ltb (key y) (key x)) eqn:E.
    + constructor; [by apply IH|].
      apply Forall_forall. intros z Hz.
      rewrite insert_by_Permutation in Hz.
      apply elem_of_cons in Hz as [->|Hz].
      * by apply Hasym.
      * by eapply Forall_forall in Hyl.
    + constructor; [by constructor|].
      constructor; [done|].
      apply Forall_forall. intros z Hz.
      apply (Htrans x y z); try done.
      * by eapply Forall_forall in Hl.
      * by eapply Forall_forall in Hyl.
Qed.

Lemma sorted_by_sorted P l :
  ordered_on P -> Forall P l -> StronglySorted key_le (sorted_by ltb key l).
Proof.
  intros Hord Hl. induction l as [|x l IH]; cbn [sorted_by]; [constructor|].
  apply Forall_cons in Hl as [Hx Hl].
  apply (insert_by_sorted P); auto.
  apply Forall_forall. intros z Hz. apply elem_of_sorted_by in Hz.
  by eapply Forall_forall in Hl.
Qed.

End SortedBy.

(** ** The origin-destination query *)


Section ODFacts.

Variable idx : GtfsIndex.t.
Variables (now_local : Py.datetime) (h : gmap loc (gset string)).
Variables (route_label direction_label from_stop_label to_stop_label : string).
Variable delay_by_trip : gmap string Z.



End ODFacts.

Lemma dedup_spec seen rows :
  NoDup (dedup_key <$> dedup seen rows)
  /\ Forall (fun e => dedup_key e ∉ seen /\ e ∈ rows) (dedup seen rows).
Proof.
  revert seen. induction rows as [|item rows IH]; intros seen; cbn [dedup].
  - split; constructor.
  - fold (dedup_key item). case_bool_decide as Hseen.
    + destruct (IH seen) as [Hnd Hall]. split; [done|].
      eapply Forall_impl; [exact Hall|]. intros e [? ?]. split; [done|].
      by apply list_elem_of_further.
    + destruct (IH ({[dedup_key item]} ∪ seen)) as [Hnd Hall]. split.
      * cbn [fmap list_fmap]. apply NoDup_cons. split; [|done].
        intros Hin. apply list_elem_of_fmap in Hin as (e & He & Hin).
        eapply Forall_forall in Hall as [Hnot _]; [|done].
        apply Hnot. rewrite He. set_solver.
      * constructor; [split; [done|apply list_elem_of_here]|].
        eapply Forall_impl; [exact Hall|]. intros e [Hn ?].
        split; [set_solver|by apply list_elem_of_further].
Qed.


Lemma slice_to_prefix {B : Type} (l : list B) limit :
  exists n, slice_to l limit = take n l.
Proof. unfold slice_to. case_match; eauto. Qed.

Lemma slice_to_length {B : Type} (l : list B) limit :
  0 <= limit -> Z.of_nat (length (slice_to l limit)) <= limit.
Proof.
  intros H. unfold slice_to. destruct (Z.leb_spec 0 limit); [|lia].
  rewrite length_take. lia.
Qed.

Lemma StronglySorted_take {B : Type} (R : B -> B -> Prop) n l :
  StronglySorted R l -> StronglySorted R (take n l).
Proof.
  intros H. rewrite <- (take_drop n l) in H.
  by apply StronglySorted_app_1_l in H.
Qed.

Lemma NoDup_take {B : Type} n (l : list B) : NoDup l -> NoDup (take n l).
Proof.
  intros H. rewrite <- (take_drop n l) in H. by apply NoDup_app in H as [? _].
Qed.



(** ** Further facts *)

(** [WEEKDAY_MAP] is only read at its seven keys. *)
Lemma weekday_range d : 0 <= Py.weekday d <= 6.
Proof. unfold Py.weekday. Z.to_euclidean_division_equations; lia. Qed.

(** A string of digits is a decimal literal: where [isdigit] holds,
    [int] does not raise. *)
Lemma is_digit_not_int_space c :
  Py.is_digit c = true -> Py.is_int_space c = false.
Proof.
  unfold Py.is_digit, Py.is_int_space. cbv zeta.
  rewrite andb_true_iff, !Z.leb_le. intros [H1 H2].
  repeat match goal with
  | |- context [?a =? ?b] => destruct (Z.eqb_spec a b); [lia|]
  | |- context [?a <=? ?b] => destruct (Z.leb_spec a b)
  end; simpl; try reflexivity; lia.
Qed.

Lemma rstrip_all_digits s :
  Py.all_digits s = true -> Py.rstrip_by Py.is_int_space s = s.
Proof.
  induction s as [|c r IH]; [done|]. cbn [Py.all_digits Py.rstrip_by].
  rewrite andb_true_iff. intros [Hc Hr]. rewrite (IH Hr).
  destruct r; [|done]. by rewrite (is_digit_not_int_space _ Hc).
Qed.

Lemma strip_all_digits s :
  Py.all_digits s = true -> Py.strip_by Py.is_int_space s = s.
Proof.
  intros H. unfold Py.strip_by.
  replace (Py.lstrip_by Py.is_int_space s) with s;
    [by apply rstrip_all_digits|].
  destruct s as [|c r]; [done|]. cbn [Py.all_digits] in H.
  apply andb_true_iff in H as [Hc _]. cbn [Py.lstrip_by].
  by rewrite (is_digit_not_int_space _ Hc).
Qed.

Lemma int_body_all_digits s acc :
  Py.all_digits s = true -> is_Some (Py.int_body s true acc).
Proof.
  revert acc. induction s as [|c r IH]; intros acc H; [by eexists|].
  cbn [Py.all_digits] in H. apply andb_true_iff in H as [Hc Hr].
  cbn [Py.int_body]. rewrite Hc. by apply IH.
Qed.

Lemma isdigit_int s : Py.isdigit s = true -> is_Some (Py.int s).
Proof.
  unfold Py.isdigit. destruct s as [|c r]; [done|]. intros H.
  unfold Py.int. rewrite (strip_all_digits _ H).
  cbn [Py.all_digits] in H. apply andb_true_iff in H as [Hc Hr].
  assert (Py.int_body (String c r) false 0
          = Py.int_body r true (10 * 0 + Py.digit_val c)) as E
    by (cbn [Py.int_body]; by rewrite Hc).
  assert (is_Some (Py.int_body (String c r) false 0)) as Hs
    by (rewrite E; by apply int_body_all_digits).
  destruct (Ascii.eqb_spec c "-") as [->|Hm]; [done|].
  destruct (Ascii.eqb_spec c "+") as [->|Hp]; [done|].
  destruct c as [[] [] [] [] [] [] [] []]; try done.
Qed.

(** With a negative limit the slice drops records from the end. *)
Lemma slice_to_negative {B : Type} (l : list B) limit :
  limit < 0 ->
  Z.of_nat (length (slice_to l limit)) = Z.max 0 (Z.of_nat (length l) + limit).
Proof.
  intros H. unfold slice_to. destruct (Z.leb_spec 0 limit); [lia|].
  rewrite length_take. lia.
Qed.

(** X29: When the decoder is missing every call ends in an error with no
    delays, and no call ever succeeds. *)
Lemma decoder_unavailable utc_isoformat n self :
  reachable utc_isoformat false n self ->
  _last_success_utc self = None
  /\ (n <> O ->
      status (last_result self) = "error"
      /\ trip_delays (last_result self) = ∅).
Proof.
  induction 1 as [|n self resp now_utc _ [IH _]]; [done|].
  cbn. split; [done|]. intros _. done.
Qed.

(** ** The order of strings *)

Lemma ascii_compare_trans a b c :
  Ascii.compare a b = Lt -> Ascii.compare b c = Lt -> Ascii.compare a c = Lt.
Proof. unfold Ascii.compare. rewrite !N.compare_lt_iff. lia. Qed.

Lemma string_compare_trans s1 s2 s3 :
  String.compare s1 s2 = Lt -> String.compare s2 s3 = Lt ->
  String.compare s1 s3 = Lt.
Proof.
  revert s2 s3. induction s1 as [|a s1 IH]; intros [|b s2] [|c s3];
    cbn [String.compare]; try done.
  destruct (Ascii.compare a b) eqn:Eab; try done;
    destruct (Ascii.compare b c) eqn:Ebc; try done.
  - apply Ascii.compare_eq_iff in Eab as ->.
    apply Ascii.compare_eq_iff in Ebc as ->.
    rewrite ascii_compare_refl. apply IH.
  - apply Ascii.compare_eq_iff in Eab as ->. by rewrite Ebc.
  - apply Ascii.compare_eq_iff in Ebc as ->. by rewrite Eab.
  - by rewrite (ascii_compare_trans _ _ _ Eab Ebc).
Qed.

Lemma string_ltb_ge s1 s2 :
  String.ltb s1 s2 = false <-> s1 = s2 \/ String.ltb s2 s1 = true.
Proof.
  unfold String.ltb. rewrite (String.compare_antisym s2 s1).
  destruct (String.compare s1 s2) eqn:E; simpl.
  - apply String.compare_eq_iff in E. naive_solver.
  - split; [done|]. intros [->|?]; [|done].
    by rewrite string_compare_refl in E.
  - naive_solver.
Qed.

Lemma string_ltb_irrefl s : String.ltb s s = false.
Proof. unfold String.ltb. by rewrite string_compare_refl. Qed.

Lemma string_ltb_trans s1 s2 s3 :
  String.ltb s1 s2 = true -> String.ltb s2 s3 = true -> String.ltb s1 s3 = true.
Proof.
  unfold String.ltb. intros H1 H2.
  destruct (String.compare s1 s2) eqn:E1; try done.
  destruct (String.compare s2 s3) eqn:E2; try done.
  by rewrite (string_compare_trans _ _ _ E1 E2).
Qed.

Lemma ordered_on_strings {A : Type} (key : A -> string) :
  ordered_on String.ltb key (fun _ => True).
Proof.
  unfold ordered_on, key_le. split.
  - intros x y _ _ H. apply string_ltb_ge. by right.
  - intros x y z _ _ _ H1 H2. apply string_ltb_ge.
    apply string_ltb_ge in H1 as [E1|H1], H2 as [E2|H2].
    + left. congruence.
    + right. by rewrite E1 in H2.
    + right. by rewrite <- E2 in H1.
    + right. by eapply string_ltb_trans.
Qed.

Lemma sorted_strings l :
  StronglySorted (fun a b => String.ltb b a = false)
    (sorted_by String.ltb id l).
Proof.
  apply (sorted_by_sorted String.ltb id (fun _ => True)).
  - apply ordered_on_strings.
  - by apply Forall_forall.
Qed.

Lemma StronglySorted_strict (l : list string) :
  NoDup l -> StronglySorted (fun a b => String.ltb b a = false) l ->
  StronglySorted (fun a b => String.ltb a b = true) l.
Proof.
  intros Hnd Hs. induction Hs as [|x l Hs IH Hall]; [constructor|].
  apply NoDup_cons in Hnd as [Hx Hnd]. constructor; [by apply IH|].
  apply Forall_forall. intros y Hy.
  eapply Forall_forall in Hall; [|done].
  apply string_ltb_ge in Hall as [->|?]; done.
Qed.

Lemma sorted_strings_strict l :
  NoDup l ->
  StronglySorted (fun a b => String.ltb a b = true) (sorted_by String.ltb id l).
Proof.
  intros H. apply StronglySorted_strict; [|apply sorted_strings].
  by rewrite sorted_by_Permutation.
Qed.

Lemma elem_of_sorted_keys {V : Type} (d : gmap string V) k :
  k ∈ sorted_keys d <-> is_Some (d !! k).
Proof.
  unfold sorted_keys. rewrite elem_of_sorted_by, list_elem_of_fmap. split.
  - intros ([k' v] & -> & H). apply elem_of_map_to_list in H. by eexists.
  - intros [v H]. exists (k, v). split; [done|]. by apply elem_of_map_to_list.
Qed.

Lemma sorted_keys_strict {V : Type} (d : gmap string V) :
  StronglySorted (fun a b => String.ltb a b = true) (sorted_keys d).
Proof. apply sorted_strings_strict, NoDup_fst_map_to_list. Qed.

Lemma elem_of_sorted_set s x : x ∈ sorted_set s <-> x ∈ s.
Proof. unfold sorted_set. by rewrite elem_of_sorted_by, elem_of_elements. Qed.

Lemma sorted_set_strict s :
  StronglySorted (fun a b => String.ltb a b = true) (sorted_set s).
Proof. apply sorted_strings_strict, NoDup_elements. Qed.

(** ** The option lists *)

Lemma route_mode_cases rt :
  _route_mode rt = "tram" \/ _route_mode rt = "bus" \/ _route_mode rt = "other".
Proof. unfold _route_mode. repeat case_match; auto. Qed.

Lemma elem_of_route_options_all idx label :
  label ∈ route_options idx None <-> is_Some (route_label_to_id idx !! label).
Proof. apply elem_of_sorted_keys. Qed.

Lemma elem_of_route_options_mode idx c m label :
  String c m <> "All" ->
  label ∈ route_options idx (Some (String c m)) <->
  exists route_id,
    route_label_to_id idx !! label = Some route_id
    /\ _route_mode (route_types idx !! route_id) = String c m.
Proof.
  intros Hne. unfold route_options.
  destruct (String.eqb_spec (String c m) "All") as [|_]; [done|].
  rewrite elem_of_sorted_keys. unfold is_Some.
  setoid_rewrite map_lookup_filter_Some. naive_solver.
Qed.

(** X1: The routes offered under "tram", "bus" and "other" are pairwise
    disjoint and together are the routes offered without a filter, which
    are those offered under "All"; each list is strictly ascending. *)
Theorem route_options_partition idx label mode_filter :
  (label ∈ route_options idx None <->
     label ∈ route_options idx (Some "tram")
     \/ label ∈ route_options idx (Some "bus")
     \/ label ∈ route_options idx (Some "other"))
  /\ ~ (label ∈ route_options idx (Some "tram")
        /\ label ∈ route_options idx (Some "bus"))
  /\ ~ (label ∈ route_options idx (Some "tram")
        /\ label ∈ route_options idx (Some "other"))
  /\ ~ (label ∈ route_options idx (Some "bus")
        /\ label ∈ route_options idx (Some "other"))
  /\ route_options idx (Some "All") = route_options idx None
  /\ StronglySorted (fun a b => String.ltb a b = true)
       (route_options idx mode_filter).
Proof.
  rewrite elem_of_route_options_all, !elem_of_route_options_mode by done.
  repeat split.
  - intros [route_id H].
    destruct (route_mode_cases (route_types idx !! route_id)) as [E|[E|E]];
      eauto 6.
  - intros [(r & H & _)|[(r & H & _)|(r & H & _)]]; eauto.
  - intros [(r1 & H1 & E1) (r2 & H2 & E2)]. congruence.
  - intros [(r1 & H1 & E1) (r2 & H2 & E2)]. congruence.
  - intros [(r1 & H1 & E1) (r2 & H2 & E2)]. congruence.
  - unfold route_options. repeat case_match; apply sorted_keys_strict.
Qed.

(** ** The memo and the tables *)

Section MemoFacts.

Variable strptime_Ymd : string -> option Py.date.
Variable strftime_Ymd : Py.date -> string.
Variable idx : GtfsIndex.t.

Local Abbreviation active_for_day :=
  (_active_services_for_day strptime_Ymd strftime_Ymd idx).
Local Abbreviation computed := (compute_services strptime_Ymd strftime_Ymd idx).
Local Abbreviation coherent := (store_coherent strptime_Ymd strftime_Ymd idx).

Lemma store_coherent_empty : coherent empty_store.
Proof.
  split; [apply store_wf_empty|]. intros d c H. simpl in H.
  by rewrite lookup_empty in H.
Qed.

Lemma active_services_for_day_cache day st d c :
  (active_for_day day st).2.(cache) !! d = Some c -> d <> day ->
  cache st !! d = Some c.
Proof.
  unfold _active_services_for_day.
  destruct (cache st !! day) as [cached|] eqn:Hday.
  - destruct (alloc _ _) as [l h]. simpl. done.
  - destruct (alloc (computed day) (heap st)) as [services h1].
    destruct (alloc (deref h1 services) h1) as [copy h2]. simpl.
    intros H Hne.
    assert (<[day:=copy]> (cache st) !! d = Some c) as H'.
    { destruct (8 <? _)%nat; [by apply evict_lookup|done]. }
    by rewrite lookup_insert_ne in H'.
Qed.

Lemma active_services_for_day_coherent day st :
  coherent st ->
  let '(l, st') := active_for_day day st in
  coherent st'
  /\ heap st !! l = None
  /\ heap st' !! l = Some (computed day)
  /\ (forall l0, is_Some (heap st !! l0) -> heap st' !! l0 = heap st !! l0).
Proof.
  intros [Hwf Hco].
  pose proof (active_services_for_day_spec strptime_Ymd strftime_Ymd idx day st Hwf) as H.
  pose proof (active_services_for_day_cache day st) as Hc.
  pose proof (active_services_for_day_wf strptime_Ymd strftime_Ymd idx day st Hwf) as Hwf'.
  destruct (active_for_day day st) as [l st']. simpl in Hc, Hwf'.
  destruct H as (Hfresh & Hnew & Hold & Hcache & Hday).
  assert (answer strptime_Ymd strftime_Ymd idx day st = computed day) as Hans.
  { unfold answer. destruct (cache st !! day) as [c|] eqn:E; [|done].
    by apply Hco. }
  rewrite Hans in *.
  repeat split; try done.
  intros d c Hd. destruct (decide (d = day)) as [->|Hne].
  - by rewrite Hd in Hday.
  - specialize (Hc _ _ Hd Hne). rewrite <- (Hco _ _ Hc).
    unfold deref. by rewrite Hold by (eapply Hwf, Hc).
Qed.

Lemma active_services_coherent dates st :
  coherent st ->
  let '(active, st') := active_services strptime_Ymd strftime_Ymd idx dates st in
  coherent st'
  /\ (forall l0, is_Some (heap st !! l0) -> heap st' !! l0 = heap st !! l0)
  /\ Forall2 (fun d item => item.1 = d /\ heap st' !! item.2 = Some (computed d))
       dates active.
Proof.
  revert st. induction dates as [|d dates IH]; intros st Hco;
    cbn [active_services].
  - split; [done|]. split; [done|constructor].
  - pose proof (active_services_for_day_coherent d st Hco) as H.
    destruct (active_for_day d st) as [l st1].
    destruct H as (Hco1 & Hfresh & Hnew & Hold).
    specialize (IH st1 Hco1).
    destruct (active_services _ _ _ dates st1) as [rest st2].
    destruct IH as (Hco2 & Hold2 & Hall).
    split; [done|]. split.
    + intros l0 H0. rewrite Hold2; [by apply Hold|]. by rewrite Hold.
    + constructor; [|done]. simpl. split; [done|].
      rewrite Hold2; [done|by eexists].
Qed.

End MemoFacts.

(** ** What the station board lists *)

Section BoardSpec.

Variable idx : GtfsIndex.t.
Variables (now_local window_end : Py.datetime) (h : gmap loc (gset string)).
Variables (direction_label board_route_label : string).
Variable delay_by_trip : gmap string Z.

Local Abbreviation days_of :=
  (board_days idx now_local window_end h board_route_label delay_by_trip).
Local Abbreviation entries_of :=
  (board_entries idx now_local window_end h direction_label board_route_label
     delay_by_trip).

Lemma board_days_spec trip_id trip headsign dep_secs days es e :
  days_of trip_id trip headsign dep_secs days = Some es ->
  e ∈ es <->
  exists service_day services dep_planned td dep_rt,
    (service_day, services) ∈ days
    /\ service_id trip ∈ deref h services
    /\ filtered_out board_route_label
         (default (route_id trip) (routes idx !! route_id trip)) = false
    /\ _time_for_service_day service_day dep_secs = Some dep_planned
    /\ Py.timedelta_seconds (default 0 (delay_by_trip !! trip_id)) = Some td
    /\ Py.datetime_add dep_planned td = Some dep_rt
    /\ now_local <= dep_rt <= window_end
    /\ e = {| b_trip_id := trip_id;
              b_route := default (route_id trip) (routes idx !! route_id trip);
              b_direction := headsign;
              b_mode := _route_mode (route_types idx !! route_id trip);
              b_planned := Py.datetime_isoformat dep_planned;
              b_rt := Py.datetime_isoformat dep_rt |}.
Proof.
  revert es. induction days as [|[service_day services] days IH]; intros es H.
  - cbn in H. simplify_eq. split; [by intros ?%elem_of_nil|].
    intros (? & ? & ? & ? & ? & ?%elem_of_nil & _). done.
  - cbn [board_days] in H.
    assert (forall es0,
              days_of trip_id trip headsign dep_secs days = Some es0 ->
              (forall p td rt,
                 service_id trip ∈ deref h services ->
                 filtered_out board_route_label
                   (default (route_id trip) (routes idx !! route_id trip)) = false ->
                 _time_for_service_day service_day dep_secs = Some p ->
                 Py.timedelta_seconds (default 0 (delay_by_trip !! trip_id))
                 = Some td ->
                 Py.datetime_add p td = Some rt ->
                 now_local <= rt <= window_end -> False) ->
              e ∈ es0 <->
              exists d s dep_planned td dep_rt,
                (d, s) ∈ (service_day, services) :: days
                /\ service_id trip ∈ deref h s
                /\ filtered_out board_route_label
                     (default (route_id trip) (routes idx !! route_id trip)) = false
                /\ _time_for_service_day d dep_secs = Some dep_planned
                /\ Py.timedelta_seconds (default 0 (delay_by_trip !! trip_id))
                   = Some td
                /\ Py.datetime_add dep_planned td = Some dep_rt
                /\ now_local <= dep_rt <= window_end
                /\ e = {| b_trip_id := trip_id;
                          b_route :=
                            default (route_id trip) (routes idx !! route_id trip);
                          b_direction := headsign;
                          b_mode := _route_mode (route_types idx !! route_id trip);
                          b_planned := Py.datetime_isoformat dep_planned;
                          b_rt := Py.datetime_isoformat dep_rt |}) as Hskip.
    { intros es0 H0 Hno. rewrite (IH _ H0). split.
      - intros (d & s & p & td & rt & Hd & ?). exists d, s, p, td, rt.
        split; [by apply list_elem_of_further|done].
      - intros (d & s & p & td & rt & Hd & Hs & Hf & Hp & Htd & Hrt & Hw & ?).
        apply elem_of_cons in Hd as [Hd|Hd]; [|by exists d, s, p, td, rt].
        simplify_eq. by destruct (Hno p td rt). }
    case_bool_decide as Hin; [|apply Hskip; [done|]; by intros].
    apply bind_Some in H as (dep_planned & Hplanned & H).
    apply bind_Some in H as (td & Htd & H).
    apply bind_Some in H as (dep_rt & Hrt & H).
    destruct ((dep_rt <? now_local) || (window_end <? dep_rt)) eqn:Eout.
    { apply Hskip; [done|]. intros p td' rt _ _ ? ? ? ?. simplify_eq.
      apply orb_true_iff in Eout. lia. }
    apply orb_false_iff in Eout as [E1 E2].
    destruct (filtered_out board_route_label _) eqn:Ef;
      [apply Hskip; [done|]; by intros|].
    apply bind_Some in H as (rest & Hrest & H). simplify_eq.
    rewrite elem_of_cons, (IH _ Hrest). split.
    + intros [->|(d & s & p & td' & rt & Hd & ?)].
      * exists service_day, services, dep_planned, td, dep_rt.
        repeat split; try done; try lia. apply list_elem_of_here.
      * exists d, s, p, td', rt. split; [by apply list_elem_of_further|done].
    + intros (d & s & p & td' & rt & Hd & Hs & Hf & Hp & Htd' & Hrt' & Hw & ->).
      apply elem_of_cons in Hd as [Hd|Hd].
      * left. by simplify_eq.
      * right. by exists d, s, p, td', rt.
Qed.

Lemma board_entries_spec days deps es e :
  entries_of days deps = Some es ->
  e ∈ es <->
  exists trip_id dep_secs trip service_day services dep_planned td dep_rt,
    (trip_id, dep_secs) ∈ deps
    /\ trips idx !! trip_id = Some trip
    /\ service_id trip <> ""
    /\ (service_day, services) ∈ days
    /\ service_id trip ∈ deref h services
    /\ filtered_out direction_label (headsign_of (Some trip)) = false
    /\ filtered_out board_route_label
         (default (route_id trip) (routes idx !! route_id trip)) = false
    /\ _time_for_service_day service_day dep_secs = Some dep_planned
    /\ Py.timedelta_seconds (default 0 (delay_by_trip !! trip_id)) = Some td
    /\ Py.datetime_add dep_planned td = Some dep_rt
    /\ now_local <= dep_rt <= window_end
    /\ e = {| b_trip_id := trip_id;
              b_route := default (route_id trip) (routes idx !! route_id trip);
              b_direction := headsign_of (Some trip);
              b_mode := _route_mode (route_types idx !! route_id trip);
              b_planned := Py.datetime_isoformat dep_planned;
              b_rt := Py.datetime_isoformat dep_rt |}.
Proof.
  revert es. induction deps as [|[trip_id dep_secs] deps IH]; intros es H.
  - cbn in H. simplify_eq. split; [by intros ?%elem_of_nil|].
    intros (? & ? & ? & ? & ? & ? & ? & ? & ?%elem_of_nil & _). done.
  - cbn [board_entries] in H.
    assert (forall es0,
              entries_of days deps = Some es0 ->
              (forall trip, trips idx !! trip_id = Some trip ->
                 service_id trip = ""
                 \/ filtered_out direction_label (headsign_of (Some trip)) = true) ->
              e ∈ es0 <->
              exists trip_id0 dep_secs0 trip service_day services dep_planned td
                     dep_rt,
                (trip_id0, dep_secs0) ∈ (trip_id, dep_secs) :: deps
                /\ trips idx !! trip_id0 = Some trip
                /\ service_id trip <> ""
                /\ (service_day, services) ∈ days
                /\ service_id trip ∈ deref h services
                /\ filtered_out direction_label (headsign_of (Some trip)) = false
                /\ filtered_out board_route_label
                     (default (route_id trip) (routes idx !! route_id trip)) = false
                /\ _time_for_service_day service_day dep_secs0 = Some dep_planned
                /\ Py.timedelta_seconds (default 0 (delay_by_trip !! trip_id0))
                   = Some td
                /\ Py.datetime_add dep_planned td = Some dep_rt
                /\ now_local <= dep_rt <= window_end
                /\ e = {| b_trip_id := trip_id0;
                          b_route :=
                            default (route_id trip) (routes idx !! route_id trip);
                          b_direction := headsign_of (Some trip);
                          b_mode := _route_mode (route_types idx !! route_id trip);
                          b_planned := Py.datetime_isoformat dep_planned;
                          b_rt := Py.datetime_isoformat dep_rt |}) as Hskip.
    { intros es0 H0 Hno. rewrite (IH _ H0). split.
      - intros (t0 & s0 & tr & d & sv & p & td & rt & Hd & ?).
        exists t0, s0, tr, d, sv, p, td, rt.
        split; [by apply list_elem_of_further|done].
      - intros (t0 & s0 & tr & d & sv & p & td & rt & Hd & Htr & Hsv & Hdy & Hin
                & Hf & ?).
        apply elem_of_cons in Hd as [Hd|Hd].
        + simplify_eq. destruct (Hno _ Htr); congruence.
        + by exists t0, s0, tr, d, sv, p, td, rt. }
    destruct (trips idx !! trip_id) as [trip|] eqn:Htrip;
      [|apply Hskip; [done|]; by intros ? ?].
    destruct (service_id trip) as [|c0 s0] eqn:Hsid; cbn [Py.truthy negb] in H;
      [apply Hskip; [done|]; intros ? ?; simplify_eq; by left|].
    destruct (filtered_out direction_label (headsign_of (Some trip))) eqn:Ef;
      [apply Hskip; [done|]; intros ? ?; simplify_eq; by right|].
    apply bind_Some in H as (es1 & Hes1 & H).
    apply bind_Some in H as (rest & Hrest & H). simplify_eq.
    rewrite elem_of_app, (board_days_spec _ _ _ _ _ _ e Hes1), (IH _ Hrest).
    split.
    + intros [(d & sv & p & td & rt & Hd & Hin & Hf & Hp & Htd & Hrt & Hw & ->)
             |(t0 & s1 & tr & d & sv & p & td & rt & Hd & ?)].
      * exists trip_id, dep_secs, trip, d, sv, p, td, rt.
        repeat split; try done; try lia;
          [apply list_elem_of_here|by rewrite Hsid].
      * exists t0, s1, tr, d, sv, p, td, rt.
        split; [by apply list_elem_of_further|done].
    + intros (t0 & s1 & tr & d & sv & p & td & rt & Hd & Htr & Hsv & Hdy & Hin
              & Hf & Hfr & Hp & Htd & Hrt & Hw & ->).
      apply elem_of_cons in Hd as [Hd|Hd].
      * left. simplify_eq. exists d, sv, p, td, rt. done.
      * right. by exists t0, s1, tr, d, sv, p, td, rt.
Qed.

End BoardSpec.

Lemma ordered_on_rendered {A : Type} (key : A -> string) :
  ordered_on String.ltb key (fun e => exists t, renders (key e) t).
Proof.
  unfold ordered_on, key_le. split.
  - intros x y (tx & Hx & ->) (ty & Hy & ->).
    rewrite !ltb_datetime_isoformat by done. lia.
  - intros x y z (tx & Hx & ->) (ty & Hy & ->) (tz & Hz & ->).
    rewrite !ltb_datetime_isoformat by done. lia.
Qed.

(** Records sorted by a rendered instant follow one another in time. *)
Lemma sorted_rendered {A : Type} (key : A -> string) recs :
  Forall (fun e => exists t, renders (key e) t) recs ->
  StronglySorted (key_le String.ltb key) recs ->
  exists ts,
    Forall2 (fun e t => renders (key e) t) recs ts /\ StronglySorted Z.le ts.
Proof.
  intros Ht Hs. induction Hs as [|e recs Hs IH Hall].
  - exists []. split; constructor.
  - apply Forall_cons in Ht as [(t & Hok & He) Ht].
    destruct (IH Ht) as (ts & H2 & Hts).
    exists (t :: ts). split; [constructor; [done|done]|].
    constructor; [done|].
    apply Forall_forall. intros t' Ht'.
    apply list_elem_of_lookup in Ht' as [i Hi].
    destruct (Forall2_lookup_r _ _ _ _ _ H2 Hi) as (e' & He' & Hok' & Hrt').
    apply list_elem_of_lookup_2 in He'.
    eapply Forall_forall in Hall; [|done]. unfold key_le in Hall.
    rewrite He, Hrt', ltb_datetime_isoformat in Hall by done. lia.
Qed.

Lemma board_days_ext idx now_local window_end h h' board_route_label
    delay_by_trip trip_id trip headsign dep_secs days days' :
  Forall2 (fun a b => a.1 = b.1 /\ deref h a.2 = deref h' b.2) days days' ->
  board_days idx now_local window_end h board_route_label delay_by_trip
    trip_id trip headsign dep_secs days
  = board_days idx now_local window_end h' board_route_label delay_by_trip
      trip_id trip headsign dep_secs days'.
Proof.
  induction 1 as [|[d l] [d' l'] days days' [Hd Hl] _ IH]; [done|].
  simpl in Hd, Hl. subst d'. cbn [board_days]. by rewrite Hl, IH.
Qed.

Lemma board_entries_ext idx now_local window_end h h' direction_label
    board_route_label delay_by_trip days days' deps :
  Forall2 (fun a b => a.1 = b.1 /\ deref h a.2 = deref h' b.2) days days' ->
  board_entries idx now_local window_end h direction_label board_route_label
    delay_by_trip days deps
  = board_entries idx now_local window_end h' direction_label board_route_label
      delay_by_trip days' deps.
Proof.
  intros Hdays. induction deps as [|[trip_id dep_secs] deps IH]; [done|].
  cbn [board_entries]. rewrite IH.
  repeat case_match; try done.
  by rewrite (board_days_ext _ _ _ h h' _ _ _ _ _ _ days days').
Qed.

Section BoardTheorems.

Variable strptime_Ymd : string -> option Py.date.
Variable strftime_Ymd : Py.date -> string.
Variable idx : GtfsIndex.t.

Local Abbreviation computed := (compute_services strptime_Ymd strftime_Ymd idx).
Local Abbreviation coherent := (store_coherent strptime_Ymd strftime_Ymd idx).
Local Abbreviation board :=
  (station_direction_board strptime_Ymd strftime_Ymd idx).

Lemma active_services_agree dates st1 st2 :
  coherent st1 -> coherent st2 ->
  Forall2 (fun a b => a.1 = b.1
                      /\ deref (heap (active_services strptime_Ymd strftime_Ymd
                                        idx dates st1).2) a.2
                         = deref (heap (active_services strptime_Ymd strftime_Ymd
                                          idx dates st2).2) b.2)
    (active_services strptime_Ymd strftime_Ymd idx dates st1).1
    (active_services strptime_Ymd strftime_Ymd idx dates st2).1.
Proof.
  intros H1 H2.
  pose proof (active_services_coherent strptime_Ymd strftime_Ymd idx dates st1 H1)
    as A1.
  pose proof (active_services_coherent strptime_Ymd strftime_Ymd idx dates st2 H2)
    as A2.
  destruct (active_services _ _ _ dates st1) as [a1 s1].
  destruct (active_services _ _ _ dates st2) as [a2 s2]. simpl.
  destruct A1 as (_ & _ & A1), A2 as (_ & _ & A2).
  revert a2 A2. induction A1 as [|d [d1 l1] dates a1 [E1 L1] _ IH];
    intros a2 A2; inversion A2 as [|? [d2 l2] ? a2' [E2 L2] A2']; simplify_eq.
  - constructor.
  - constructor; [|by apply IH]. simpl in *. split; [congruence|].
    unfold deref. by rewrite L1, L2.
Qed.

(** X8: The station board does not depend on what the memo holds, and it
    leaves the memo in step with the tables. *)
Theorem station_board_memo_transparent now_local station_label direction_label
    board_route_label window_minutes delay_by_trip st1 st2 :
  store_coherent strptime_Ymd strftime_Ymd idx st1 ->
  store_coherent strptime_Ymd strftime_Ymd idx st2 ->
  (station_direction_board strptime_Ymd strftime_Ymd idx now_local
     station_label direction_label board_route_label window_minutes
     delay_by_trip st1).1
  = (station_direction_board strptime_Ymd strftime_Ymd idx now_local
       station_label direction_label board_route_label window_minutes
       delay_by_trip st2).1
  /\ store_coherent strptime_Ymd strftime_Ymd idx
       (station_direction_board strptime_Ymd strftime_Ymd idx now_local
          station_label direction_label board_route_label window_minutes
          delay_by_trip st1).2.
Proof.
  intros H1 H2. unfold station_direction_board.
  destruct (stop_label_to_id idx !! station_label) as [[|c0 s0]|]; try done.
  destruct (Py.timedelta_minutes window_minutes) as [td|];
    cbn [mbind option_bind]; [|done].
  destruct (Py.datetime_add now_local td) as [window_end|];
    cbn [mbind option_bind]; [|done].
  destruct (service_dates now_local) as [dates|];
    cbn [mbind option_bind]; [|done].
  pose proof (active_services_agree dates st1 st2 H1 H2) as Hagree.
  pose proof (active_services_coherent strptime_Ymd strftime_Ymd idx dates st1 H1)
    as A1.
  destruct (active_services _ _ _ dates st1) as [a1 s1].
  destruct (active_services _ _ _ dates st2) as [a2 s2]. simpl in *.
  destruct A1 as (Hco & _). split; [|done].
  by rewrite (board_entries_ext _ _ _ (heap s1) (heap s2) _ _ _ a1 a2).
Qed.

(** X9: The station board lists exactly the departures of the stop that run
    on one of the three service days, pass the filters and leave within
    the window. *)
Theorem station_board_lists_exactly now_local station_label direction_label
    board_route_label window_minutes delay_by_trip st entries st' e :
  store_coherent strptime_Ymd strftime_Ymd idx st ->
  station_direction_board strptime_Ymd strftime_Ymd idx now_local station_label
    direction_label board_route_label window_minutes delay_by_trip st
  = (Some entries, st') ->
  e ∈ entries <->
  exists stop dates,
    stop_label_to_id idx !! station_label = Some stop
    /\ stop <> ""
    /\ service_dates now_local = Some dates
    /\ on_board (compute_services strptime_Ymd strftime_Ymd idx) idx now_local
         (now_local + window_minutes * 60 * Py.US_PER_SECOND) dates
         direction_label board_route_label delay_by_trip stop e.
Proof.
  intros Hco. unfold station_direction_board. intros H.
  destruct (stop_label_to_id idx !! station_label) as [[|c0 s0]|] eqn:Hstop;
    try (simplify_eq; split; [by intros ?%elem_of_nil|];
         intros (? & ? & ? & ? & _); by simplify_eq).
  destruct (Py.timedelta_minutes window_minutes) as [td|] eqn:Htd;
    cbn [mbind option_bind] in H; [|by simplify_eq].
  destruct (Py.datetime_add now_local td) as [window_end|] eqn:Hwe;
    cbn [mbind option_bind] in H; [|by simplify_eq].
  destruct (service_dates now_local) as [dates|] eqn:Hdates;
    cbn [mbind option_bind] in H; [|by simplify_eq].
  pose proof (active_services_coherent strptime_Ymd strftime_Ymd idx dates st Hco)
    as A.
  destruct (active_services _ _ _ dates st) as [active st1].
  destruct A as (_ & _ & A).
  apply timedelta_minutes_Some in Htd as ->.
  apply datetime_add_Some in Hwe as [-> _].
  destruct (board_entries _ _ _ _ _ _ _ _ _) as [es|] eqn:Hes;
    cbn [fmap option_fmap option_map] in H; [|by simplify_eq].
  simplify_eq. rewrite elem_of_sorted_by.
  rewrite (board_entries_spec _ _ _ _ _ _ _ _ _ _ e Hes). split.
  - intros (t0 & s1 & tr & d & sv & p & td & rt & Hd & Htr & Hsv & Hdy & Hin & Hrest).
    exists (String c0 s0), dates. repeat split; try done.
    exists t0, s1, tr, d, p, td, rt.
    apply list_elem_of_lookup in Hdy as [i Hi].
    destruct (Forall2_lookup_r _ _ _ _ _ A Hi) as (d' & Hd' & E & Hheap).
    simpl in E, Hheap. subst d'.
    split; [done|]. split; [done|]. split; [done|].
    split; [by eapply list_elem_of_lookup_2|].
    split; [|done]. unfold deref in Hin. by rewrite Hheap in Hin.
  - intros (stop & dates' & ? & _ & ? & t0 & s1 & tr & d & p & td & rt & Hd & Htr
            & Hsv & Hdy & Hin & Hrest). simplify_eq.
    apply list_elem_of_lookup in Hdy as [i Hi].
    destruct (Forall2_lookup_l _ _ _ _ _ A Hi) as ([d' sv] & Hd' & E & Hheap).
    simpl in E, Hheap. subst d'.
    exists t0, s1, tr, d, sv, p, td, rt.
    split; [done|]. split; [done|]. split; [done|].
    split; [by eapply list_elem_of_lookup_2|].
    split; [|done]. unfold deref. by rewrite Hheap.
Qed.

(** X10: The records of the station board follow one another in time. *)
Theorem station_board_chronological now_local station_label direction_label
    board_route_label window_minutes delay_by_trip st entries st' :
  station_direction_board strptime_Ymd strftime_Ymd idx now_local station_label
    direction_label board_route_label window_minutes delay_by_trip st
  = (Some entries, st') ->
  exists ts,
    Forall2 (fun e t => renders (b_rt e) t) entries ts /\ StronglySorted Z.le ts.
Proof.
  unfold station_direction_board. intros H.
  destruct (stop_label_to_id idx !! station_label) as [[|c0 s0]|];
    try (simplify_eq; exists []; split; constructor).
  destruct (_ ≫= _) as [[window_end dates]|]; [|by simplify_eq].
  destruct (active_services _ _ _ dates st) as [active st1].
  destruct (board_entries _ _ _ _ _ _ _ _ _) as [es|] eqn:Hes;
    cbn [fmap option_fmap option_map] in H; [|by simplify_eq].
  simplify_eq. apply board_entries_in_window in Hes.
  assert (Forall (fun e => exists t, renders (b_rt e) t)
            (sorted_by String.ltb b_rt es)) as Hall.
  { apply Forall_forall. intros e He. apply elem_of_sorted_by in He.
    eapply Forall_forall in Hes; [|done].
    destruct Hes as (rt & -> & Hok & _). by exists rt. }
  apply sorted_rendered; [done|].
  apply (sorted_by_sorted String.ltb b_rt
           (fun e => exists t, renders (b_rt e) t)).
  - apply ordered_on_rendered.
  - apply Forall_forall. intros e He.
    eapply Forall_forall in Hall; [done|by apply elem_of_sorted_by].
Qed.

End BoardTheorems.

(** ** The services of a day *)

Section ComputeServices.

Variable strptime_Ymd : string -> option Py.date.
Variable strftime_Ymd : Py.date -> string.
Variable idx : GtfsIndex.t.

Lemma calendar_step_spec day services item service :
  service ∈ calendar_step strptime_Ymd day services item <->
  service ∈ services
  \/ (item.1 = service
      /\ (forall s, _yyyymmdd_to_date strptime_Ymd (item.2 !! "start_date") = Some s ->
            s <= day)
      /\ (forall e, _yyyymmdd_to_date strptime_Ymd (item.2 !! "end_date") = Some e ->
            day <= e)
      /\ item.2 !! WEEKDAY_MAP (Py.weekday day) = Some "1").
Proof.
  destruct item as [sid r]. unfold calendar_step. simpl.
  destruct (_yyyymmdd_to_date strptime_Ymd (r !! "start_date")) as [s|];
    destruct (_yyyymmdd_to_date strptime_Ymd (r !! "end_date")) as [e|];
    repeat match goal with
    | |- context [?a <? ?b] => destruct (Z.ltb_spec a b)
    end;
    try case_bool_decide; rewrite ?elem_of_union, ?elem_of_singleton;
    split; try naive_solver lia.
  all: intros [?|(_ & Hs & He & _)]; [done|];
    try specialize (Hs _ eq_refl); try specialize (He _ eq_refl); lia.
Qed.

Lemma foldl_calendar_step_spec day l services service :
  service ∈ foldl (calendar_step strptime_Ymd day) services l <->
  service ∈ services
  \/ exists r,
       (service, r) ∈ l
       /\ (forall s, _yyyymmdd_to_date strptime_Ymd (r !! "start_date") = Some s ->
             s <= day)
       /\ (forall e, _yyyymmdd_to_date strptime_Ymd (r !! "end_date") = Some e ->
             day <= e)
       /\ r !! WEEKDAY_MAP (Py.weekday day) = Some "1".
Proof.
  revert services. induction l as [|[sid r] l IH]; intros services;
    cbn [foldl].
  - split; [by left|]. intros [?|(r & ?%elem_of_nil & _)]; done.
  - rewrite IH, calendar_step_spec. cbn [fst snd]. split.
    + intros [[?|(-> & ?)]|(r' & Hin & ?)]; [by left| |].
      * right. exists r. split; [apply list_elem_of_here|done].
      * right. exists r'. split; [by apply list_elem_of_further|done].
    + intros [?|(r' & Hin & ?)]; [by left; left|].
      apply elem_of_cons in Hin as [Hin|Hin].
      * simplify_eq. left. by right.
      * right. by exists r'.
Qed.

Lemma exception_step_spec services e service :
  service ∈ exception_step services e <->
  if bool_decide (e.1 = service /\ (e.2 = "1" \/ e.2 = "2"))
  then e.2 = "1" else service ∈ services.
Proof.
  destruct e as [sid ty]. unfold exception_step. simpl.
  destruct (String.eqb_spec ty "1") as [->|H1].
  - rewrite elem_of_union, elem_of_singleton.
    case_bool_decide; naive_solver.
  - destruct (String.eqb_spec ty "2") as [->|H2].
    + rewrite elem_of_difference, elem_of_singleton.
      case_bool_decide; naive_solver.
    + case_bool_decide; naive_solver.
Qed.

Lemma foldl_exception_step_spec exceptions services service :
  service ∈ foldl exception_step services exceptions <->
  match last_exception service exceptions with
  | Some ty => ty = "1"
  | None => service ∈ services
  end.
Proof.
  unfold last_exception.
  induction exceptions as [|e exceptions IH] using rev_ind; [done|].
  rewrite foldl_snoc, exception_step_spec, filter_app, filter_cons, filter_nil.
  case_bool_decide as He.
  - rewrite decide_True by done. by rewrite last_snoc.
  - rewrite decide_False by done. by rewrite app_nil_r.
Qed.

(** X6: The services of a day are those of the weekly pattern, overridden by
    the exceptions given for the date: the last exception that adds or
    removes a service decides for it. *)
Theorem active_services_calendar_and_exceptions day service :
  service ∈ compute_services strptime_Ymd strftime_Ymd idx day <->
  match last_exception service
          (default [] (calendar_dates idx !! strftime_Ymd day)) with
  | Some ty => ty = "1"
  | None => runs_by_calendar strptime_Ymd idx service day
  end.
Proof.
  unfold compute_services. rewrite foldl_exception_step_spec.
  destruct (last_exception _ _); [done|].
  rewrite foldl_calendar_step_spec. unfold runs_by_calendar.
  setoid_rewrite elem_of_map_to_list. set_solver.
Qed.

End ComputeServices.

(** ** The size of the memo *)

Lemma ordered_on_Z {A : Type} (key : A -> Z) :
  ordered_on Z.ltb key (fun _ => True).
Proof. unfold ordered_on, key_le. split; intros; lia. Qed.

Lemma size_list_to_map_le {V : Type} (l : list (Py.date * V)) :
  (size (list_to_map l : gmap Py.date V) <= length l)%nat.
Proof.
  induction l as [|[k v] l IH]; [done|]. cbn [list_to_map foldr length].
  destruct ((list_to_map l : gmap Py.date V) !! k) eqn:E.
  - rewrite map_size_insert_Some by done. simpl in IH. lia.
  - rewrite map_size_insert_None by done. simpl in IH. lia.
Qed.

Lemma length_omap_le {A B : Type} (f : A -> option B) l :
  (length (omap f l) <= length l)%nat.
Proof.
  induction l as [|x l IH]; [done|]. cbn [omap list_omap].
  destruct (f x); simpl; lia.
Qed.

Lemma elem_of_drop_elem_of {A : Type} (x : A) n l : x ∈ drop n l -> x ∈ l.
Proof.
  intros H. rewrite <- (take_drop n l). apply elem_of_app. by right.
Qed.

Lemma evict_size c : (size (evict c) <= 8)%nat.
Proof.
  unfold evict. etransitivity; [apply size_list_to_map_le|].
  etransitivity; [apply length_omap_le|]. rewrite length_drop. lia.
Qed.

(** What [evict] drops is older than what it keeps. *)
Lemma evict_keeps_newest c d d' :
  is_Some (evict c !! d) -> is_Some (c !! d') -> evict c !! d' = None ->
  d' < d.
Proof.
  unfold evict.
  set (ks := sorted_by Z.ltb id (map_to_list c).*1).
  assert (StronglySorted (fun a b => a < b) ks) as Hs.
  { assert (StronglySorted (fun a b => b <? a = false) ks) as Hle.
    { apply (sorted_by_sorted Z.ltb id (fun _ => True));
        [apply ordered_on_Z|by apply Forall_forall]. }
    assert (NoDup ks) as Hnd
      by (unfold ks; rewrite sorted_by_Permutation; apply NoDup_fst_map_to_list).
    clear -Hle Hnd. induction Hle as [|x l Hl IH Hall]; [constructor|].
    apply NoDup_cons in Hnd as [Hx Hnd]. constructor; [by apply IH|].
    apply Forall_forall. intros y Hy.
    eapply Forall_forall in Hall; [|done]. simpl in Hall.
    assert (x <> y) by (intros ->; done). lia. }
  assert (forall k, k ∈ ks <-> is_Some (c !! k)) as Hks.
  { intros k. unfold ks. rewrite elem_of_sorted_by, list_elem_of_fmap. split.
    - intros ([k' v] & -> & H). apply elem_of_map_to_list in H. by eexists.
    - intros [v H]. exists (k, v). split; [done|]. by apply elem_of_map_to_list. }
  set (n := (length ks - 8)%nat).
  assert (forall k, is_Some (list_to_map (M := gmap Py.date loc)
                               (omap (fun k => pair k <$> c !! k) (drop n ks)) !! k)
                    <-> k ∈ drop n ks) as Hkept.
  { intros k. split.
    - intros [l Hl]. apply elem_of_list_to_map_2 in Hl.
      apply list_elem_of_omap in Hl as (k' & Hk' & E).
      destruct (c !! k') eqn:Ek'; simpl in E; [|done]. by simplify_eq.
    - intros Hk.
      assert (is_Some (c !! k)) as [l Hl]
        by (apply Hks; eapply elem_of_drop_elem_of; done).
      apply not_eq_None_Some. intros Hnone.
      apply not_elem_of_list_to_map_2 in Hnone. apply Hnone.
      apply list_elem_of_fmap. exists (k, l). split; [done|].
      apply list_elem_of_omap. exists k. split; [done|].
      change ((pair k <$> c !! k) = Some (k, l)). by rewrite Hl. }
  intros Hd Hd' Hnone. apply Hkept in Hd.
  assert (d' ∉ drop n ks) as Hnot.
  { intros Hin. apply Hkept in Hin as [x Hx].
    assert (Some x = None) by (rewrite <- Hx; exact Hnone). done. }
  apply Hks in Hd'. rewrite <- (take_drop n ks) in Hd', Hs.
  apply elem_of_app in Hd' as [Hd'|Hd']; [|done].
  by eapply StronglySorted_app_1_elem_of.
Qed.

Section CacheSize.

Variable strptime_Ymd : string -> option Py.date.
Variable strftime_Ymd : Py.date -> string.
Variable idx : GtfsIndex.t.

(** X7: The memo never holds more than eight dates, and a date that a call
    drops from it, the date of the call included, is older than every
    date it keeps. *)
Theorem active_services_cache_bounded day st :
  (size (cache st) <= 8)%nat ->
  let st' := (_active_services_for_day strptime_Ymd strftime_Ymd idx day st).2 in
  (size (cache st') <= 8)%nat
  /\ forall d d',
       is_Some (cache st' !! d) ->
       d' = day \/ is_Some (cache st !! d') ->
       cache st' !! d' = None ->
       d' < d.
Proof.
  intros Hsize. unfold _active_services_for_day.
  destruct (cache st !! day) as [cached|] eqn:Hday.
  - destruct (alloc _ _) as [l h]. simpl. split; [done|].
    intros d d' _ [->|[? H]] Hnone; congruence.
  - destruct (alloc _ (heap st)) as [services h1].
    destruct (alloc (deref h1 services) h1) as [copy h2]. simpl.
    assert (forall d', d' = day \/ is_Some (cache st !! d') ->
                       is_Some (<[day:=copy]> (cache st) !! d')) as Hin.
    { intros d' [->|[x Hx]]; [by rewrite lookup_insert_eq|].
      destruct (decide (day = d')) as [->|Hne]; [congruence|].
      rewrite lookup_insert_ne by done. by eexists. }
    destruct (Nat.ltb_spec 8 (size (<[day:=copy]> (cache st)))) as [Hbig|Hsmall].
    + split; [apply evict_size|]. intros d d' Hd Hd' Hnone.
      eapply evict_keeps_newest; [done|by apply Hin|done].
    + split; [done|]. intros d d' _ Hd' Hnone.
      apply Hin in Hd' as [x Hx]. congruence.
Qed.

End CacheSize.

(** ** The selectors and the queries *)

Lemma next_where_Some {A : Type} (p : A -> bool) l x :
  next_where p l = Some x -> x ∈ l /\ p x = true.
Proof.
  induction l as [|y l IH]; [done|]. cbn [next_where].
  destruct (p y) eqn:E.
  - intros ?. simplify_eq. split; [apply list_elem_of_here|done].
  - intros H. destruct (IH H). split; [by apply list_elem_of_further|done].
Qed.

Lemma other_direction_Some direction_label headsign :
  other_direction (Some direction_label) headsign
  = filtered_out direction_label headsign.
Proof. unfold other_direction. by destruct direction_label. Qed.

Lemma foldl_union_singleton {A : Type} (f : A -> string) (l : list A)
    (acc : gset string) x :
  x ∈ foldl (fun acc a => {[f a]} ∪ acc) acc l <->
  x ∈ acc \/ exists a, a ∈ l /\ x = f a.
Proof.
  revert acc. induction l as [|a l IH]; intros acc; cbn [foldl].
  - split; [by left|]. intros [?|(a & ?%elem_of_nil & _)]; done.
  - rewrite IH, elem_of_union, elem_of_singleton. split.
    + intros [[->|?]|(a' & Ha' & ->)]; [right|by left|right].
      * exists a. split; [apply list_elem_of_here|done].
      * exists a'. split; [by apply list_elem_of_further|done].
    + intros [?|(a' & Ha' & ->)]; [by left; right|].
      apply elem_of_cons in Ha' as [->|Ha']; [by left; left|].
      right. by exists a'.
Qed.

Section Selectors.

Variable idx : GtfsIndex.t.

Lemma elem_of_get_directions_for_station station_label x :
  x ∈ get_directions_for_station idx station_label <->
  exists c0 s0 dep,
    stop_label_to_id idx !! station_label = Some (String c0 s0)
    /\ dep ∈ default [] (departures_by_stop idx !! String c0 s0)
    /\ x = headsign_of (trips idx !! dep.1).
Proof.
  unfold get_directions_for_station.
  destruct (stop_label_to_id idx !! station_label) as [[|c0 s0]|];
    try (split; [by intros ?%elem_of_nil|by intros (? & ? & ? & ? & _)]).
  rewrite elem_of_sorted_set,
    (foldl_union_singleton (fun dep => headsign_of (trips idx !! dep.1))).
  rewrite elem_of_empty. split.
  - intros [[]|(dep & ? & ?)]. by exists c0, s0, dep.
  - intros (? & ? & dep & ? & ? & ?). simplify_eq. right. by exists dep.
Qed.

Lemma elem_of_get_directions_for_route route_label x :
  x ∈ get_directions_for_route idx route_label <->
  exists c0 r0 trip_id,
    route_label_to_id idx !! route_label = Some (String c0 r0)
    /\ trip_id ∈ default [] (trips_by_route idx !! String c0 r0)
    /\ x = headsign_of (trips idx !! trip_id).
Proof.
  unfold get_directions_for_route.
  destruct (route_label_to_id idx !! route_label) as [[|c0 r0]|];
    try (split; [by intros ?%elem_of_nil|by intros (? & ? & ? & ? & _)]).
  rewrite elem_of_sorted_set,
    (foldl_union_singleton (fun trip_id => headsign_of (trips idx !! trip_id))).
  rewrite elem_of_empty. split.
  - intros [[]|(trip_id & ? & ?)]. by exists c0, r0, trip_id.
  - intros (? & ? & trip_id & ? & ? & ?). simplify_eq. right. by exists trip_id.
Qed.

(** What one trip adds to the destinations. *)
Lemma to_stops_inner fe stop_times (acc : gset string) x :
  x ∈ foldl (fun to_stops st =>
               if stop_sequence fe <? stop_sequence st
               then {[_stop_label idx (stop_id st)]} ∪ to_stops
               else to_stops) acc stop_times <->
  x ∈ acc
  \/ exists st, st ∈ stop_times /\ stop_sequence fe < stop_sequence st
                /\ x = _stop_label idx (stop_id st).
Proof.
  revert acc. induction stop_times as [|st l IH]; intros acc; cbn [foldl].
  - split; [by left|]. intros [?|(a & ?%elem_of_nil & _)]; done.
  - rewrite IH. destruct (Z.ltb_spec (stop_sequence fe) (stop_sequence st)).
    + rewrite elem_of_union, elem_of_singleton. split.
      * intros [[->|?]|(a' & Ha' & ?)]; [right|by left|right].
        -- exists st. split; [apply list_elem_of_here|done].
        -- exists a'. split; [by apply list_elem_of_further|done].
      * intros [?|(a' & Ha' & ? & ->)]; [by left; right|].
        apply elem_of_cons in Ha' as [->|Ha']; [by left; left|].
        right. by exists a'.
    + split.
      * intros [?|(a' & Ha' & ?)]; [by left|right].
        exists a'. split; [by apply list_elem_of_further|done].
      * intros [?|(a' & Ha' & ? & ->)]; [by left|].
        apply elem_of_cons in Ha' as [->|Ha']; [lia|].
        right. by exists a'.
Qed.

Lemma to_stops_outer from_stop direction_label trip_ids (acc : gset string) x :
  x ∈ foldl (to_stops_step idx from_stop direction_label) acc trip_ids <->
  x ∈ acc
  \/ exists trip_id fe st,
       trip_id ∈ trip_ids
       /\ other_direction direction_label
            (headsign_of (trips idx !! trip_id)) = false
       /\ next_where (fun st => (stop_id st =? from_stop)%string)
            (default [] (stop_times_by_trip idx !! trip_id)) = Some fe
       /\ st ∈ default [] (stop_times_by_trip idx !! trip_id)
       /\ stop_sequence fe < stop_sequence st
       /\ x = _stop_label idx (stop_id st).
Proof.
  revert acc. induction trip_ids as [|trip_id l IH]; intros acc; cbn [foldl].
  - split; [by left|]. intros [?|(a & ? & ? & ?%elem_of_nil & _)]; done.
  - rewrite IH. unfold to_stops_step.
    assert (forall P : Prop,
              (forall fe st,
                 other_direction direction_label
                   (headsign_of (trips idx !! trip_id)) = false ->
                 next_where (fun st => (stop_id st =? from_stop)%string)
                   (default [] (stop_times_by_trip idx !! trip_id)) = Some fe ->
                 st ∈ default [] (stop_times_by_trip idx !! trip_id) ->
                 stop_sequence fe < stop_sequence st ->
                 x = _stop_label idx (stop_id st) -> P) ->
              (x ∈ acc -> P) ->
              (forall trip_id' fe st,
                 trip_id' ∈ l ->
                 other_direction direction_label
                   (headsign_of (trips idx !! trip_id')) = false ->
                 next_where (fun st => (stop_id st =? from_stop)%string)
                   (default [] (stop_times_by_trip idx !! trip_id')) = Some fe ->
                 st ∈ default [] (stop_times_by_trip idx !! trip_id') ->
                 stop_sequence fe < stop_sequence st ->
                 x = _stop_label idx (stop_id st) -> P) ->
              (x ∈ acc
               \/ exists trip_id' fe st,
                    trip_id' ∈ trip_id :: l
                    /\ other_direction direction_label
                         (headsign_of (trips idx !! trip_id')) = false
                    /\ next_where (fun st => (stop_id st =? from_stop)%string)
                         (default [] (stop_times_by_trip idx !! trip_id'))
                       = Some fe
                    /\ st ∈ default [] (stop_times_by_trip idx !! trip_id')
                    /\ stop_sequence fe < stop_sequence st
                    /\ x = _stop_label idx (stop_id st)) -> P) as Hcases.
    { intros P Hhere Hacc Hlater [?|(t & fe & st & Ht & ? & ? & ? & ? & ?)];
        [by apply Hacc|].
      apply elem_of_cons in Ht as [->|Ht]; [by eapply Hhere|by eapply Hlater]. }
    destruct (other_direction direction_label _) eqn:Ed.
    { split.
      - intros [?|(t & fe & st & Ht & ?)]; [by left|right].
        exists t, fe, st. split; [by apply list_elem_of_further|done].
      - apply Hcases; [congruence|by left|].
        intros t fe st ? ? ? ? ? ?. right. by exists t, fe, st. }
    destruct (next_where _ _) as [fe|] eqn:Efe.
    + rewrite to_stops_inner. split.
      * intros [[?|(st & ? & ? & ->)]|(t & fe' & st & Ht & ?)];
          [by left|right|right].
        -- exists trip_id, fe, st. split; [apply list_elem_of_here|done].
        -- exists t, fe', st. split; [by apply list_elem_of_further|done].
      * apply Hcases.
        -- intros fe' st _ ? ? ? ?. simplify_eq. left. right. by exists st.
        -- intros ?. by left; left.
        -- intros t fe' st ? ? ? ? ? ?. right. by exists t, fe', st.
    + split.
      * intros [?|(t & fe & st & Ht & ?)]; [by left|right].
        exists t, fe, st. split; [by apply list_elem_of_further|done].
      * apply Hcases; [congruence|by left|].
        intros t fe st ? ? ? ? ? ?. right. by exists t, fe, st.
Qed.

End Selectors.

Section ODProvenance.

Variable idx : GtfsIndex.t.
Variables (now_local : Py.datetime) (h : gmap loc (gset string)).
Variables (route_label direction_label from_stop_label to_stop_label : string).
Variable delay_by_trip : gmap string Z.

Lemma od_days_fields trip_id service headsign from_entry to_entry days es e :
  od_days now_local h route_label from_stop_label to_stop_label delay_by_trip
    trip_id service headsign from_entry to_entry days = Some es ->
  e ∈ es ->
  od_trip_id e = trip_id /\ od_direction e = headsign
  /\ od_route e = route_label /\ od_from_stop e = from_stop_label
  /\ od_to_stop e = to_stop_label.
Proof.
  revert es. induction days as [|[service_day services] days IH]; intros es H.
  - cbn in H. simplify_eq. by intros ?%elem_of_nil.
  - cbn [od_days] in H. case_bool_decide; [|by apply IH].
    apply bind_Some in H as (dep_planned & _ & H).
    apply bind_Some in H as (arr_planned & _ & H).
    apply bind_Some in H as (td & _ & H).
    apply bind_Some in H as (dep_rt & _ & H).
    apply bind_Some in H as (arr_rt & _ & H).
    destruct (dep_rt <? now_local); [by apply IH|].
    apply bind_Some in H as (rest & Hrest & H). simplify_eq.
    intros [->|He]%elem_of_cons; [done|]. by eapply IH.
Qed.

Lemma od_trips_provenance from_stop to_stop days trip_ids es e :
  od_trips idx now_local h route_label direction_label from_stop_label
    to_stop_label delay_by_trip from_stop to_stop days trip_ids = Some es ->
  e ∈ es ->
  exists trip_id fe te,
    trip_id ∈ trip_ids
    /\ od_trip_id e = trip_id
    /\ od_direction e = headsign_of (trips idx !! trip_id)
    /\ filtered_out direction_label (od_direction e) = false
    /\ next_where (fun st => (stop_id st =? from_stop)%string)
         (default [] (stop_times_by_trip idx !! trip_id)) = Some fe
    /\ te ∈ default [] (stop_times_by_trip idx !! trip_id)
    /\ stop_id te = to_stop
    /\ stop_sequence fe < stop_sequence te.
Proof.
  revert es. induction trip_ids as [|trip_id trip_ids IH]; intros es H He.
  - cbn in H. simplify_eq. by apply elem_of_nil in He.
  - cbn [od_trips] in H.
    assert (forall es0,
              od_trips idx now_local h route_label direction_label
                from_stop_label to_stop_label delay_by_trip from_stop to_stop
                days trip_ids = Some es0 ->
              e ∈ es0 ->
              exists trip_id0 fe te,
                trip_id0 ∈ trip_id :: trip_ids
                /\ od_trip_id e = trip_id0
                /\ od_direction e = headsign_of (trips idx !! trip_id0)
                /\ filtered_out direction_label (od_direction e) = false
                /\ next_where (fun st => (stop_id st =? from_stop)%string)
                     (default [] (stop_times_by_trip idx !! trip_id0)) = Some fe
                /\ te ∈ default [] (stop_times_by_trip idx !! trip_id0)
                /\ stop_id te = to_stop
                /\ stop_sequence fe < stop_sequence te) as Hlater.
    { intros es0 H0 He0. destruct (IH _ H0 He0) as (t & fe & te & Ht & ?).
      exists t, fe, te. split; [by apply list_elem_of_further|done]. }
    cbv zeta in H.
    destruct (filtered_out direction_label
                (headsign_of (trips idx !! trip_id))) eqn:Ef;
      [exact (Hlater _ H He)|].
    destruct (service_id <$> trips idx !! trip_id) as [[|c0 s0]|];
      try exact (Hlater _ H He).
    destruct (next_where _ _) as [fe|] eqn:Efe; [|exact (Hlater _ H He)].
    destruct (next_where _ _) as [te|] eqn:Ete in H; [|exact (Hlater _ H He)].
    apply bind_Some in H as (es1 & Hes1 & H).
    apply bind_Some in H as (rest & Hrest & H). simplify_eq.
    apply elem_of_app in He as [He|He]; [|exact (Hlater _ Hrest He)].
    destruct (od_days_fields _ _ _ _ _ _ _ _ Hes1 He) as (E1 & E2 & _).
    apply next_where_Some in Ete as [Hin Hp].
    apply andb_true_iff in Hp as [Hid Hseq].
    apply String.eqb_eq in Hid. apply Z.ltb_lt in Hseq.
    exists trip_id, fe, te. rewrite E2.
    split; [apply list_elem_of_here|done].
Qed.

End ODProvenance.

Section Offered.

Variable strptime_Ymd : string -> option Py.date.
Variable strftime_Ymd : Py.date -> string.
Variable idx : GtfsIndex.t.

(** X11: Every direction that a record of the station board shows is among
    the directions offered for the station; a record shows the wanted
    direction when one is wanted, and never an empty one. *)
Theorem board_directions_are_offered now_local station_label direction_label
    board_route_label window_minutes delay_by_trip st entries st' e :
  station_direction_board strptime_Ymd strftime_Ymd idx now_local station_label
    direction_label board_route_label window_minutes delay_by_trip st
  = (Some entries, st') ->
  e ∈ entries ->
  b_direction e ∈ get_directions_for_station idx station_label
  /\ b_direction e <> ""
  /\ (direction_label <> "" -> direction_label <> "All" ->
      b_direction e = direction_label).
Proof.
  unfold station_direction_board. intros H He.
  destruct (stop_label_to_id idx !! station_label) as [[|c0 s0]|] eqn:Hstop;
    try (simplify_eq; by apply elem_of_nil in He).
  destruct (_ ≫= _) as [[window_end dates]|]; [|by simplify_eq].
  destruct (active_services _ _ _ dates st) as [active st1].
  destruct (board_entries _ _ _ _ _ _ _ _ _) as [es|] eqn:Hes;
    cbn [fmap option_fmap option_map] in H; [|by simplify_eq].
  simplify_eq. apply elem_of_sorted_by in He.
  apply (board_entries_spec _ _ _ _ _ _ _ _ _ _ e Hes) in He
    as (t0 & s1 & tr & d & sv & p & td & rt & Hd & Htr & Hsv & Hdy & Hin & Hf
        & Hfr & Hp & Htd & Hrt & Hw & ->).
  cbn [b_direction]. split; [|split].
  - apply elem_of_get_directions_for_station.
    exists c0, s0, (t0, s1). simpl. by rewrite Htr.
  - unfold headsign_of, Py.or_str. simpl. by destruct (trip_headsign tr).
  - intros H1 H2. unfold filtered_out in Hf.
    destruct (String.eqb_spec direction_label "") as [|_]; [done|].
    destruct (String.eqb_spec direction_label "All") as [|_]; [done|].
    simpl in Hf. apply negb_false_iff, String.eqb_eq in Hf. done.
Qed.

(** X12: What the origin-destination query returns is what the selectors
    offer: the direction of a record is a direction of the route, and
    the destination is among the stops offered after the origin. *)
Theorem od_records_are_offered now_local route_label direction_label
    from_stop_label to_stop_label delay_by_trip limit st recs st' e :
  upcoming_od_do strptime_Ymd strftime_Ymd idx now_local route_label
    direction_label from_stop_label to_stop_label delay_by_trip limit st
  = (Some recs, st') ->
  e ∈ recs ->
  od_direction e ∈ get_directions_for_route idx route_label
  /\ exists to_stop,
       stop_label_to_id idx !! to_stop_label = Some to_stop
       /\ _stop_label idx to_stop
          ∈ get_to_stops idx route_label from_stop_label (Some direction_label).
Proof.
  unfold upcoming_od_do. intros H He.
  destruct (route_label_to_id idx !! route_label) as [[|c0 r0]|] eqn:Hroute;
    try (simplify_eq; by apply elem_of_nil in He).
  destruct (stop_label_to_id idx !! from_stop_label) as [[|c1 f1]|] eqn:Hfrom;
    try (simplify_eq; by apply elem_of_nil in He).
  destruct (stop_label_to_id idx !! to_stop_label) as [[|c2 t2]|] eqn:Hto;
    try (simplify_eq; by apply elem_of_nil in He).
  destruct (service_dates now_local) as [dates|]; [|by simplify_eq].
  destruct (active_services strptime_Ymd strftime_Ymd idx dates st)
    as [active st1].
  destruct (od_trips _ _ _ _ _ _ _ _ _ _ _ _) as [results|] eqn:Hres;
    cbn [fmap option_fmap option_map] in H; [|by simplify_eq].
  simplify_eq.
  assert (e ∈ results) as Hin.
  { destruct (slice_to_prefix
                (dedup ∅ (sorted_by String.ltb od_departure_rt results)) limit)
      as [n Hn].
    rewrite Hn in He. apply elem_of_take in He as (i & He & _).
    apply list_elem_of_lookup_2 in He.
    destruct (dedup_spec ∅ (sorted_by String.ltb od_departure_rt results))
      as [_ Hsub].
    eapply Forall_forall in Hsub as [_ Hs]; [|done].
    by apply elem_of_sorted_by in Hs. }
  destruct (od_trips_provenance _ _ _ _ _ _ _ _ _ _ _ _ _ _ Hres Hin)
    as (trip_id & fe & te & Ht & E1 & E2 & Hf & Hfe & Hte & Hid & Hseq).
  split.
  - apply elem_of_get_directions_for_route. by exists c0, r0, trip_id.
  - exists (String c2 t2). split; [done|].
    unfold get_to_stops. rewrite Hroute, Hfrom.
    apply elem_of_sorted_set, to_stops_outer. right.
    exists trip_id, fe, te. rewrite other_direction_Some, <- E2, Hid.
    done.
Qed.

End Offered.

(** ** The stops of a route *)

Lemma elem_of_dict_set k v d k' :
  k' ∈ (dict_set k v d).*1 <-> k' = k \/ k' ∈ d.*1.
Proof.
  induction d as [|[k0 v0] d IH]; cbn [dict_set].
  - cbn. rewrite list_elem_of_singleton. set_solver.
  - destruct (String.eqb_spec k0 k) as [->|Hne]; cbn [fmap list_fmap fst].
    + rewrite !elem_of_cons. naive_solver.
    + rewrite !elem_of_cons, IH. naive_solver.
Qed.

Lemma seq_min_step_keys sts d k :
  k ∈ (foldl seq_min_step d sts).*1 <->
  k ∈ d.*1 \/ exists st, st ∈ sts /\ k = stop_id st.
Proof.
  revert d. induction sts as [|st sts IH]; intros d; cbn [foldl].
  - split; [by left|]. intros [?|(a & ?%elem_of_nil & _)]; done.
  - rewrite IH. unfold seq_min_step. rewrite elem_of_dict_set. split.
    + intros [[->|?]|(a & Ha & ->)]; [right|by left|right].
      * exists st. split; [apply list_elem_of_here|done].
      * exists a. split; [by apply list_elem_of_further|done].
    + intros [?|(a & Ha & ->)]; [by left; right|].
      apply elem_of_cons in Ha as [->|Ha]; [by left; left|].
      right. by exists a.
Qed.

Section RouteStops.

Variable idx : GtfsIndex.t.

Lemma seq_min_keys direction_label trip_ids d k :
  k ∈ (foldl (fun seq_min trip_id =>
                if other_direction direction_label
                     (headsign_of (trips idx !! trip_id))
                then seq_min
                else foldl seq_min_step seq_min
                       (default [] (stop_times_by_trip idx !! trip_id)))
         d trip_ids).*1 <->
  k ∈ d.*1
  \/ exists trip_id st,
       trip_id ∈ trip_ids
       /\ other_direction direction_label
            (headsign_of (trips idx !! trip_id)) = false
       /\ st ∈ default [] (stop_times_by_trip idx !! trip_id)
       /\ k = stop_id st.
Proof.
  revert d. induction trip_ids as [|trip_id l IH]; intros d; cbn [foldl].
  - split; [by left|]. intros [?|(a & ? & ?%elem_of_nil & _)]; done.
  - rewrite IH.
    destruct (other_direction direction_label
                (headsign_of (trips idx !! trip_id))) eqn:Ed.
    + split.
      * intros [?|(t & st & Ht & ?)]; [by left|right].
        exists t, st. split; [by apply list_elem_of_further|done].
      * intros [?|(t & st & Ht & Hd & ?)]; [by left|].
        apply elem_of_cons in Ht as [->|Ht]; [congruence|].
        right. by exists t, st.
    + rewrite seq_min_step_keys. split.
      * intros [[?|(st & ? & ->)]|(t & st & Ht & ?)]; [by left|right|right].
        -- exists trip_id, st. split; [apply list_elem_of_here|done].
        -- exists t, st. split; [by apply list_elem_of_further|done].
      * intros [?|(t & st & Ht & Hd & Hst & ->)]; [by left; left|].
        apply elem_of_cons in Ht as [->|Ht].
        -- left. right. by exists st.
        -- right. by exists t, st.
Qed.

Lemma elem_of_get_stops_for_route route_label direction_label label :
  label ∈ get_stops_for_route idx route_label direction_label <->
  exists c0 r0 trip_id st,
    route_label_to_id idx !! route_label = Some (String c0 r0)
    /\ trip_id ∈ default [] (trips_by_route idx !! String c0 r0)
    /\ other_direction direction_label
         (headsign_of (trips idx !! trip_id)) = false
    /\ st ∈ default [] (stop_times_by_trip idx !! trip_id)
    /\ label = _stop_label idx (stop_id st).
Proof.
  unfold get_stops_for_route.
  destruct (route_label_to_id idx !! route_label) as [[|c0 r0]|];
    try (split; [by intros ?%elem_of_nil|by intros (? & ? & ? & ? & ? & _)]).
  cbv zeta. rewrite list_elem_of_fmap. split.
  - intros ([k v] & -> & Hin). apply elem_of_sorted_by in Hin.
    assert (k ∈ (foldl (fun seq_min trip_id =>
                          if other_direction direction_label
                               (headsign_of (trips idx !! trip_id))
                          then seq_min
                          else foldl seq_min_step seq_min
                                 (default [] (stop_times_by_trip idx !! trip_id)))
                   [] (default [] (trips_by_route idx !! String c0 r0))).*1) as Hk
      by (apply list_elem_of_fmap; by exists (k, v)).
    apply seq_min_keys in Hk as [?%elem_of_nil|(t & st & ? & ? & ? & ->)];
      [done|].
    by exists c0, r0, t, st.
  - intros (c' & r' & t & st & [= <- <-] & Ht & Hd & Hst & ->).
    assert (stop_id st
            ∈ (foldl (fun seq_min trip_id =>
                        if other_direction direction_label
                             (headsign_of (trips idx !! trip_id))
                        then seq_min
                        else foldl seq_min_step seq_min
                               (default [] (stop_times_by_trip idx !! trip_id)))
                 [] (default [] (trips_by_route idx !! String c0 r0))).*1) as Hk
      by (apply seq_min_keys; right; by exists t, st).
    apply list_elem_of_fmap in Hk as ([k v] & E & Hin). simpl in E. subst k.
    exists (stop_id st, v). split; [done|]. by apply elem_of_sorted_by.
Qed.

(** X13: A destination offered after an origin is a stop offered for the
    route, under the same direction. *)
Theorem to_stops_are_route_stops route_label from_stop_label direction_label
    label :
  label ∈ get_to_stops idx route_label from_stop_label direction_label ->
  label ∈ get_stops_for_route idx route_label direction_label.
Proof.
  unfold get_to_stops. intros H.
  destruct (route_label_to_id idx !! route_label) as [[|c0 r0]|] eqn:Hroute;
    try by apply elem_of_nil in H.
  destruct (stop_label_to_id idx !! from_stop_label) as [[|c1 f1]|];
    try by apply elem_of_nil in H.
  apply elem_of_sorted_set, to_stops_outer in H
    as [[]%elem_of_empty|(t & fe & st & ? & ? & ? & ? & ? & ->)].
  apply elem_of_get_stops_for_route. by exists c0, r0, t, st.
Qed.

End RouteStops.

(** *** The order of the stops of a route *)

Lemma dict_set_spec k v d :
  NoDup d.*1 ->
  NoDup (dict_set k v d).*1
  /\ forall k' v', (k', v') ∈ dict_set k v d <->
                   (k' = k /\ v' = v) \/ (k' <> k /\ (k', v') ∈ d).
Proof.
  induction d as [|[k0 v0] d IH]; cbn [dict_set fmap list_fmap fst].
  - intros _. split; [apply NoDup_singleton|]. intros k' v'.
    rewrite list_elem_of_singleton. split; [naive_solver|].
    intros [[-> ->]|[_ ?%elem_of_nil]]; done.
  - intros [Hk0 Hnd]%NoDup_cons. destruct (IH Hnd) as [IH1 IH2].
    destruct (String.eqb_spec k0 k) as [->|Hne]; cbn [fmap list_fmap fst].
    + split; [by apply NoDup_cons|]. intros k' v'. rewrite !elem_of_cons.
      split.
      * intros [?|Hin]; [left; by simplify_eq|]. right. split; [|by right].
        intros ->. apply Hk0. apply list_elem_of_fmap. by exists (k, v').
      * intros [[-> ->]|[Hne [?|?]]]; [by left|by simplify_eq|by right].
    + split.
      * apply NoDup_cons. split; [|done]. rewrite elem_of_dict_set.
        naive_solver.
      * intros k' v'. rewrite !elem_of_cons, IH2. naive_solver.
Qed.

Lemma dict_get_spec k dflt d :
  NoDup d.*1 ->
  (forall v, (k, v) ∈ d -> dict_get k dflt d = v)
  /\ (k ∉ d.*1 -> dict_get k dflt d = dflt).
Proof.
  induction d as [|[k0 v0] d IH]; cbn [dict_get fmap list_fmap fst].
  - intros _. split; [by intros v ?%elem_of_nil|done].
  - intros [Hk0 Hnd]%NoDup_cons. destruct (IH Hnd) as [IH1 IH2].
    destruct (String.eqb_spec k0 k) as [->|Hne].
    + split.
      * intros v [?|Hin]%elem_of_cons; [by simplify_eq|].
        destruct Hk0. apply list_elem_of_fmap. by exists (k, v).
      * intros Hn. destruct Hn. apply list_elem_of_here.
    + split.
      * intros v [?|Hin]%elem_of_cons; [by simplify_eq|]. by apply IH1.
      * intros Hn. apply IH2. intros ?. apply Hn. by apply list_elem_of_further.
Qed.

Lemma least_sequences_ext (Q Q' : StopTime -> Prop) d :
  (forall st, Q st <-> Q' st) -> least_sequences Q d -> least_sequences Q' d.
Proof.
  intros HQ (Hnd & Hall & Hmin). split; [done|]. split.
  - intros st Hst. apply Hall. by apply HQ.
  - intros k v Hkv. destruct (Hmin k v Hkv) as [(st & Hst & ?) Hle]. split.
    + exists st. split; [by apply HQ|done].
    + intros st' Hst'. apply Hle. by apply HQ.
Qed.

Lemma seq_min_step_least Q d st :
  least_sequences Q d ->
  least_sequences (fun x => Q x \/ x = st) (seq_min_step d st).
Proof.
  intros (Hnd & Hall & Hmin). unfold seq_min_step.
  set (v := Z.min (dict_get (stop_id st) (stop_sequence st) d) (stop_sequence st)).
  destruct (dict_set_spec (stop_id st) v d Hnd) as [Hnd' Hin'].
  destruct (dict_get_spec (stop_id st) (stop_sequence st) d Hnd) as [Hget Hget'].
  split; [done|]. split.
  - intros x [Hx| ->]; rewrite elem_of_dict_set; [right; by apply Hall|by left].
  - intros k w Hkw. apply Hin' in Hkw as [[-> ->]|[Hne Hkw]].
    + destruct (decide (stop_id st ∈ d.*1)) as [Hk|Hk].
      * apply list_elem_of_fmap in Hk as ([k0 v0] & E & Hk). simpl in E. subst k0.
        destruct (Hmin _ _ Hk) as [(st0 & Hst0 & Hid0 & Hseq0) Hle].
        unfold v. rewrite (Hget _ Hk). split.
        -- destruct (Z.min_spec v0 (stop_sequence st)) as [[_ ->]|[_ ->]].
           ++ exists st0. split; [by left|done].
           ++ exists st. split; [by right|done].
        -- intros x [Hx| ->] Hid; [specialize (Hle x Hx Hid)|]; lia.
      * unfold v. rewrite (Hget' Hk), Z.min_id. split.
        -- exists st. split; [by right|done].
        -- intros x [Hx| ->] Hid; [|lia].
           destruct Hk. rewrite <- Hid. by apply Hall.
    + destruct (Hmin _ _ Hkw) as [(st0 & Hst0 & ?) Hle]. split.
      * exists st0. split; [by left|done].
      * intros x [Hx| ->] Hid; [by apply Hle|done].
Qed.

Lemma foldl_seq_min_step_least Q d sts :
  least_sequences Q d ->
  least_sequences (fun x => Q x \/ x ∈ sts) (foldl seq_min_step d sts).
Proof.
  revert Q d. induction sts as [|st sts IH]; intros Q d H; cbn [foldl].
  - eapply least_sequences_ext; [|exact H]. intros x. split; [by left|].
    by intros [?|?%elem_of_nil].
  - eapply least_sequences_ext; [|apply IH, seq_min_step_least, H].
    intros x. cbn beta. rewrite elem_of_cons. tauto.
Qed.

Lemma StronglySorted_weaken {A : Type} (R R' : A -> A -> Prop) l :
  (forall a b, R a b -> R' a b) -> StronglySorted R l -> StronglySorted R' l.
Proof.
  intros HR. induction 1 as [|x l Hs IH Hall]; constructor; [done|].
  eapply Forall_impl; [exact Hall|]. intros y. apply HR.
Qed.

Section RouteOrder.

Variable idx : GtfsIndex.t.

Lemma seq_min_least direction_label trip_ids Q d :
  least_sequences Q d ->
  least_sequences
    (fun x => Q x
              \/ exists trip_id,
                   trip_id ∈ trip_ids
                   /\ other_direction direction_label
                        (headsign_of (trips idx !! trip_id)) = false
                   /\ x ∈ default [] (stop_times_by_trip idx !! trip_id))
    (foldl (fun seq_min trip_id =>
              if other_direction direction_label
                   (headsign_of (trips idx !! trip_id))
              then seq_min
              else foldl seq_min_step seq_min
                     (default [] (stop_times_by_trip idx !! trip_id)))
       d trip_ids).
Proof.
  revert Q d. induction trip_ids as [|trip_id l IH]; intros Q d H; cbn [foldl].
  - eapply least_sequences_ext; [|exact H]. intros x. split; [by left|].
    by intros [?|(? & ?%elem_of_nil & _)].
  - destruct (other_direction direction_label
                (headsign_of (trips idx !! trip_id))) eqn:Ed.
    + eapply least_sequences_ext; [|apply IH, H]. intros x. cbn beta. split.
      * intros [?|(t & Ht & ?)]; [by left|right].
        exists t. split; [by apply list_elem_of_further|done].
      * intros [?|(t & Ht & Hd & ?)]; [by left|].
        apply elem_of_cons in Ht as [->|Ht]; [congruence|].
        right. by exists t.
    + eapply least_sequences_ext;
        [|apply IH, (foldl_seq_min_step_least Q d
                       (default [] (stop_times_by_trip idx !! trip_id))), H].
      intros x. cbn beta. split.
      * intros [[?|?]|(t & Ht & ?)]; [by left|right|right].
        -- exists trip_id. split; [apply list_elem_of_here|done].
        -- exists t. split; [by apply list_elem_of_further|done].
      * intros [?|(t & Ht & Hd & ?)]; [by left; left|].
        apply elem_of_cons in Ht as [->|Ht]; [by left; right|].
        right. by exists t.
Qed.

(** X14: The stops of a route come each once, in the ascending order of the
    least sequence number a stop has on the trips of the route that go
    in the wanted direction. *)
Theorem route_stops_in_sequence_order route_label direction_label c0 r0 :
  route_label_to_id idx !! route_label = Some (String c0 r0) ->
  exists ordered : list (string * Z),
    get_stops_for_route idx route_label direction_label
    = (fun item => _stop_label idx item.1) <$> ordered
    /\ least_sequences (served_by idx (String c0 r0) direction_label) ordered
    /\ StronglySorted (fun a b => a.2 <= b.2) ordered.
Proof.
  intros Hroute. unfold get_stops_for_route. rewrite Hroute. cbv zeta.
  set (seq_min := foldl _ [] _).
  exists (sorted_by Z.ltb snd seq_min). split; [done|].
  assert (least_sequences (served_by idx (String c0 r0) direction_label) seq_min)
    as (Hnd & Hall & Hmin).
  { eapply least_sequences_ext;
      [|apply (seq_min_least direction_label
                 (default [] (trips_by_route idx !! String c0 r0))
                 (fun _ => False) [])].
    - intros x. unfold served_by. cbn beta. tauto.
    - split; [constructor|]. split; [done|]. by intros k v ?%elem_of_nil. }
  split; [split; [|split]|].
  - by rewrite sorted_by_Permutation.
  - intros st Hst. rewrite sorted_by_Permutation. by apply Hall.
  - intros k v Hkv. apply Hmin. by apply elem_of_sorted_by in Hkv.
  - pose proof (sorted_by_sorted Z.ltb snd (fun _ => True) seq_min
                  (ordered_on_Z snd)) as Hs.
    eapply StronglySorted_weaken; [|apply Hs; by apply Forall_forall].
    unfold key_le. intros a b. lia.
Qed.

End RouteOrder.

(** ** What the loader guarantees *)

(** A property that the empty index has and every step of [_load] keeps
    holds of the loaded index. *)
Lemma load_invariant (P : GtfsIndex.t -> Prop) a idx :
  P GtfsIndex.empty ->
  (forall i r, P i -> P (load_route i r)) ->
  (forall i r, P i -> P (load_stop i r)) ->
  (forall i r, P i -> P (load_trip i r)) ->
  (forall i r i', P i -> load_stop_time i r = Some i' -> P i') ->
  (forall i, P i -> P (sort_stop_times i)) ->
  (forall i r, P i -> P (load_calendar i r)) ->
  (forall i r, P i -> P (load_calendar_date i r)) ->
  _load a = Some idx -> P idx.
Proof.
  intros H0 Hroute Hstop Htrip Htime Hsort Hcal Hdate. unfold _load. intros H.
  apply bind_Some in H as (idx1 & Hscan & H). simplify_eq.
  assert (forall (f : GtfsIndex.t -> row -> GtfsIndex.t) rows i,
            (forall i r, P i -> P (f i r)) -> P i -> P (foldl f i rows)) as Hfold.
  { intros f rows. induction rows as [|r rows IH]; intros i Hf Hi; [done|].
    cbn [foldl]. apply IH; [done|]. by apply Hf. }
  apply Hfold; [done|]. apply Hfold; [done|]. apply Hsort.
  revert Hscan. generalize (stop_times_txt a).
  assert (P (foldl load_trip
               (foldl load_stop (foldl load_route GtfsIndex.empty (routes_txt a))
                  (stops_txt a)) (trips_txt a))) as Hi
    by (apply Hfold; [done|]; apply Hfold; [done|]; by apply Hfold).
  revert Hi. generalize (foldl load_trip
               (foldl load_stop (foldl load_route GtfsIndex.empty (routes_txt a))
                  (stops_txt a)) (trips_txt a)).
  intros i Hi rows. revert i Hi.
  induction rows as [|r rows IH]; intros i Hi Hscan; cbn [load_rows] in Hscan.
  - by simplify_eq.
  - apply bind_Some in Hscan as (i' & Hrow & Hscan). eapply IH; [|done].
    by eapply Htime.
Qed.



(** *** Sorted lists *)

Lemma sort_stop_times_sorted idx :
  (forall tid l, stop_times_by_trip (sort_stop_times idx) !! tid = Some l ->
     StronglySorted (fun x y => stop_sequence x <= stop_sequence y) l)
  /\ (forall sid l, departures_by_stop (sort_stop_times idx) !! sid = Some l ->
        StronglySorted (fun x y => x.2 <= y.2) l).
Proof.
  unfold sort_stop_times. simpl. split.
  - intros tid l. rewrite lookup_fmap. intros H.
    apply fmap_Some in H as (l0 & _ & ->).
    eapply StronglySorted_weaken;
      [|apply (sorted_by_sorted Z.ltb stop_sequence (fun _ => True));
        [apply ordered_on_Z|by apply Forall_forall]].
    unfold key_le. intros x y. lia.
  - intros sid l. rewrite lookup_fmap. intros H.
    apply fmap_Some in H as (l0 & _ & ->).
    eapply StronglySorted_weaken;
      [|apply (sorted_by_sorted Z.ltb snd (fun _ => True));
        [apply ordered_on_Z|by apply Forall_forall]].
    unfold key_le. intros x y. lia.
Qed.

(** X3: In a loaded index the stop times of every trip ascend by
    [stop_sequence] and the departures of every stop ascend by their
    time. *)
Theorem load_sorts_stop_times a idx :
  _load a = Some idx ->
  (forall tid l, stop_times_by_trip idx !! tid = Some l ->
     StronglySorted (fun x y => stop_sequence x <= stop_sequence y) l)
  /\ (forall sid l, departures_by_stop idx !! sid = Some l ->
        StronglySorted (fun x y => x.2 <= y.2) l).
Proof.
  unfold _load. intros H.
  apply bind_Some in H as (idx1 & _ & H). simplify_eq.
  rewrite (foldl_preserves _ stop_times_by_trip
             (fun i r => proj1 (load_calendar_date_stop_times i r))).
  rewrite (foldl_preserves _ stop_times_by_trip
             (fun i r => proj1 (load_calendar_stop_times i r))).
  rewrite (foldl_preserves _ departures_by_stop
             (fun i r => proj2 (load_calendar_date_stop_times i r))).
  rewrite (foldl_preserves _ departures_by_stop
             (fun i r => proj2 (load_calendar_stop_times i r))).
  apply sort_stop_times_sorted.
Qed.

Lemma is_Some_insert_mono {V : Type} (m : gmap string V) k v k' :
  is_Some (m !! k') -> is_Some (<[k := v]> m !! k').
Proof.
  intros H. destruct (decide (k = k')) as [->|Hne].
  - rewrite lookup_insert_eq. by eexists.
  - by rewrite lookup_insert_ne.
Qed.

Lemma lstrip_by_head p s c r : Py.lstrip_by p s = String c r -> p c = false.
Proof.
  induction s as [|a s IH]; [done|]. cbn [Py.lstrip_by].
  destruct (p a) eqn:E; [done|]. intros ?. by simplify_eq.
Qed.

Lemma rstrip_by_head p s c r :
  Py.rstrip_by p s = String c r -> exists r', s = String c r'.
Proof.
  destruct s as [|a s]; [done|]. cbn [Py.rstrip_by].
  destruct (Py.rstrip_by p s); [destruct (p a)|]; intros ?; simplify_eq; eauto.
Qed.

Lemma rstrip_by_snoc p u a :
  p a = false -> Py.rstrip_by p (u ++ String a "") = u ++ String a "".
Proof.
  intros Ha. induction u as [|c u IH].
  - rewrite string_app_nil. cbn [Py.rstrip_by]. by rewrite Ha.
  - rewrite string_app_cons. cbn [Py.rstrip_by]. rewrite IH.
    destruct u; by rewrite ?string_app_nil, ?string_app_cons.
Qed.

(** A label made of a stripped name, the id and the brackets has no
    white space around it. *)
Lemma strip_stop_label s c r sid :
  Py.strip s = String c r ->
  Py.strip (String c r ++ " [" ++ sid ++ "]") = String c r ++ " [" ++ sid ++ "]".
Proof.
  unfold Py.strip, Py.strip_by. intros H.
  destruct (rstrip_by_head _ _ _ _ H) as [r' H'].
  apply lstrip_by_head in H'. rewrite string_app_cons.
  cbn [Py.lstrip_by]. rewrite H'. rewrite <- string_app_cons.
  rewrite <- !string_app_assoc. by apply rstrip_by_snoc.
Qed.

Lemma loaded_labels_resolve a idx : _load a = Some idx -> labels_resolve idx.
Proof.
  apply (load_invariant labels_resolve).
  - split; intros ? ? H; simpl in H; by rewrite lookup_empty in H.
  - intros i r [Hr Hs]. unfold load_route.
    destruct (r !! "route_id") as [[|c0 rid0]|]; try done.
    split; [|done]. cbn [route_label_to_id routes route_types].
    intros label rid H. apply lookup_insert_Some in H as [[<- <-]|[Hne H]].
    + split; [done|]. split; [by case_match|].
      rewrite !lookup_insert_eq. split; by eexists.
    + destruct (Hr _ _ H) as (? & ? & ? & ?).
      repeat split; try done; by apply is_Some_insert_mono.
  - intros i r [Hr Hs]. unfold load_stop.
    destruct (r !! "stop_id") as [[|c0 sid0]|]; try done;
      destruct (Py.strip _) as [|n0 name0] eqn:Hname; try done.
    split; [done|]. cbn [stop_label_to_id stops].
    intros label sid H. apply lookup_insert_Some in H as [[<- <-]|[Hne H]].
    + split; [done|]. split; [by exists (String n0 name0)|].
      split; [by eapply strip_stop_label|].
      rewrite lookup_insert_eq. by eexists.
    + destruct (Hs _ _ H) as (? & ? & ? & ?).
      repeat split; try done. by apply is_Some_insert_mono.
  - intros i r H. unfold load_trip. by repeat case_match.
  - intros i r i' H. unfold load_stop_time. intros E.
    repeat case_match; simplify_option_eq; done.
  - by intros i H.
  - intros i r H. unfold load_calendar. by repeat case_match.
  - intros i r H. unfold load_calendar_date. by repeat case_match.
Qed.

(** X4: In a loaded index every label of the two selectors resolves. *)
Theorem load_labels_resolve a idx : _load a = Some idx -> labels_resolve idx.
Proof. apply loaded_labels_resolve. Qed.

(** X5: In a loaded index the trips and the lists of trips per route
    agree. *)
Theorem load_trips_listed a idx : _load a = Some idx -> trips_listed idx.
Proof.
  apply (load_invariant trips_listed).
  - split; intros ? ? H; simpl in H; rewrite lookup_empty in H;
      [by apply elem_of_nil in H|done].
  - intros i r H. unfold load_route. by repeat case_match.
  - intros i r H. unfold load_stop. by repeat case_match.
  - intros i r [H1 H2]. unfold load_trip.
    destruct (r !! "trip_id") as [[|c0 t0]|]; try done;
      destruct (r !! "route_id") as [[|c1 r1]|]; try done;
      destruct (r !! "service_id") as [[|c2 s2]|]; try done.
    split; cbn [trips trips_by_route].
    + intros rid tid Hin. unfold dd_append in Hin.
      destruct (decide (String c1 r1 = rid)) as [<-|Hne].
      * rewrite lookup_insert_eq in Hin. simpl in Hin. split; [done|].
        apply elem_of_app in Hin as [Hin|Hin].
        -- apply is_Some_insert_mono. by eapply H1.
        -- apply list_elem_of_singleton in Hin as ->.
           rewrite lookup_insert_eq. by eexists.
      * rewrite lookup_insert_ne in Hin by done.
        destruct (H1 _ _ Hin). split; [done|]. by apply is_Some_insert_mono.
    + intros tid trip H. apply lookup_insert_Some in H as [[<- <-]|[Hne H]].
      * cbn [route_id service_id]. repeat split; try done.
        apply dd_append_here.
      * destruct (H2 _ _ H) as (? & ? & ? & ?). repeat split; try done.
        by apply dd_append_mono.
  - intros i r i' H. unfold load_stop_time. intros E.
    repeat case_match; simplify_option_eq; done.
  - by intros i H.
  - intros i r H. unfold load_calendar. by repeat case_match.
  - intros i r H. unfold load_calendar_date. by repeat case_match.
Qed.

(** ** The queries by name *)

Lemma dedup_between_spec seen rows :
  NoDup (between_key <$> dedup_between seen rows)
  /\ Forall (fun e => between_key e ∉ seen /\ e ∈ rows) (dedup_between seen rows).
Proof.
  revert seen. induction rows as [|item rows IH]; intros seen;
    cbn [dedup_between].
  - split; constructor.
  - fold (between_key item). case_bool_decide as Hseen.
    + destruct (IH seen) as [Hnd Hall]. split; [done|].
      eapply Forall_impl; [exact Hall|]. intros e [? ?]. split; [done|].
      by apply list_elem_of_further.
    + destruct (IH ({[between_key item]} ∪ seen)) as [Hnd Hall]. split.
      * cbn [fmap list_fmap]. apply NoDup_cons. split; [|done].
        intros Hin. apply list_elem_of_fmap in Hin as (e & He & Hin).
        eapply Forall_forall in Hall as [Hnot _]; [|done].
        apply Hnot. rewrite He. set_solver.
      * constructor; [split; [done|apply list_elem_of_here]|].
        eapply Forall_impl; [exact Hall|]. intros e [Hn ?].
        split; [set_solver|by apply list_elem_of_further].
Qed.

Lemma dedup_between_sorted {R : BetweenEntry -> BetweenEntry -> Prop} seen rows :
  StronglySorted R rows -> StronglySorted R (dedup_between seen rows).
Proof.
  intros Hs. revert seen.
  induction Hs as [|item rows Hs IH Hall]; intros seen; cbn [dedup_between].
  - constructor.
  - case_bool_decide; [apply IH|]. constructor; [apply IH|].
    apply Forall_forall. intros e He.
    destruct (dedup_between_spec
                ({[(n_trip_id item, n_departure_rt item)]} ∪ seen) rows)
      as [_ Hsub].
    eapply Forall_forall in Hsub as [_ Hin]; [|done].
    by eapply Forall_forall in Hall.
Qed.

Section BetweenFacts.

Variable idx : GtfsIndex.t.
Variables (now_local window_end : Py.datetime) (h : gmap loc (gset string)).
Variable delay_by_trip : gmap string Z.

(** Where a record of the query by stop names comes from. *)
Lemma between_days_spec trip_id trip route_mode from_entry to_entry days es e :
  between_days idx now_local window_end h delay_by_trip trip_id trip route_mode
    from_entry to_entry days = Some es ->
  e ∈ es ->
  n_trip_id e = trip_id
  /\ n_mode e = route_mode
  /\ n_direction e = headsign_of (Some trip)
  /\ n_route e = default (route_id trip) (routes idx !! route_id trip)
  /\ n_from_stop e = _stop_label idx (stop_id from_entry)
  /\ n_to_stop e = _stop_label idx (stop_id to_entry)
  /\ rendered_within now_local window_end (n_departure_rt e).
Proof.
  revert es. induction days as [|[service_day services] days IH]; intros es H.
  - cbn in H. simplify_eq. by intros ?%elem_of_nil.
  - cbn [between_days] in H. case_bool_decide; [|by apply IH].
    apply bind_Some in H as (dep_planned & _ & H).
    apply bind_Some in H as (arr_planned & _ & H).
    apply bind_Some in H as (td & _ & H).
    apply bind_Some in H as (dep_rt & Hrt & H).
    apply bind_Some in H as (arr_rt & _ & H).
    apply datetime_add_Some in Hrt as [_ Hok].
    destruct (Z.ltb_spec dep_rt now_local), (Z.ltb_spec window_end dep_rt);
      cbn [orb] in H; try by apply IH.
    apply bind_Some in H as (rest & Hrest & H). simplify_eq.
    intros [->|He]%elem_of_cons; [|by eapply IH].
    repeat split; try done. cbn [n_departure_rt].
    apply rendered_within_intro; [done|lia].
Qed.

Lemma between_trips_spec mode_filter from_ids to_ids days items es e :
  between_trips idx now_local window_end h delay_by_trip mode_filter from_ids
    to_ids days items = Some es ->
  e ∈ es ->
  rendered_within now_local window_end (n_departure_rt e)
  /\ exists trip fe te,
       (n_trip_id e, trip) ∈ items
       /\ service_id trip <> ""
       /\ n_mode e = _route_mode (route_types idx !! route_id trip)
       /\ (forall m, mode_filter = Some m -> m <> "" -> n_mode e = m)
       /\ n_direction e = headsign_of (Some trip)
       /\ n_route e = default (route_id trip) (routes idx !! route_id trip)
       /\ fe ∈ default [] (stop_times_by_trip idx !! n_trip_id e)
       /\ te ∈ default [] (stop_times_by_trip idx !! n_trip_id e)
       /\ stop_id fe ∈ from_ids /\ stop_id te ∈ to_ids
       /\ stop_sequence fe < stop_sequence te
       /\ n_from_stop e = _stop_label idx (stop_id fe)
       /\ n_to_stop e = _stop_label idx (stop_id te).
Proof.
  revert es. induction items as [|[trip_id trip] items IH]; intros es H He.
  - cbn in H. simplify_eq. by apply elem_of_nil in He.
  - cbn [between_trips] in H. cbv zeta in H.
    assert (forall es0,
              between_trips idx now_local window_end h delay_by_trip mode_filter
                from_ids to_ids days items = Some es0 ->
              e ∈ es0 ->
              rendered_within now_local window_end (n_departure_rt e)
              /\ exists trip0 fe te,
                   (n_trip_id e, trip0) ∈ (trip_id, trip) :: items
                   /\ service_id trip0 <> ""
                   /\ n_mode e = _route_mode (route_types idx !! route_id trip0)
                   /\ (forall m, mode_filter = Some m -> m <> "" -> n_mode e = m)
                   /\ n_direction e = headsign_of (Some trip0)
                   /\ n_route e
                      = default (route_id trip0) (routes idx !! route_id trip0)
                   /\ fe ∈ default [] (stop_times_by_trip idx !! n_trip_id e)
                   /\ te ∈ default [] (stop_times_by_trip idx !! n_trip_id e)
                   /\ stop_id fe ∈ from_ids /\ stop_id te ∈ to_ids
                   /\ stop_sequence fe < stop_sequence te
                   /\ n_from_stop e = _stop_label idx (stop_id fe)
                   /\ n_to_stop e = _stop_label idx (stop_id te)) as Hlater.
    { intros es0 H0 He0.
      destruct (IH _ H0 He0) as (Hw & tr & fe & te & Hin & ?).
      split; [done|]. exists tr, fe, te.
      split; [by apply list_elem_of_further|done]. }
    destruct (Py.truthy mode_filter
              && negb (bool_decide
                         (Some (_route_mode (route_types idx !! route_id trip))
                          = mode_filter))) eqn:Emode;
      [exact (Hlater _ H He)|].
    destruct (service_id trip) as [|c0 s0] eqn:Hsid; cbn [Py.truthy negb] in H;
      [exact (Hlater _ H He)|].
    destruct (default [] (stop_times_by_trip idx !! trip_id))
      as [|st0 sts] eqn:Hsts; [exact (Hlater _ H He)|].
    destruct (next_where _ _) as [fe|] eqn:Efe in H; [|exact (Hlater _ H He)].
    destruct (next_where _ _) as [te|] eqn:Ete in H; [|exact (Hlater _ H He)].
    apply bind_Some in H as (es1 & Hes1 & H).
    apply bind_Some in H as (rest & Hrest & H). simplify_eq.
    apply elem_of_app in He as [He|He]; [|exact (Hlater _ Hrest He)].
    destruct (between_days_spec _ _ _ _ _ _ _ _ Hes1 He)
      as (E1 & E2 & E3 & E4 & E5 & E6 & Hw).
    apply next_where_Some in Efe as [Hfe Hpf].
    apply next_where_Some in Ete as [Hte Hpt].
    apply bool_decide_eq_true in Hpf.
    apply andb_true_iff in Hpt as [Hpt Hseq].
    apply bool_decide_eq_true in Hpt. apply Z.ltb_lt in Hseq.
    split; [done|]. exists trip, fe, te. rewrite E1, Hsts.
    split; [apply list_elem_of_here|]. split; [by rewrite Hsid|].
    split; [done|]. split; [|done].
    intros m -> Hm. rewrite E2.
    destruct m as [|c m]; [done|]. cbn [Py.truthy andb] in Emode.
    apply negb_false_iff, bool_decide_eq_true in Emode. congruence.
Qed.

End BetweenFacts.

Section NameTheorems.

Variable strptime_Ymd : string -> option Py.date.
Variable strftime_Ymd : Py.date -> string.
Variable lower : string -> string.
Variable idx : GtfsIndex.t.

Local Abbreviation between :=
  (upcoming_between_stop_names strptime_Ymd strftime_Ymd lower idx).
Local Abbreviation stop_ids := (_stop_ids_for_query lower idx).

(** X15: Every record of the query by stop names leaves within the window,
    from a stop that matches the origin query to a stop that matches the
    destination query and comes later on the same trip; the trip has a
    service and, when a mode is wanted, that mode. *)
Theorem between_names_joins_matching_stops trip_items now_local from_query
    to_query window_minutes delay_by_trip mode_filter limit st recs st' e :
  upcoming_between_stop_names strptime_Ymd strftime_Ymd lower idx trip_items
    now_local from_query to_query window_minutes delay_by_trip mode_filter
    limit st = (Some recs, st') ->
  e ∈ recs ->
  rendered_within now_local
    (now_local + window_minutes * 60 * Py.US_PER_SECOND) (n_departure_rt e)
  /\ exists trip fe te,
       (n_trip_id e, trip) ∈ trip_items
       /\ service_id trip <> ""
       /\ n_mode e = _route_mode (route_types idx !! route_id trip)
       /\ (forall m, mode_filter = Some m -> m <> "" -> n_mode e = m)
       /\ n_direction e = headsign_of (Some trip)
       /\ n_route e = default (route_id trip) (routes idx !! route_id trip)
       /\ fe ∈ default [] (stop_times_by_trip idx !! n_trip_id e)
       /\ te ∈ default [] (stop_times_by_trip idx !! n_trip_id e)
       /\ stop_id fe ∈ _stop_ids_for_query lower idx from_query
       /\ stop_id te ∈ _stop_ids_for_query lower idx to_query
       /\ stop_sequence fe < stop_sequence te
       /\ n_from_stop e = _stop_label idx (stop_id fe)
       /\ n_to_stop e = _stop_label idx (stop_id te).
Proof.
  unfold upcoming_between_stop_names. intros H He.
  destruct (Py.strip (lower from_query)) as [|? ?];
    [simplify_eq; by apply elem_of_nil in He|].
  destruct (Py.strip (lower to_query)) as [|? ?];
    [simplify_eq; by apply elem_of_nil in He|].
  destruct (bool_decide _ || bool_decide _);
    [simplify_eq; by apply elem_of_nil in He|].
  destruct (Py.timedelta_minutes window_minutes) as [td|] eqn:Htd;
    cbn [mbind option_bind] in H; [|by simplify_eq].
  destruct (Py.datetime_add now_local td) as [window_end|] eqn:Hwe;
    cbn [mbind option_bind] in H; [|by simplify_eq].
  destruct (service_dates now_local) as [dates|];
    cbn [mbind option_bind] in H; [|by simplify_eq].
  destruct (active_services strptime_Ymd strftime_Ymd idx dates st)
    as [active st1].
  apply timedelta_minutes_Some in Htd as ->.
  apply datetime_add_Some in Hwe as [-> _].
  destruct (between_trips _ _ _ _ _ _ _ _ _ _) as [results|] eqn:Hres;
    cbn [fmap option_fmap option_map] in H; [|by simplify_eq].
  simplify_eq.
  assert (e ∈ results) as Hin.
  { destruct (slice_to_prefix
                (dedup_between ∅ (sorted_by String.ltb n_departure_rt results))
                limit) as [n Hn].
    rewrite Hn in He. apply elem_of_take in He as (i & He & _).
    apply list_elem_of_lookup_2 in He.
    destruct (dedup_between_spec ∅
                (sorted_by String.ltb n_departure_rt results)) as [_ Hsub].
    eapply Forall_forall in Hsub as [_ Hs]; [|done].
    by apply elem_of_sorted_by in Hs. }
  by eapply between_trips_spec.
Qed.

(** X16: The records of the query by stop names differ pairwise in their
    pair of trip and realtime departure, they follow one another in
    time, and for a limit that is not negative they are at most
    [limit]. *)
Theorem between_names_distinct_sorted_limited trip_items now_local from_query
    to_query window_minutes delay_by_trip mode_filter limit st recs st' :
  upcoming_between_stop_names strptime_Ymd strftime_Ymd lower idx trip_items
    now_local from_query to_query window_minutes delay_by_trip mode_filter
    limit st = (Some recs, st') ->
  NoDup (between_key <$> recs)
  /\ (exists ts,
        Forall2 (fun e t => renders (n_departure_rt e) t) recs ts
        /\ StronglySorted Z.le ts)
  /\ (0 <= limit -> Z.of_nat (length recs) <= limit).
Proof.
  unfold upcoming_between_stop_names. intros H.
  assert (recs = [] ->
          NoDup (between_key <$> recs)
          /\ (exists ts,
                Forall2 (fun e t => renders (n_departure_rt e) t) recs ts
                /\ StronglySorted Z.le ts)
          /\ (0 <= limit -> Z.of_nat (length recs) <= limit)) as Hnil.
  { intros ->. split; [constructor|]. split; [|simpl; lia].
    exists []. split; constructor. }
  destruct (Py.strip (lower from_query)) as [|? ?];
    [apply Hnil; by simplify_eq|].
  destruct (Py.strip (lower to_query)) as [|? ?];
    [apply Hnil; by simplify_eq|].
  destruct (bool_decide _ || bool_decide _); [apply Hnil; by simplify_eq|].
  destruct (_ ≫= _) as [[window_end dates]|]; [|by simplify_eq].
  destruct (active_services strptime_Ymd strftime_Ymd idx dates st)
    as [active st1].
  destruct (between_trips _ _ _ _ _ _ _ _ _ _) as [results|] eqn:Hres;
    cbn [fmap option_fmap option_map] in H; [|by simplify_eq].
  simplify_eq.
  set (sorted := sorted_by String.ltb n_departure_rt results).
  assert (Forall (fun e => exists t, renders (n_departure_rt e) t) sorted)
    as Htimed.
  { apply Forall_forall. intros e He. apply elem_of_sorted_by in He.
    destruct (between_trips_spec _ _ _ _ _ _ _ _ _ _ _ _ Hres He)
      as [(rt & -> & Hok & _) _].
    by exists rt. }
  assert (StronglySorted (key_le String.ltb n_departure_rt) sorted) as Hsorted.
  { apply (sorted_by_sorted String.ltb n_departure_rt
             (fun e => exists t, renders (n_departure_rt e) t)).
    - apply ordered_on_rendered.
    - apply Forall_forall. intros e He.
      eapply Forall_forall in Htimed; [done|by apply elem_of_sorted_by]. }
  destruct (dedup_between_spec ∅ sorted) as [Hnd Hsub].
  destruct (slice_to_prefix (dedup_between ∅ sorted) limit) as [n Hn].
  split; [|split].
  - rewrite Hn, fmap_take. by apply NoDup_take.
  - apply sorted_rendered.
    + rewrite Hn. apply Forall_take.
      apply Forall_forall. intros e He.
      eapply Forall_forall in Hsub as [_ Hin]; [|done].
      by eapply Forall_forall in Htimed.
    + rewrite Hn. by apply StronglySorted_take, dedup_between_sorted.
  - apply slice_to_length.
Qed.

End NameTheorems.

Section MatchFacts.

Variable lower : string -> string.

Lemma match_query_spec max_stops query stations seen matched :
  (forall s, s ∈ seen <-> s ∈ matched) ->
  NoDup matched ->
  matched = [] \/ Z.of_nat (length matched) < max_stops ->
  let '(returned, seen', matched') :=
    match_query lower max_stops query stations seen matched in
  (forall s, s ∈ seen' <-> s ∈ matched')
  /\ NoDup matched'
  /\ (if returned then Z.of_nat (length matched') <= Z.max 1 max_stops
      else matched' = [] \/ Z.of_nat (length matched') < max_stops)
  /\ forall s, s ∈ matched' ->
       s ∈ matched \/ (s ∈ stations /\ Py.contains query (lower s) = true).
Proof.
  revert seen matched.
  induction stations as [|station stations IH]; intros seen matched Hseen Hnd Hlen;
    cbn [match_query].
  - split; [done|]. split; [done|]. split; [done|]. intros s ?. by left.
  - assert (let '(returned, seen', matched') :=
              match_query lower max_stops query stations seen matched in
            (forall s, s ∈ seen' <-> s ∈ matched')
            /\ NoDup matched'
            /\ (if returned then Z.of_nat (length matched') <= Z.max 1 max_stops
                else matched' = [] \/ Z.of_nat (length matched') < max_stops)
            /\ forall s, s ∈ matched' ->
                 s ∈ matched
                 \/ (s ∈ station :: stations /\ Py.contains query (lower s) = true))
      as Hskip.
    { specialize (IH seen matched Hseen Hnd Hlen).
      destruct (match_query lower max_stops query stations seen matched)
        as [[returned seen'] matched'].
      destruct IH as (? & ? & ? & Hin).
      split; [done|]. split; [done|]. split; [done|].
      intros s Hs. destruct (Hin s Hs) as [?|[? ?]]; [by left|right].
      split; [by apply list_elem_of_further|done]. }
    destruct (Py.contains query (lower station)) eqn:Ec; [|exact Hskip].
    case_bool_decide as Hs; [exact Hskip|]. cbn [andb negb].
    assert (forall s, s ∈ {[station]} ∪ seen <-> s ∈ (matched ++ [station])%list)
      as Hseen'.
    { intros s. rewrite elem_of_union, elem_of_singleton, elem_of_app,
        list_elem_of_singleton, Hseen. tauto. }
    assert (NoDup (matched ++ [station])%list) as Hnd'.
    { apply NoDup_app. split; [done|]. split; [|apply NoDup_singleton].
      intros s Hin E%list_elem_of_singleton. subst s. apply Hs.
      by apply Hseen. }
    assert (Z.of_nat (length (matched ++ [station])%list)
            = Z.of_nat (length matched) + 1) as Hl
      by (rewrite length_app; simpl; lia).
    destruct (Z.leb_spec max_stops (Z.of_nat (length (matched ++ [station])%list)))
      as [Hfull|Hroom].
    + split; [done|]. split; [done|]. split.
      * destruct Hlen as [->|Hlen]; simpl in *; lia.
      * intros s [?|E%list_elem_of_singleton]%elem_of_app; [by left|right].
        subst s. split; [apply list_elem_of_here|done].
    + specialize (IH ({[station]} ∪ seen) (matched ++ [station])%list Hseen' Hnd'
                    (or_intror Hroom)).
      destruct (match_query lower max_stops query stations _ _)
        as [[returned seen'] matched'].
      destruct IH as (? & ? & ? & Hin).
      split; [done|]. split; [done|]. split; [done|].
      intros s Hs'. destruct (Hin s Hs') as [Hm|[? ?]].
      * apply elem_of_app in Hm as [?|E%list_elem_of_singleton]; [by left|].
        subst s. right. split; [apply list_elem_of_here|done].
      * right. split; [by apply list_elem_of_further|done].
Qed.

Lemma match_queries_spec max_stops queries stations seen matched :
  (forall s, s ∈ seen <-> s ∈ matched) ->
  NoDup matched ->
  matched = [] \/ Z.of_nat (length matched) < max_stops ->
  let matched' := match_queries lower max_stops queries stations seen matched in
  NoDup matched'
  /\ Z.of_nat (length matched') <= Z.max 1 max_stops
  /\ forall s, s ∈ matched' ->
       s ∈ matched
       \/ (s ∈ stations
           /\ exists query, query ∈ queries /\ Py.contains query (lower s) = true).
Proof.
  revert seen matched.
  induction queries as [|query queries IH]; intros seen matched Hseen Hnd Hlen;
    cbn [match_queries].
  - split; [done|]. split; [destruct Hlen as [->|?]; simpl; lia|].
    intros s ?. by left.
  - pose proof (match_query_spec max_stops query stations seen matched
                  Hseen Hnd Hlen) as H.
    destruct (match_query lower max_stops query stations seen matched)
      as [[returned seen1] matched1].
    destruct H as (Hseen1 & Hnd1 & Hlen1 & Hin1).
    assert (forall s, s ∈ matched1 ->
              s ∈ matched
              \/ (s ∈ stations
                  /\ exists q, q ∈ query :: queries
                               /\ Py.contains q (lower s) = true)) as Hin1'.
    { intros s Hs. destruct (Hin1 s Hs) as [?|[? ?]]; [by left|right].
      split; [done|]. exists query. split; [apply list_elem_of_here|done]. }
    destruct returned; [done|].
    specialize (IH seen1 matched1 Hseen1 Hnd1 Hlen1). cbv zeta in IH.
    destruct IH as (? & ? & Hin). split; [done|]. split; [done|].
    intros s Hs. destruct (Hin s Hs) as [Hm|[? (q & Hq & ?)]].
    + by apply Hin1'.
    + right. split; [done|]. exists q. split; [by apply list_elem_of_further|done].
Qed.

Variable idx : GtfsIndex.t.

Lemma stations_matching_spec queries max_stops :
  NoDup (stations_matching_queries lower idx queries max_stops)
  /\ Z.of_nat (length (stations_matching_queries lower idx queries max_stops))
     <= Z.max 1 max_stops
  /\ forall s, s ∈ stations_matching_queries lower idx queries max_stops ->
       is_Some (stop_label_to_id idx !! s)
       /\ exists q, q ∈ queries /\ Py.strip q <> ""
                    /\ Py.contains (lower (Py.strip q)) (lower s) = true.
Proof.
  unfold stations_matching_queries. cbv zeta.
  set (clean := (fun q => lower (Py.strip q)) <$> _).
  assert (forall c, c ∈ clean ->
            exists q, q ∈ queries /\ Py.strip q <> "" /\ c = lower (Py.strip q))
    as Hclean.
  { intros c Hc. apply list_elem_of_fmap in Hc as (q & -> & Hq).
    apply list_elem_of_In, filter_In in Hq as [Hq Ht].
    exists q. split; [by apply list_elem_of_In|]. split; [|done].
    intros E. by rewrite E in Ht. }
  destruct clean as [|c0 clean0] eqn:Ec.
  { split; [constructor|]. split; [simpl; lia|]. by intros s ?%elem_of_nil. }
  rewrite <- Ec in *.
  assert (forall s : string, s ∈ (∅ : gset string) <-> s ∈ @nil string) as H0
    by (intros s; rewrite elem_of_empty, elem_of_nil; tauto).
  pose proof (match_queries_spec max_stops clean (station_options idx) ∅ []
                H0 NoDup_nil_2 (or_introl eq_refl)) as H.
  cbv zeta in H. destruct H as (Hnd & Hlen & Hin).
  split; [done|]. split; [done|]. intros s Hs.
  destruct (Hin s Hs) as [?%elem_of_nil|[Hst (c & Hc & Hcont)]]; [done|].
  split; [by apply elem_of_sorted_keys|].
  destruct (Hclean c Hc) as (q & ? & ? & ->). by exists q.
Qed.

(** X18: The stations matched by a list of queries are station options,
    each once, that contain one of the cleaned queries; they are at most
    [max_stops], and at most one when [max_stops] is not positive. *)
Theorem stations_matching_bounded queries max_stops :
  let matched := stations_matching_queries lower idx queries max_stops in
  NoDup matched
  /\ Z.of_nat (length matched) <= Z.max 1 max_stops
  /\ forall s, s ∈ matched ->
       s ∈ station_options idx
       /\ exists q, q ∈ queries /\ Py.strip q <> ""
                    /\ Py.contains (lower (Py.strip q)) (lower s) = true.
Proof.
  cbv zeta. destruct (stations_matching_spec queries max_stops)
    as (Hnd & Hlen & Hin).
  split; [done|]. split; [done|]. intros s Hs.
  destruct (Hin s Hs) as [Hk Hq]. split; [|done].
  by apply elem_of_sorted_keys.
Qed.

End MatchFacts.

Section BoardsFacts.

Variable strptime_Ymd : string -> option Py.date.
Variable strftime_Ymd : Py.date -> string.
Variable lower : string -> string.
Variable idx : GtfsIndex.t.

Lemma station_board_rendered now_local station_label direction_label
    board_route_label window_minutes delay_by_trip st entries st' :
  station_direction_board strptime_Ymd strftime_Ymd idx now_local station_label
    direction_label board_route_label window_minutes delay_by_trip st
  = (Some entries, st') ->
  Forall (fun e =>
            rendered_within now_local
              (now_local + window_minutes * 60 * Py.US_PER_SECOND) (b_rt e))
    entries.
Proof.
  unfold station_direction_board. intros H.
  destruct (stop_label_to_id idx !! station_label) as [[|c0 s0]|];
    try (simplify_eq; by constructor).
  destruct (Py.timedelta_minutes window_minutes) as [td|] eqn:Htd;
    cbn [mbind option_bind] in H; [|by simplify_eq].
  destruct (Py.datetime_add now_local td) as [window_end|] eqn:Hwe;
    cbn [mbind option_bind] in H; [|by simplify_eq].
  destruct (service_dates now_local) as [dates|];
    cbn [mbind option_bind] in H; [|by simplify_eq].
  destruct (active_services strptime_Ymd strftime_Ymd idx dates st)
    as [active st1].
  apply timedelta_minutes_Some in Htd as ->.
  apply datetime_add_Some in Hwe as [-> _].
  destruct (board_entries _ _ _ _ _ _ _ _ _) as [es|] eqn:Hes;
    cbn [fmap option_fmap option_map] in H; [|by simplify_eq].
  simplify_eq. apply board_entries_in_window in Hes.
  apply Forall_forall. intros e He. apply elem_of_sorted_by in He.
  by eapply Forall_forall in Hes.
Qed.

Lemma station_boards_spec now_local window_minutes delay_by_trip stations st
    boards st' :
  station_boards strptime_Ymd strftime_Ymd idx now_local window_minutes
    delay_by_trip stations st = (Some boards, st') ->
  sublist (sb_stop <$> boards) stations
  /\ Forall (fun b =>
               sb_departures b <> []
               /\ Forall (fun e =>
                            rendered_within now_local
                              (now_local + window_minutes * 60 * Py.US_PER_SECOND)
                              (b_rt e))
                    (sb_departures b))
       boards.
Proof.
  revert st boards.
  induction stations as [|station stations IH]; intros st boards H;
    cbn [station_boards] in H.
  - simplify_eq. split; constructor.
  - destruct (station_direction_board _ _ _ _ station _ _ _ _ st)
      as [departures st1] eqn:Hb.
    destruct departures as [[|e es]|]; [| |by simplify_eq].
    + destruct (IH _ _ H) as [Hsub Hall]. split; [|done].
      by apply sublist_cons.
    + destruct (station_boards _ _ _ _ _ _ stations st1) as [out st2] eqn:Ho.
      destruct out as [out|]; cbn [fmap option_fmap option_map] in H;
        [|by simplify_eq].
      simplify_eq. destruct (IH _ _ Ho) as [Hsub Hall]. split.
      * cbn [fmap list_fmap sb_stop]. by apply sublist_skip.
      * constructor; [|done]. cbn [sb_departures]. split; [done|].
        by eapply station_board_rendered.
Qed.

(** X19: The boards for a list of station queries are boards of station
    options, each once and none of them empty, at most [max_stops] of
    them (at most one when [max_stops] is not positive), and each of
    their records leaves within the window. *)
Theorem boards_for_queries_within_window now_local station_queries
    window_minutes delay_by_trip max_stops st boards st' :
  boards_for_station_queries strptime_Ymd strftime_Ymd lower idx now_local
    station_queries window_minutes delay_by_trip max_stops st
  = (Some boards, st') ->
  NoDup (sb_stop <$> boards)
  /\ Z.of_nat (length boards) <= Z.max 1 max_stops
  /\ Forall (fun b =>
               sb_stop b ∈ station_options idx
               /\ sb_departures b <> []
               /\ Forall (fun e =>
                            rendered_within now_local
                              (now_local + window_minutes * 60 * Py.US_PER_SECOND)
                              (b_rt e))
                    (sb_departures b))
       boards.
Proof.
  unfold boards_for_station_queries. intros H.
  apply station_boards_spec in H as [Hsub Hall].
  destruct (stations_matching_spec lower idx station_queries max_stops)
    as (Hnd & Hlen & Hin).
  split; [by eapply sublist_NoDup|]. split.
  - apply sublist_length in Hsub. rewrite length_fmap in Hsub. lia.
  - apply Forall_forall. intros b Hb.
    eapply Forall_forall in Hall as [? ?]; [|done]. split; [|done].
    apply elem_of_sorted_keys, Hin.
    eapply elem_of_sublist; [|done]. apply list_elem_of_fmap. by exists b.
Qed.

End BoardsFacts.

Section StopQuery.

Variable lower : string -> string.

(** X17: On a loaded index a query resolves to known stops only, and the
    label of every station option resolves to a set that holds the stop
    of the label. *)
Theorem stop_query_finds_known_stops a idx query :
  _load a = Some idx ->
  (forall sid, sid ∈ _stop_ids_for_query lower idx query ->
     is_Some (stops idx !! sid))
  /\ (forall label sid, stop_label_to_id idx !! label = Some sid ->
        sid ∈ _stop_ids_for_query lower idx label).
Proof.
  intros Hload. destruct (loaded_labels_resolve _ _ Hload) as [_ Hs]. split.
  - intros sid. unfold _stop_ids_for_query. cbv zeta.
    destruct (Py.strip query) as [|c0 raw0] eqn:Hraw;
      [by intros ?%elem_of_empty|].
    rewrite !elem_of_union. intros [Hin|Hin].
    + apply elem_of_dom in Hin as [name Hin].
      apply map_lookup_filter_Some in Hin as [Hin _]. by eexists.
    + assert (sid ∈ match stop_label_to_id idx !! String c0 raw0 with
                    | Some (String c1 s1) => ({[String c1 s1]} : gset string)
                    | _ => ∅
                    end -> is_Some (stops idx !! sid)) as Hexact.
      { destruct (stop_label_to_id idx !! String c0 raw0) as [[|c1 s1]|] eqn:E;
          try by intros ?%elem_of_empty.
        intros ->%elem_of_singleton. by destruct (Hs _ _ E) as (_ & _ & _ & ?). }
      destruct (Py.after_last "[" (String c0 raw0)) as [tail|]; [|by apply Hexact].
      destruct (Py.endswith_char "]" (String c0 raw0)); [|by apply Hexact].
      case_bool_decide as Hk; [|by apply Hexact].
      apply elem_of_union in Hin as [->%elem_of_singleton|Hin];
        [done|by apply Hexact].
  - intros label sid Hl. destruct (Hs _ _ Hl) as (Hsid & (name & Hn & E) & Hstrip & _).
    unfold _stop_ids_for_query. cbv zeta. rewrite Hstrip.
    destruct label as [|c0 l0].
    { destruct name; [done|]. by rewrite string_app_cons in E. }
    rewrite Hl. destruct sid as [|c1 s1]; [done|].
    rewrite !elem_of_union. right.
    destruct (Py.after_last "[" (String c0 l0)) as [tail|];
      [|by apply elem_of_singleton].
    destruct (Py.endswith_char "]" (String c0 l0)); [|by apply elem_of_singleton].
    case_bool_decide; [|by apply elem_of_singleton].
    apply elem_of_union. right. by apply elem_of_singleton.
Qed.

End StopQuery.

(** ** Decimal numerals *)

Lemma str_digits_spec fuel n acc :
  0 <= n < 10 ^ Z.of_nat (S fuel) ->
  exists digits,
    Py.str_digits (S fuel) n acc = digits ++ acc
    /\ Py.all_digits digits = true
    /\ digits <> ""
    /\ forall k, Py.int_body digits true k <> None
       /\ forall rest ad, Py.int_body (digits ++ rest) ad k
                          = Py.int_body rest true
                              (k * 10 ^ Z.of_nat (String.length digits) + n).
Proof.
  revert n acc. induction fuel as [|fuel IH]; intros n acc Hn;
    rewrite pow10_succ in Hn.
  - change (10 ^ Z.of_nat 0) with 1 in Hn. cbn [Py.str_digits].
    assert (0 <= n mod 10 <= 9) as Hd by (pose proof (Z.mod_pos_bound n 10); lia).
    destruct (is_digit_digit_char _ Hd) as [Hdig Hval].
    destruct (Z.ltb_spec n 10) as [Hsmall|Hbig]; [|lia].
    exists (String (Py.digit_char (n mod 10)) "").
    rewrite Z.mod_small in * by lia.
    split; [done|]. split; [cbn; by rewrite Hdig|]. split; [done|].
    intros k. split; [cbn; by rewrite Hdig|]. intros rest ad.
    rewrite string_app_cons, string_app_nil. cbn [Py.int_body String.length].
    rewrite Hdig, Hval. f_equal. lia.
  - remember (S fuel) as fuel1 eqn:Hf1. cbn [Py.str_digits].
    assert (0 <= n mod 10 <= 9) as Hd by (pose proof (Z.mod_pos_bound n 10); lia).
    destruct (is_digit_digit_char _ Hd) as [Hdig Hval].
    destruct (Z.ltb_spec n 10) as [Hsmall|Hbig].
    + exists (String (Py.digit_char (n mod 10)) "").
      rewrite Z.mod_small in * by lia.
      split; [done|]. split; [cbn; by rewrite Hdig|]. split; [done|].
      intros k. split; [cbn; by rewrite Hdig|]. intros rest ad.
      rewrite string_app_cons, string_app_nil. cbn [Py.int_body String.length].
      rewrite Hdig, Hval. f_equal. lia.
    + assert (0 <= n / 10 < 10 ^ Z.of_nat fuel1) as Hq.
      { split; [apply Z.div_pos; lia|].
        apply Z.div_lt_upper_bound; lia. }
      subst fuel1.
      destruct (IH (n / 10) (String (Py.digit_char (n mod 10)) acc) Hq)
        as (digits & E & Hall & Hne & Hint).
      exists (digits ++ String (Py.digit_char (n mod 10)) "").
      split; [by rewrite E, string_app_assoc|].
      assert (forall s1 s2, Py.all_digits s1 = true -> Py.all_digits s2 = true ->
                            Py.all_digits (s1 ++ s2) = true) as Happ.
      { intros s1 s2 H1 H2. induction s1 as [|c s1 IHs]; [done|].
        rewrite string_app_cons. cbn [Py.all_digits] in *.
        apply andb_true_iff in H1 as [-> H1]. by apply IHs. }
      split; [apply Happ; [done|cbn; by rewrite Hdig]|].
      split; [destruct digits; done|].
      assert (String.length (digits ++ String (Py.digit_char (n mod 10)) "")
              = S (String.length digits)) as Hlen.
      { clear. induction digits as [|c d IHd]; [done|].
        rewrite string_app_cons. cbn [String.length]. by rewrite IHd. }
      intros k. split.
      * destruct (Hint k) as [_ Hr]. rewrite <- (string_app_nil_r (_ ++ _)).
        rewrite string_app_assoc, Hr, string_app_cons, string_app_nil.
        cbn [Py.int_body]. by rewrite Hdig.
      * intros rest ad. destruct (Hint k) as [_ Hr].
        rewrite string_app_assoc, Hr, string_app_cons, string_app_nil.
        cbn [Py.int_body]. rewrite Hdig, Hval, Hlen, pow10_succ. f_equal.
        pose proof (Z.div_mod n 10 ltac:(lia)). lia.
Qed.

Lemma str_fuel n : 0 <= n -> n < 10 ^ Z.of_nat (S (Z.to_nat (Z.log2 n))).
Proof.
  intros Hn. rewrite Nat2Z.inj_succ, Z2Nat.id by apply Z.log2_nonneg.
  destruct (Z.eq_dec n 0) as [->|Hne]; [done|].
  pose proof (Z.log2_spec n ltac:(lia)) as [_ H].
  eapply Z.lt_le_trans; [exact H|].
  apply Z.pow_le_mono_l. pose proof (Z.log2_nonneg n). lia.
Qed.

(** What [str] writes for a number that is not negative. *)
Lemma str_int_nonneg n :
  0 <= n ->
  Py.all_digits (Py.str_int n) = true /\ Py.str_int n <> ""
  /\ forall rest ad k,
       Py.int_body (Py.str_int n ++ rest) ad k
       = Py.int_body rest true (k * 10 ^ Z.of_nat (String.length (Py.str_int n)) + n).
Proof.
  intros Hn. unfold Py.str_int. destruct (Z.ltb_spec n 0); [lia|].
  destruct (str_digits_spec (Z.to_nat (Z.log2 n)) n "" (conj Hn (str_fuel n Hn)))
    as (digits & -> & Hall & Hne & Hint).
  rewrite string_app_nil_r. split; [done|]. split; [done|].
  intros rest ad k. by destruct (Hint k) as [_ ->].
Qed.

Lemma all_digits_app s1 s2 :
  Py.all_digits (s1 ++ s2) = Py.all_digits s1 && Py.all_digits s2.
Proof.
  induction s1 as [|c s1 IH]; [done|].
  rewrite string_app_cons. cbn [Py.all_digits]. by rewrite IH, andb_assoc.
Qed.

Lemma all_digits_zeros k : Py.all_digits (Py.zeros k) = true.
Proof. induction k as [|k IH]; [done|]. cbn [Py.zeros Py.all_digits]. by rewrite IH. Qed.

Lemma int_body_zeros k rest ad :
  Py.int_body (Py.zeros k ++ rest) ad 0
  = Py.int_body rest (match k with O => ad | S _ => true end) 0.
Proof.
  revert ad. induction k as [|k IH]; intros ad; [done|].
  cbn [Py.zeros]. rewrite string_app_cons. cbn [Py.int_body].
  change (Py.is_digit "0") with true. cbn match.
  change (10 * 0 + Py.digit_val "0") with 0. rewrite IH. by destruct k.
Qed.

(** [int] reads a string of digits as [int_body] does. *)
Lemma int_all_digits s :
  Py.all_digits s = true -> s <> "" -> Py.int s = Py.int_body s false 0.
Proof.
  intros Hall Hne. unfold Py.int. rewrite (strip_all_digits _ Hall).
  destruct s as [|c r]; [done|]. cbn [Py.all_digits] in Hall.
  apply andb_true_iff in Hall as [Hc _].
  destruct (Ascii.eqb_spec c "-") as [->|Hm]; [done|].
  destruct (Ascii.eqb_spec c "+") as [->|Hp]; [done|].
  destruct c as [[] [] [] [] [] [] [] []]; try done.
Qed.

(** After a minus sign as well. *)
Lemma int_minus_digits s :
  Py.all_digits s = true -> s <> "" ->
  Py.int (String "-" s) = Z.opp <$> Py.int_body s false 0.
Proof.
  intros Hall Hne. unfold Py.int, Py.strip_by.
  change (Py.lstrip_by Py.is_int_space (String "-" s)) with (String "-" s).
  cbn [Py.rstrip_by]. rewrite (rstrip_all_digits _ Hall).
  by destruct s.
Qed.

(** [int(str(n).zfill(width))] is [n]. *)
Lemma int_zfill_str n width : Py.int (Py.zfill (Py.str_int n) width) = Some n.
Proof.
  destruct (Z.ltb_spec n 0) as [Hneg|Hpos].
  - assert (Py.str_int n = String "-" (Py.str_int (- n))) as E.
    { unfold Py.str_int. destruct (Z.ltb_spec n 0); [|lia].
      destruct (Z.ltb_spec (- n) 0); [lia|]. done. }
    destruct (str_int_nonneg (- n) ltac:(lia)) as (Hall & Hne & Hint).
    assert (forall k, Py.int (String "-" (Py.zeros k ++ Py.str_int (- n))) = Some n)
      as Hz.
    { intros k. rewrite int_minus_digits.
      - rewrite int_body_zeros, <- (string_app_nil_r (Py.str_int (- n))), Hint.
        cbn. f_equal; lia.
      - by rewrite all_digits_app, all_digits_zeros, Hall.
      - destruct k; [by rewrite string_app_nil|done]. }
    unfold Py.zfill. rewrite E. destruct (_ <=? _)%nat; [|apply Hz].
    apply (Hz O).
  - destruct (str_int_nonneg n Hpos) as (Hall & Hne & Hint).
    assert (forall k, Py.int (Py.zeros k ++ Py.str_int n) = Some n) as Hz.
    { intros k. rewrite int_all_digits.
      - rewrite int_body_zeros, <- (string_app_nil_r (Py.str_int n)), Hint.
        cbn. f_equal; lia.
      - by rewrite all_digits_app, all_digits_zeros, Hall.
      - destruct k; [by rewrite string_app_nil|done]. }
    unfold Py.zfill. destruct (_ <=? _)%nat; [apply (Hz O)|].
    destruct (Py.str_int n) as [|c r] eqn:E; [done|].
    cbn [Py.all_digits] in Hall. apply andb_true_iff in Hall as [Hc _].
    destruct (Ascii.eqb_spec c "-") as [->|Hm]; [done|].
    destruct (Ascii.eqb_spec c "+") as [->|Hp]; [done|].
    specialize (Hz (width - String.length (String c r))%nat).
    destruct c as [[] [] [] [] [] [] [] []]; try done.
Qed.

(** ** The feed store *)

(** X20: A version made safe holds safe characters only, none of them a
    path separator; making it safe again changes nothing, and a version
    that is safe is left as it is. *)
Theorem safe_version_is_safe value :
  all_safe (_safe_version value) = true
  /\ Py.contains "/" (_safe_version value) = false
  /\ _safe_version (_safe_version value) = _safe_version value
  /\ (all_safe value = true -> _safe_version value = value).
Proof.
  assert (forall s, all_safe s = true -> _safe_version s = s) as Hfix.
  { induction s as [|c r IH]; [done|]. cbn [all_safe _safe_version].
    intros [Hc Hr]%andb_true_iff. by rewrite Hc, IH. }
  assert (all_safe (_safe_version value) = true) as Hsafe.
  { induction value as [|c r IH]; [done|]. cbn [all_safe _safe_version].
    rewrite IH, andb_true_r. by destruct (is_safe_char c) eqn:E. }
  split; [done|]. split; [|split; [by apply Hfix|apply Hfix]].
  revert Hsafe. generalize (_safe_version value). clear.
  induction s as [|c r IH]; [done|]. cbn [all_safe Py.contains String.prefix].
  intros [Hc Hr]%andb_true_iff. rewrite (IH Hr), orb_false_r.
  destruct (ascii_dec "/" c) as [<-|?]; [done|done].
Qed.

Section SelectionFacts.

Context {World : Type}.
Variable fetch_candidates : string -> World -> option (list string) * World.
Variable refresh_from_url :
  string -> string -> World -> option FeedMeta * World.
Variable read_metas : World -> list (option FeedMeta) * World.
Variable save_state : string -> string -> World -> option World.
Variable load_active_version : World -> option string * World.

Lemma try_versions_spec today width current base offsets attempts tried w :
  exists found attempts' new w',
    try_versions refresh_from_url today width current base offsets attempts
      tried w = (Some (found, attempts', (tried ++ new)%list), w')
    /\ attempts' = attempts + Z.of_nat (length new)
    /\ (length new <= length offsets)%nat
    /\ (forall m, found = Some m -> is_valid_for m today = true)
    /\ forall i url, new !! i = Some url ->
         exists offset,
           offsets !! i = Some offset
           /\ 0 < current - offset
           /\ url = base ++ "/" ++ Py.zfill (Py.str_int (current - offset)) width.
Proof.
  revert attempts tried w.
  induction offsets as [|offset offsets IH]; intros attempts tried w;
    cbn [try_versions].
  - exists None, attempts, [], w. rewrite app_nil_r.
    repeat split; try done; simpl; lia.
  - cbv zeta. rewrite int_zfill_str.
    destruct (Z.leb_spec (current - offset) 0) as [Hle|Hpos].
    { exists None, attempts, [], w. rewrite app_nil_r.
      repeat split; try done; simpl; lia. }
    set (url := base ++ "/" ++ Py.zfill (Py.str_int (current - offset)) width).
    destruct (refresh_from_url url "version_previous" w) as [[meta|] w1];
      [destruct (is_valid_for meta today) eqn:Hv|].
    + exists (Some meta), (attempts + 1), [url], w1.
      split; [done|]. split; [simpl; lia|]. split; [simpl; lia|].
      split; [by intros ? [= <-]|].
      intros [|i] u Hu; [|done]. simpl in Hu. simplify_eq. by exists offset.
    + destruct (IH (attempts + 1) (tried ++ [url])%list w1)
        as (found & a' & new & w' & E & Ha & Hlen & Hvalid & Hurls).
      exists found, a', (url :: new), w'.
      split; [by rewrite E, <- app_assoc|]. split; [simpl; lia|].
      split; [simpl; lia|]. split; [done|].
      intros [|i] u Hu; simpl in Hu; [simplify_eq; by exists offset|].
      by apply Hurls.
    + destruct (IH (attempts + 1) (tried ++ [url])%list w1)
        as (found & a' & new & w' & E & Ha & Hlen & Hvalid & Hurls).
      exists found, a', (url :: new), w'.
      split; [by rewrite E, <- app_assoc|]. split; [simpl; lia|].
      split; [simpl; lia|]. split; [done|].
      intros [|i] u Hu; simpl in Hu; [simplify_eq; by exists offset|].
      by apply Hurls.
Qed.

Lemma version_fallback_spec latest_version today dbg w :
  exists found dbg' w' new,
    refresh_previous_from_version refresh_from_url latest_version today dbg w
    = (Some found, dbg', w')
    /\ tried_version_urls dbg' = (tried_version_urls dbg ++ new)%list
    /\ (length new <= 5)%nat
    /\ (forall m, found = Some m -> is_valid_for m today = true)
    /\ (forall i url, new !! i = Some url ->
          exists current,
            Py.int latest_version = Some current
            /\ 0 < current - (Z.of_nat i + 1)
            /\ url = Py.before_last "/" STATIC_GTFS_URL ++ "/"
                     ++ Py.zfill (Py.str_int (current - (Z.of_nat i + 1)))
                          (String.length latest_version))
    /\ (Py.isdigit latest_version = false ->
        found = None /\ dbg' = dbg /\ w' = w).
Proof.
  unfold refresh_previous_from_version.
  destruct (Py.isdigit latest_version) eqn:Hd; cbn [negb].
  2:{ exists None, dbg, w, []. rewrite app_nil_r.
      repeat split; try done; simpl; lia. }
  destruct (isdigit_int _ Hd) as [current Hc]. rewrite Hc. cbv zeta.
  destruct (try_versions_spec today (String.length latest_version) current
              (Py.before_last "/" STATIC_GTFS_URL)
              (seqZ 1 MAX_PREVIOUS_VERSION_TRIES) 0 (tried_version_urls dbg) w)
    as (found & a' & new & w' & E & Ha & Hlen & Hvalid & Hurls).
  rewrite E.
  assert (forall i url, new !! i = Some url ->
            exists current0,
              Some current = Some current0
              /\ 0 < current0 - (Z.of_nat i + 1)
              /\ url = Py.before_last "/" STATIC_GTFS_URL ++ "/"
                       ++ Py.zfill (Py.str_int (current0 - (Z.of_nat i + 1)))
                            (String.length latest_version)) as Hurls'.
  { intros i url Hi. destruct (Hurls i url Hi) as (offset & Ho & Hpos & ->).
    apply lookup_seqZ in Ho as [-> _]. exists current.
    replace (1 + Z.of_nat i) with (Z.of_nat i + 1) in * by lia. done. }
  destruct found as [meta|].
  - eexists (Some meta), _, w', new. split; [reflexivity|].
    cbn [tried_version_urls]. repeat split; try done.
  - eexists None, _, w', new. split; [reflexivity|].
    cbn [tried_version_urls]. repeat split; try done.
Qed.


End SelectionFacts.

Section ActiveFeed.

Context {World : Type}.
Variable fetch_candidates : string -> World -> option (list string) * World.
Variable refresh_from_url :
  string -> string -> World -> option FeedMeta * World.
Variable read_metas : World -> list (option FeedMeta) * World.
Variable save_state : string -> string -> World -> option World.
Variable load_active_version : World -> option string * World.

Lemma listing_fallback_valid today dbg w m :
  (refresh_previous_from_listing fetch_candidates refresh_from_url today dbg w).1.1
  = Some m ->
  is_valid_for m today = true.
Proof.
  unfold refresh_previous_from_listing.
  destruct (scan_pages _ _ _ _ _) as [all_candidates w1].
  destruct (length all_candidates <? 2)%nat; [done|].
  pose proof (try_candidates_valid refresh_from_url today
                (drop 1 all_candidates) 0 [] (tried_listing_urls dbg) w1
                ltac:(unfold MAX_LISTING_CANDIDATES_TO_TRY; lia)) as Hv.
  cbn [tried_listing_urls] in *.
  destruct (try_candidates _ _ _ _ _ _ _) as [[[attempts valid_metas] tried] w2].
  simpl in Hv. destruct valid_metas as [|m0 ms]; [done|]. simpl.
  intros [= <-].
  destruct (max_from_spec ms m0) as [Hin _].
  rewrite Hv in Hin. apply list_elem_of_In in Hin.
  unfold valid_today in Hin. by apply filter_In in Hin as [_ ?].
Qed.



Lemma select_cached_sound today dbg w feed source status dbg' w' :
  select_cached read_metas save_state load_active_version today dbg w
  = (Some (feed, source, status), dbg', w') ->
  (status = "ok" /\ source = "fallback_local"
   /\ exists m, feed = Some m /\ is_valid_for m today = true)
  \/ (status = "degraded"
      /\ ((feed = None /\ source = "none")
          \/ (source = "fallback_local"
              /\ exists m, feed = Some m /\ is_valid_for m today = false))).
Proof.
  unfold select_cached. destruct (list_cached_feeds read_metas w) as [cached w1].
  destruct (List.filter _ cached) as [|selected valid] eqn:Hvalid.
  - destruct (load_active_version w1) as [[[|c v]|] w2];
      try (intros ?; simplify_eq; right; split; [done|by left]).
    destruct (next_where _ cached) as [fallback|] eqn:Hf;
      [|intros ?; simplify_eq; right; split; [done|by left]].
    intros ?. simplify_eq. right. split; [done|]. right. split; [done|].
    exists fallback. split; [done|].
    apply next_where_Some in Hf as [Hin _].
    destruct (is_valid_for fallback today) eqn:Hv; [|done].
    assert (In fallback (List.filter (fun item => is_valid_for item today) cached))
      as Hin' by (apply filter_In; split; [by apply list_elem_of_In|done]).
    by rewrite Hvalid in Hin'.
  - destruct (save_state _ _ w1) as [w2|]; [|done].
    intros ?. simplify_eq. left. split; [done|]. split; [done|].
    exists selected. split; [done|].
    assert (In selected (List.filter (fun item => is_valid_for item today) cached))
      as Hin by (rewrite Hvalid; by left).
    by apply filter_In in Hin as [_ ?].
Qed.

Lemma select_listing_sound today dbg w feed source status dbg' w' :
  select_listing fetch_candidates refresh_from_url read_metas save_state
    load_active_version today dbg w
  = (Some (feed, source, status), dbg', w') ->
  (status = "ok" /\ (source = "listing_previous" \/ source = "fallback_local")
   /\ exists m, feed = Some m /\ is_valid_for m today = true)
  \/ (status = "degraded"
      /\ ((feed = None /\ source = "none")
          \/ (source = "fallback_local"
              /\ exists m, feed = Some m /\ is_valid_for m today = false))).
Proof.
  unfold select_listing.
  pose proof (listing_fallback_valid today (dbg_listing dbg) w) as Hl.
  destruct (refresh_previous_from_listing _ _ _ _ _) as [[[m|] listing] w1];
    simpl in Hl.
  - destruct (save_state _ _ w1) as [w2|]; [|done].
    intros ?. simplify_eq. left. split; [done|]. split; [by left|].
    exists m. split; [done|]. by apply Hl.
  - intros H. apply select_cached_sound in H as [(? & ? & ?)|?]; [left|by right].
    split; [done|]. split; [by right|done].
Qed.

(** X23: The status that comes with the selected feed is sound: "ok" comes
    with a feed that is valid today, from one of the four strategies;
    "degraded" comes with no feed and the source "none", or with a cached
    feed that is not valid today. *)
Theorem active_feed_status_sound today latest_meta dbg w feed source status
    dbg' w' :
  get_active_feed fetch_candidates refresh_from_url read_metas save_state
    load_active_version today latest_meta dbg w
  = (Some (feed, source, status), dbg', w') ->
  (status = "ok"
   /\ (source = "latest" \/ source = "version_previous"
       \/ source = "listing_previous" \/ source = "fallback_local")
   /\ exists m, feed = Some m /\ is_valid_for m today = true)
  \/ (status = "degraded"
      /\ ((feed = None /\ source = "none")
          \/ (source = "fallback_local"
              /\ exists m, feed = Some m /\ is_valid_for m today = false))).
Proof.
  unfold get_active_feed. cbv zeta.
  assert (forall d v,
            select_listing fetch_candidates refresh_from_url read_metas
              save_state load_active_version today d v
            = (Some (feed, source, status), dbg', w') ->
            (status = "ok"
             /\ (source = "latest" \/ source = "version_previous"
                 \/ source = "listing_previous" \/ source = "fallback_local")
             /\ exists m, feed = Some m /\ is_valid_for m today = true)
            \/ (status = "degraded"
                /\ ((feed = None /\ source = "none")
                    \/ (source = "fallback_local"
                        /\ exists m, feed = Some m
                                     /\ is_valid_for m today = false))))
    as Hlisting.
  { intros d v H. apply select_listing_sound in H as [(? & Hs & ?)|?];
      [left|by right].
    split; [done|]. split; [|done]. destruct Hs; auto. }
  destruct latest_meta as [latest|]; [|apply Hlisting].
  destruct (is_valid_for latest today) eqn:Hv.
  - destruct (save_state _ _ w) as [w1|]; [|done].
    intros ?. simplify_eq. left. split; [done|]. split; [by left|].
    by exists latest.
  - match goal with
    | |- context [refresh_previous_from_version _ ?v ?t ?d ?w0] =>
        destruct (version_fallback_spec refresh_from_url v t d w0)
          as (found & d1 & w1 & new & E & _ & _ & Hvalid & _)
    end.
    rewrite E. destruct found as [previous|]; [|apply Hlisting].
    destruct (save_state _ _ w1) as [w2|]; [|done].
    intros ?. simplify_eq. left. split; [done|]. split; [by right; left|].
    exists previous. split; [done|]. by apply Hvalid.
Qed.

(** X25: A forced selection returns a cached feed of the version asked for,
    or nothing, without a change of the world, when no cached feed has
    it. *)
Theorem force_select_only_cached version_ w r w' :
  force_select read_metas save_state version_ w = (Some r, w') ->
  match r with
  | Some m =>
      version m = version_ /\ m ∈ (list_cached_feeds read_metas w).1
      /\ save_state version_ "forced" (list_cached_feeds read_metas w).2
         = Some w'
  | None =>
      w' = (list_cached_feeds read_metas w).2
      /\ forall m, m ∈ (list_cached_feeds read_metas w).1 ->
                   version m <> version_
  end.
Proof.
  unfold force_select.
  destruct (list_cached_feeds read_metas w) as [cached w1]. simpl.
  destruct (next_where _ cached) as [selected|] eqn:Hs.
  - destruct (save_state _ _ w1) as [w2|] eqn:Hsave; [|done].
    intros ?. simplify_eq.
    apply next_where_Some in Hs as [Hin Hv]. apply String.eqb_eq in Hv.
    by rewrite <- Hv.
  - intros ?. simplify_eq. split; [done|].
    induction cached as [|x cached IH]; [by intros m ?%elem_of_nil|].
    cbn [next_where] in Hs. destruct (String.eqb_spec (version x) version_);
      [done|].
    intros m [->|Hm]%elem_of_cons; [done|]. by apply IH.
Qed.

End ActiveFeed.

Section ActiveFeedTotal.

Context {World : Type}.
Variable fetch_candidates : string -> World -> option (list string) * World.
Variable refresh_from_url :
  string -> string -> World -> option FeedMeta * World.
Variable read_metas : World -> list (option FeedMeta) * World.
Variable save_state : string -> string -> World -> option World.
Variable load_active_version : World -> option string * World.


End ActiveFeedTotal.

(** ** The realtime message *)

Lemma scan_entities_app es1 es2 trip_delays last_ts :
  scan_entities (es1 ++ es2) trip_delays last_ts
  = let '(d, t) := scan_entities es1 trip_delays last_ts in
    scan_entities es2 d t.
Proof.
  revert trip_delays last_ts. induction es1 as [|e es1 IH];
    intros trip_delays last_ts; [done|].
  rewrite <- app_comm_cons. cbn [scan_entities].
  destruct (trip_update e) as [tu|]; [|apply IH].
  destruct (trip_id tu); apply IH.
Qed.

Lemma read_updates_app es1 es2 :
  read_updates (es1 ++ es2) = (read_updates es1 ++ read_updates es2)%list.
Proof. unfold read_updates. by rewrite omap_app, List.filter_app. Qed.

Lemma scan_entities_delays entities trip_delays last_ts tid :
  (scan_entities entities trip_delays last_ts).1 !! tid
  = match last (List.filter (fun tu => (trip_id tu =? tid)%string)
                  (read_updates entities)) with
    | Some tu => Some (first_delay (stop_time_update tu))
    | None => trip_delays !! tid
    end.
Proof.
  revert trip_delays last_ts.
  induction entities as [|e entities IH] using rev_ind;
    intros trip_delays last_ts; [done|].
  rewrite scan_entities_app, read_updates_app, List.filter_app.
  specialize (IH trip_delays last_ts).
  destruct (scan_entities entities trip_delays last_ts) as [d t].
  simpl in IH. unfold read_updates at 2. cbn [scan_entities omap list_omap].
  destruct (trip_update e) as [tu|]; cbn [List.filter];
    [|by rewrite app_nil_r].
  destruct (trip_id tu) as [|c0 t0] eqn:Htid; cbn [String.eqb negb List.filter];
    [by rewrite app_nil_r|].
  rewrite Htid. cbn [fst].
  destruct (String.eqb_spec (String c0 t0) tid) as [<-|Hne].
  - by rewrite last_snoc, lookup_insert_eq.
  - rewrite app_nil_r, lookup_insert_ne by done. done.
Qed.

(** X26: The delay that a message gives for a trip is the first delay of the
    last update of the trip that the message holds; a trip without an
    update in the message has no delay, and neither has the empty
    trip id. *)
Theorem scan_entities_last_update_wins entities tid :
  (scan_entities entities ∅ None).1 !! tid
  = (fun tu => first_delay (stop_time_update tu))
      <$> last (List.filter (fun tu => (trip_id tu =? tid)%string)
                  (read_updates entities))
  /\ (scan_entities entities ∅ None).1 !! "" = None.
Proof.
  rewrite !scan_entities_delays, !lookup_empty. split.
  - by destruct (last _).
  - assert (List.filter (fun tu => (trip_id tu =? "")%string)
              (read_updates entities) = []) as ->; [|done].
    unfold read_updates. induction (omap trip_update entities) as [|tu l IH];
      [done|].
    cbn [List.filter]. destruct (trip_id tu) eqn:E; cbn [String.eqb negb].
    + done.
    + cbn [List.filter]. by rewrite E.
Qed.

Lemma read_timestamps_cons e entities :
  read_timestamps (e :: entities)
  = match trip_update e with
    | Some tu =>
        match trip_id tu, timestamp tu with
        | String _ _, Some ts => ts :: read_timestamps entities
        | _, _ => read_timestamps entities
        end
    | None => read_timestamps entities
    end.
Proof.
  unfold read_timestamps, read_updates. cbn [omap list_omap].
  destruct (trip_update e) as [tu|]; [|done]. cbn [List.filter].
  destruct (trip_id tu); cbn [String.eqb negb]; [done|].
  cbn [omap list_omap]. by destruct (timestamp tu).
Qed.

Lemma scan_entities_timestamp entities trip_delays last_ts :
  Forall (fun t => 0 <= t) (read_timestamps entities) ->
  match last_ts with Some l => 0 <= l | None => True end ->
  match (scan_entities entities trip_delays last_ts).2 with
  | Some r =>
      (last_ts = Some r \/ r ∈ read_timestamps entities)
      /\ match last_ts with Some l => l <= r | None => True end
      /\ Forall (fun t => t <= r) (read_timestamps entities)
  | None => last_ts = None /\ read_timestamps entities = []
  end.
Proof.
  revert trip_delays last_ts.
  induction entities as [|e entities IH]; intros trip_delays last_ts Hpos Hl.
  - cbn. destruct last_ts; [|done]. split; [by left|]. split; [lia|constructor].
  - rewrite read_timestamps_cons in *. cbn [scan_entities].
    destruct (trip_update e) as [tu|]; [|by apply IH].
    destruct (trip_id tu) as [|c0 t0]; [by apply IH|].
    destruct (timestamp tu) as [ts|]; [|by apply IH].
    apply Forall_cons in Hpos as [Hts Hpos].
    set (new := Z.max match last_ts with
                      | Some l => if l =? 0 then ts else l
                      | None => ts
                      end ts).
    assert (ts <= new /\ 0 <= new
            /\ (new = ts \/ last_ts = Some new)
            /\ match last_ts with Some l => l <= new | None => True end)
      as (H1 & H2 & H3 & H4).
    { unfold new. destruct last_ts as [l|]; [|lia].
      destruct (Z.eqb_spec l 0) as [->|?]; [lia|].
      destruct (Z.max_spec l ts) as [[? ->]|[? ->]];
        (split; [lia|]); (split; [lia|]); (split; [|lia]); auto. }
    specialize (IH (<[String c0 t0 := first_delay (stop_time_update tu)]> trip_delays)
                  (Some new) Hpos H2).
    destruct (scan_entities entities _ (Some new)).2 as [r|]; [|by destruct IH].
    destruct IH as (Hr & Hle & Hall). split; [|split].
    + destruct Hr as [[= <-]|Hr]; [|right; by apply list_elem_of_further].
      destruct H3 as [->|?]; [right; apply list_elem_of_here|by left].
    + destruct last_ts; [lia|done].
    + constructor; [lia|done].
Qed.

(** X27: The last timestamp of a message is the greatest of the timestamps
    of the trip updates read from it, which are not negative; a message
    without one has none. *)
Theorem scan_entities_latest_timestamp entities :
  Forall (fun t => 0 <= t) (read_timestamps entities) ->
  match (scan_entities entities ∅ None).2 with
  | Some r =>
      r ∈ read_timestamps entities
      /\ Forall (fun t => t <= r) (read_timestamps entities)
  | None => read_timestamps entities = []
  end.
Proof.
  intros Hpos.
  pose proof (scan_entities_timestamp entities ∅ None Hpos I) as H.
  destruct (scan_entities entities ∅ None).2 as [r|]; [|by destruct H].
  destruct H as ([?|?] & _ & ?); done.
Qed.

(** ** The states of the client *)

(** X28: The client holds delays, or a last timestamp, only after a fetch
    has succeeded; the status "ok" comes without an error text and the
    status "error" with one; and a client that has not succeeded yet is
    not "ok". *)
Theorem delays_only_after_success utc_isoformat pb2 n self :
  reachable utc_isoformat pb2 n self ->
  (_last_success_utc self = None ->
     trip_delays (last_result self) = ∅
     /\ last_timestamp (last_result self) = None
     /\ status (last_result self) <> "ok")
  /\ (status (last_result self) = "ok" -> error (last_result self) = None)
  /\ (status (last_result self) = "error" ->
      is_Some (error (last_result self))).
Proof.
  induction 1 as [|n self resp now_utc _ (IH1 & IH2 & IH3)]; [done|].
  assert (forall err,
            let self' := on_failure self now_utc err in
            (_last_success_utc self' = None ->
               trip_delays (last_result self') = ∅
               /\ last_timestamp (last_result self') = None
               /\ status (last_result self') <> "ok")
            /\ (status (last_result self') = "ok" ->
                error (last_result self') = None)
            /\ (status (last_result self') = "error" ->
                is_Some (error (last_result self')))) as Hfail.
  { intros err. unfold on_failure. cbn. split; [|split; [done|by eexists]].
    intros Hnone. rewrite Hnone. destruct (IH1 Hnone) as (_ & ? & _). done. }
  unfold refresh. destruct pb2; cbn [negb].
  - destruct resp as [entity|err]; [|apply Hfail].
    destruct (scan_entities entity ∅ None) as [delays [ts|]].
    + destruct (ts =? 0); [done|]. destruct (utc_isoformat ts); [done|].
      apply Hfail.
    + done.
  - cbn. split; [|split; [done|by eexists]]. intros Hnone.
    by destruct (IH1 Hnone) as (_ & _ & _).
Qed.

(** ** The properties on the sample data *)

Lemma station_board_within_window_witness :
  exists entries st',
    station_direction_board Py.strptime_Ymd Py.strftime_Ymd sample_index
      sample_now "X [s1]" "All" "All" 30 ∅ empty_store = (Some entries, st')
    /\ length entries = 2%nat
    /\ Forall (fun e =>
                 rendered_within sample_now
                   (sample_now + 30 * 60 * Py.US_PER_SECOND) (b_rt e))
         entries.
Proof.
  eexists _, _. split; [vm_compute; reflexivity|]. split; [reflexivity|].
  eapply (station_board_within_window Py.strptime_Ymd Py.strftime_Ymd
            sample_index sample_now "X [s1]" "All" "All" 30 ∅ empty_store).
  vm_compute. reflexivity.
Defined.





Lemma refresh_failure_keeps_recent_delays_witness :
  fetch_or_decode_failure sample_utc_isoformat (Raised "timeout")
  /\ let self' :=
       refresh sample_utc_isoformat true (Raised "timeout")
         (sample_now + 300 * Py.US_PER_SECOND) sample_client in
     status (last_result self') = "error"
     /\ match _last_success_utc sample_client with
        | Some last_success =>
            if sample_now + 300 * Py.US_PER_SECOND - last_success
               <=? 300 * Py.US_PER_SECOND
            then trip_delays (last_result self')
                 = trip_delays (last_result sample_client)
            else trip_delays (last_result self') = ∅
        | None => trip_delays (last_result self') = ∅
        end.
Proof.
  split; [exact I|].
  exact (refresh_failure_keeps_recent_delays sample_utc_isoformat
           (Raised "timeout") (sample_now + 300 * Py.US_PER_SECOND)
           sample_client I).
Defined.

Lemma stale_only_before_first_refresh_witness :
  let self := refresh sample_utc_isoformat true (Raised "timeout") sample_now init in
  reachable sample_utc_isoformat true 1 self
  /\ (status (last_result self) = "ok" \/ status (last_result self) = "error")
  /\ status (last_result self) <> "stale".
Proof.
  assert (reachable sample_utc_isoformat true 1
            (refresh sample_utc_isoformat true (Raised "timeout") sample_now init))
    as H by (apply reach_refresh, reach_init).
  split; [exact H|].
  exact (stale_only_before_first_refresh sample_utc_isoformat true 1 _ H).
Defined.

Lemma active_services_for_day_idempotent_witness :
  store_wf empty_store
  /\ let '(l1, st1) :=
       _active_services_for_day Py.strptime_Ymd Py.strftime_Ymd sample_index
         738945 empty_store in
     let '(l2, st2) :=
       _active_services_for_day Py.strptime_Ymd Py.strftime_Ymd sample_index
         738945 st1 in
     let '(l2', st2') :=
       _active_services_for_day Py.strptime_Ymd Py.strftime_Ymd sample_index
         738945 {| heap := <[l1 := ∅]> (heap st1); cache := cache st1 |} in
     deref (heap st2) l2 = deref (heap st1) l1
     /\ heap empty_store !! l1 = None
     /\ (forall d c, cache st1 !! d = Some c -> c <> l1)
     /\ l2 <> l1 /\ l2' <> l1
     /\ deref (heap st2') l2' = deref (heap st1) l1.
Proof.
  split; [exact store_wf_empty|].
  exact (active_services_for_day_idempotent Py.strptime_Ymd Py.strftime_Ymd
           sample_index 738945 empty_store ∅ store_wf_empty).
Defined.

Lemma load_sorts_stop_times_witness :
  _load sample_archive = Some sample_index
  /\ (forall tid l, stop_times_by_trip sample_index !! tid = Some l ->
        StronglySorted (fun x y => stop_sequence x <= stop_sequence y) l)
  /\ (forall sid l, departures_by_stop sample_index !! sid = Some l ->
        StronglySorted (fun x y => x.2 <= y.2) l).
Proof.
  split; [vm_compute; reflexivity|].
  apply (load_sorts_stop_times sample_archive sample_index).
  vm_compute. reflexivity.
Defined.

Lemma load_labels_resolve_witness :
  _load sample_archive = Some sample_index /\ labels_resolve sample_index.
Proof.
  split; [vm_compute; reflexivity|].
  apply (load_labels_resolve sample_archive sample_index).
  vm_compute. reflexivity.
Defined.

Lemma load_trips_listed_witness :
  _load sample_archive = Some sample_index /\ trips_listed sample_index.
Proof.
  split; [vm_compute; reflexivity|].
  apply (load_trips_listed sample_archive sample_index).
  vm_compute. reflexivity.
Defined.

Lemma active_services_cache_bounded_witness :
  (size (cache empty_store) <= 8)%nat
  /\ (size (cache (_active_services_for_day Py.strptime_Ymd Py.strftime_Ymd
                     sample_index 738945%Z empty_store).2) <= 8)%nat
  /\ forall d d',
       is_Some (cache (_active_services_for_day Py.strptime_Ymd Py.strftime_Ymd
                         sample_index 738945 empty_store).2 !! d) ->
       d' = 738945 \/ is_Some (cache empty_store !! d') ->
       cache (_active_services_for_day Py.strptime_Ymd Py.strftime_Ymd
                sample_index 738945 empty_store).2 !! d' = None ->
       d' < d.
Proof.
  assert (size (cache empty_store) <= 8)%nat as H by (vm_compute; lia).
  split; [exact H|].
  exact (active_services_cache_bounded Py.strptime_Ymd Py.strftime_Ymd
           sample_index 738945 empty_store H).
Defined.

Lemma station_board_memo_transparent_witness :
  let board st :=
    station_direction_board Py.strptime_Ymd Py.strftime_Ymd sample_index
      sample_now "X [s1]" "All" "All" 30 ∅ st in
  store_coherent Py.strptime_Ymd Py.strftime_Ymd sample_index empty_store
  /\ store_coherent Py.strptime_Ymd Py.strftime_Ymd sample_index
       (board empty_store).2
  /\ (board (board empty_store).2).1 = (board empty_store).1
  /\ cache (board empty_store).2 <> ∅.
Proof.
  cbv zeta.
  pose proof (store_coherent_empty Py.strptime_Ymd Py.strftime_Ymd sample_index)
    as H0.
  destruct (station_board_memo_transparent Py.strptime_Ymd Py.strftime_Ymd
              sample_index sample_now "X [s1]" "All" "All" 30 ∅ empty_store
              empty_store H0 H0) as [_ H1].
  split; [exact H0|]. split; [exact H1|]. split.
  - exact (proj1 (station_board_memo_transparent Py.strptime_Ymd Py.strftime_Ymd
                    sample_index sample_now "X [s1]" "All" "All" 30 ∅ _
                    empty_store H1 H0)).
  - vm_compute. discriminate.
Defined.

Lemma station_board_lists_exactly_witness :
  store_coherent Py.strptime_Ymd Py.strftime_Ymd sample_index empty_store
  /\ exists entries st',
       station_direction_board Py.strptime_Ymd Py.strftime_Ymd sample_index
         sample_now "X [s1]" "All" "All" 30 ∅ empty_store = (Some entries, st')
       /\ length entries = 2%nat
       /\ forall e,
            e ∈ entries <->
            exists stop dates,
              stop_label_to_id sample_index !! "X [s1]" = Some stop
              /\ stop <> ""
              /\ service_dates sample_now = Some dates
              /\ on_board
                   (compute_services Py.strptime_Ymd Py.strftime_Ymd sample_index)
                   sample_index sample_now
                   (sample_now + 30 * 60 * Py.US_PER_SECOND) dates "All" "All" ∅
                   stop e.
Proof.
  pose proof (store_coherent_empty Py.strptime_Ymd Py.strftime_Ymd sample_index)
    as H0.
  split; [exact H0|]. eexists _, _.
  split; [vm_compute; reflexivity|]. split; [reflexivity|]. intros e.
  eapply (station_board_lists_exactly Py.strptime_Ymd Py.strftime_Ymd
            sample_index sample_now "X [s1]" "All" "All" 30 ∅ empty_store);
    [exact H0|vm_compute; reflexivity].
Defined.

Lemma station_board_chronological_witness :
  exists entries st',
    station_direction_board Py.strptime_Ymd Py.strftime_Ymd sample_index
      sample_now "X [s1]" "All" "All" 30 ∅ empty_store = (Some entries, st')
    /\ length entries = 2%nat
    /\ exists ts,
         Forall2 (fun e t => renders (b_rt e) t) entries ts
         /\ StronglySorted Z.le ts.
Proof.
  eexists _, _. split; [vm_compute; reflexivity|]. split; [reflexivity|].
  eapply (station_board_chronological Py.strptime_Ymd Py.strftime_Ymd
            sample_index sample_now "X [s1]" "All" "All" 30 ∅ empty_store).
  vm_compute. reflexivity.
Defined.

Lemma board_directions_are_offered_witness :
  exists e entries st',
    station_direction_board Py.strptime_Ymd Py.strftime_Ymd sample_index
      sample_now "X [s1]" "Y" "All" 30 ∅ empty_store = (Some (e :: entries), st')
    /\ b_direction e ∈ get_directions_for_station sample_index "X [s1]"
    /\ b_direction e <> ""
    /\ ("Y" <> "" -> "Y" <> "All" -> b_direction e = "Y").
Proof.
  eexists _, _, _. split; [vm_compute; reflexivity|].
  eapply (board_directions_are_offered Py.strptime_Ymd Py.strftime_Ymd
            sample_index sample_now "X [s1]" "Y" "All" 30 ∅ empty_store);
    [vm_compute; reflexivity|apply list_elem_of_here].
Defined.

Lemma od_records_are_offered_witness :
  exists e recs st',
    upcoming_od_do Py.strptime_Ymd Py.strftime_Ymd sample_index sample_now
      "1 - A Line" "All" "X [s1]" "Y [s2]" ∅ 8 empty_store
    = (Some (e :: recs), st')
    /\ od_direction e ∈ get_directions_for_route sample_index "1 - A Line"
    /\ exists to_stop,
         stop_label_to_id sample_index !! "Y [s2]" = Some to_stop
         /\ _stop_label sample_index to_stop
            ∈ get_to_stops sample_index "1 - A Line" "X [s1]" (Some "All").
Proof.
  eexists _, _, _. split; [vm_compute; reflexivity|].
  eapply (od_records_are_offered Py.strptime_Ymd Py.strftime_Ymd sample_index
            sample_now "1 - A Line" "All" "X [s1]" "Y [s2]" ∅ 8 empty_store);
    [vm_compute; reflexivity|apply list_elem_of_here].
Defined.

Lemma to_stops_are_route_stops_witness :
  "Y [s2]" ∈ get_to_stops sample_index "1 - A Line" "X [s1]" None
  /\ "Y [s2]" ∈ get_stops_for_route sample_index "1 - A Line" None.
Proof.
  assert ("Y [s2]" ∈ get_to_stops sample_index "1 - A Line" "X [s1]" None) as H
    by (vm_compute; apply list_elem_of_here).
  split; [exact H|].
  exact (to_stops_are_route_stops sample_index "1 - A Line" "X [s1]" None
           "Y [s2]" H).
Defined.

Lemma route_stops_in_sequence_order_witness :
  route_label_to_id sample_index !! "1 - A Line" = Some "1"
  /\ get_stops_for_route sample_index "1 - A Line" None = ["X [s1]"; "Y [s2]"]
  /\ exists ordered : list (string * Z),
       get_stops_for_route sample_index "1 - A Line" None
       = (fun item => _stop_label sample_index item.1) <$> ordered
       /\ least_sequences (served_by sample_index "1" None) ordered
       /\ StronglySorted (fun a b => a.2 <= b.2) ordered.
Proof.
  split; [vm_compute; reflexivity|]. split; [vm_compute; reflexivity|].
  apply (route_stops_in_sequence_order sample_index "1 - A Line" None "1" "").
  vm_compute. reflexivity.
Defined.

Lemma between_names_joins_matching_stops_witness :
  exists e recs st',
    upcoming_between_stop_names Py.strptime_Ymd Py.strftime_Ymd sample_lower
      sample_index sample_trip_items sample_now "x" "Y [s2]" 30 ∅ (Some "tram")
      40 empty_store = (Some (e :: recs), st')
    /\ length recs = 1%nat
    /\ rendered_within sample_now (sample_now + 30 * 60 * Py.US_PER_SECOND)
         (n_departure_rt e)
    /\ exists trip fe te,
         (n_trip_id e, trip) ∈ sample_trip_items
         /\ service_id trip <> ""
         /\ n_mode e = _route_mode (route_types sample_index !! route_id trip)
         /\ (forall m, Some "tram" = Some m -> m <> "" -> n_mode e = m)
         /\ n_direction e = headsign_of (Some trip)
         /\ n_route e
            = default (route_id trip) (routes sample_index !! route_id trip)
         /\ fe ∈ default [] (stop_times_by_trip sample_index !! n_trip_id e)
         /\ te ∈ default [] (stop_times_by_trip sample_index !! n_trip_id e)
         /\ stop_id fe ∈ _stop_ids_for_query sample_lower sample_index "x"
         /\ stop_id te ∈ _stop_ids_for_query sample_lower sample_index "Y [s2]"
         /\ stop_sequence fe < stop_sequence te
         /\ n_from_stop e = _stop_label sample_index (stop_id fe)
         /\ n_to_stop e = _stop_label sample_index (stop_id te).
Proof.
  eexists _, _, _. split; [vm_compute; reflexivity|]. split; [reflexivity|].
  eapply (between_names_joins_matching_stops Py.strptime_Ymd Py.strftime_Ymd
            sample_lower sample_index sample_trip_items sample_now "x" "Y [s2]"
            30 ∅ (Some "tram") 40 empty_store);
    [vm_compute; reflexivity|apply list_elem_of_here].
Defined.

Lemma between_names_distinct_sorted_limited_witness :
  exists recs st',
    upcoming_between_stop_names Py.strptime_Ymd Py.strftime_Ymd sample_lower
      sample_index sample_trip_items sample_now "x" "y" 1440 ∅ None 1
      empty_store = (Some recs, st')
    /\ length recs = 1%nat
    /\ NoDup (between_key <$> recs)
    /\ (exists ts,
          Forall2 (fun e t => renders (n_departure_rt e) t) recs ts
          /\ StronglySorted Z.le ts)
    /\ (0 <= 1 -> Z.of_nat (length recs) <= 1).
Proof.
  eexists _, _. split; [vm_compute; reflexivity|]. split; [reflexivity|].
  eapply (between_names_distinct_sorted_limited Py.strptime_Ymd Py.strftime_Ymd
            sample_lower sample_index sample_trip_items sample_now "x" "y" 1440
            ∅ None 1 empty_store).
  vm_compute. reflexivity.
Defined.

Lemma stop_query_finds_known_stops_witness :
  _load sample_archive = Some sample_index
  /\ _stop_ids_for_query sample_lower sample_index " Y [s2] " = {[ "s2" ]}
  /\ (forall sid,
        sid ∈ _stop_ids_for_query sample_lower sample_index " Y [s2] " ->
        is_Some (stops sample_index !! sid))
  /\ (forall label sid, stop_label_to_id sample_index !! label = Some sid ->
        sid ∈ _stop_ids_for_query sample_lower sample_index label).
Proof.
  split; [vm_compute; reflexivity|]. split; [vm_compute; reflexivity|].
  apply (stop_query_finds_known_stops sample_lower sample_archive sample_index).
  vm_compute. reflexivity.
Defined.

Lemma boards_for_queries_within_window_witness :
  exists boards st',
    boards_for_station_queries Py.strptime_Ymd Py.strftime_Ymd sample_lower
      sample_index sample_now ["x"; " "; "Y ["] 30 ∅ 12 empty_store
    = (Some boards, st')
    /\ sb_stop <$> boards = ["X [s1]"; "Y [s2]"]
    /\ NoDup (sb_stop <$> boards)
    /\ Z.of_nat (length boards) <= Z.max 1 12
    /\ Forall (fun b =>
                 sb_stop b ∈ station_options sample_index
                 /\ sb_departures b <> []
                 /\ Forall (fun e =>
                              rendered_within sample_now
                                (sample_now + 30 * 60 * Py.US_PER_SECOND)
                                (b_rt e))
                      (sb_departures b))
         boards.
Proof.
  eexists _, _. split; [vm_compute; reflexivity|]. split; [reflexivity|].
  eapply (boards_for_queries_within_window Py.strptime_Ymd Py.strftime_Ymd
            sample_lower sample_index sample_now ["x"; " "; "Y ["] 30 ∅ 12
            empty_store).
  vm_compute. reflexivity.
Defined.

Lemma active_feed_status_sound_witness :
  exists feed source status dbg' w',
    get_active_feed sample_listing sample_download sample_read_metas
      sample_save_state sample_load_active_version 738945
      (Some (sample_feed "103" 739000 739100)) sample_debug tt
    = (Some (feed, source, status), dbg', w')
    /\ version <$> feed = Some "102"
    /\ ((status = "ok"
         /\ (source = "latest" \/ source = "version_previous"
             \/ source = "listing_previous" \/ source = "fallback_local")
         /\ exists m, feed = Some m /\ is_valid_for m 738945 = true)
        \/ (status = "degraded"
            /\ ((feed = None /\ source = "none")
                \/ (source = "fallback_local"
                    /\ exists m, feed = Some m
                                 /\ is_valid_for m 738945 = false)))).
Proof.
  eexists _, _, _, _, _. split; [vm_compute; reflexivity|].
  split; [reflexivity|].
  eapply (active_feed_status_sound sample_listing sample_download
            sample_read_metas sample_save_state sample_load_active_version
            738945 (Some (sample_feed "103" 739000 739100)) sample_debug tt).
  vm_compute. reflexivity.
Defined.


Lemma force_select_only_cached_witness :
  exists r w',
    force_select sample_read_metas sample_save_state "101" tt = (Some r, w')
    /\ match r with
       | Some m =>
           version m = "101"
           /\ m ∈ (list_cached_feeds sample_read_metas tt).1
           /\ sample_save_state "101" "forced"
                (list_cached_feeds sample_read_metas tt).2 = Some w'
       | None =>
           w' = (list_cached_feeds sample_read_metas tt).2
           /\ forall m, m ∈ (list_cached_feeds sample_read_metas tt).1 ->
                        version m <> "101"
       end.
Proof.
  eexists _, _. split; [vm_compute; reflexivity|].
  eapply (force_select_only_cached sample_read_metas sample_save_state "101" tt).
  vm_compute. reflexivity.
Defined.

Lemma scan_entities_latest_timestamp_witness :
  Forall (fun t => 0 <= t) (read_timestamps sample_message)
  /\ (scan_entities sample_message ∅ None).2 = Some 1709190000
  /\ match (scan_entities sample_message ∅ None).2 with
     | Some r =>
         r ∈ read_timestamps sample_message
         /\ Forall (fun t => t <= r) (read_timestamps sample_message)
     | None => read_timestamps sample_message = []
     end.
Proof.
  assert (Forall (fun t => 0 <= t) (read_timestamps sample_message)) as H
    by (vm_compute; repeat constructor; discriminate).
  split; [exact H|]. split; [vm_compute; reflexivity|].
  exact (scan_entities_latest_timestamp sample_message H).
Defined.

Lemma delays_only_after_success_witness :
  let self := refresh sample_utc_isoformat true (Raised "timeout") sample_now init in
  reachable sample_utc_isoformat true 1 self
  /\ (_last_success_utc self = None ->
        trip_delays (last_result self) = ∅
        /\ last_timestamp (last_result self) = None
        /\ status (last_result self) <> "ok")
  /\ (status (last_result self) = "ok" -> error (last_result self) = None)
  /\ (status (last_result self) = "error" ->
      is_Some (error (last_result self))).
Proof.
  assert (reachable sample_utc_isoformat true 1
            (refresh sample_utc_isoformat true (Raised "timeout") sample_now init))
    as H by (apply reach_refresh, reach_init).
  split; [exact H|].
  exact (delays_only_after_success sample_utc_isoformat true 1 _ H).
Defined.

Lemma decoder_unavailable_witness :
  let self :=
    refresh sample_utc_isoformat false (Parsed sample_message) sample_now init in
  reachable sample_utc_isoformat false 1 self
  /\ _last_success_utc self = None
  /\ (1%nat <> O ->
      status (last_result self) = "error"
      /\ trip_delays (last_result self) = ∅).
Proof.
  assert (reachable sample_utc_isoformat false 1
            (refresh sample_utc_isoformat false (Parsed sample_message)
               sample_now init))
    as H by (apply reach_refresh, reach_init).
  split; [exact H|].
  exact (decoder_unavailable sample_utc_isoformat 1 _ H).
Defined.

(** ** Evaluations *)

Example int_examples :
  Py.int " 12_3 " = Some 123 /\ Py.int "-7" = Some (-7) /\ Py.int "+08" = Some 8
  /\ Py.int "1__2" = None /\ Py.int "" = None /\ Py.int "- 5" = None
  /\ Py.int "tram" = None.
Proof. repeat split; reflexivity. Qed.

(** [str.strip] removes a file separator (code 28), [int] does not skip
    it. *)
Example int_and_strip_differ :
  let s := String (ascii_of_nat 28) "5" in
  Py.strip s = "5" /\ Py.int s = None /\ Py.int (Py.strip s) = Some 5.
Proof. repeat split; reflexivity. Qed.

Example hhmmss_examples :
  _hhmmss_to_seconds "08:00:00" = 28800
  /\ _hhmmss_to_seconds "25:10:05" = 90605
  /\ _hhmmss_to_seconds "8h00" = 0
  /\ _hhmmss_to_seconds "08:00" = 0
  /\ _hhmmss_to_seconds "08:xx:00" = 0
  /\ _hhmmss_to_seconds "" = 0.
Proof. repeat split; reflexivity. Qed.

Example isoformat_examples :
  Py.date_isoformat 738945 = "2024-02-29"
  /\ Py.date_isoformat Py.date_min = "0001-01-01"
  /\ Py.date_isoformat Py.date_max = "9999-12-31"
  /\ Py.datetime_isoformat sample_now = "2024-02-29T07:55:00"
  /\ Py.datetime_isoformat (sample_now + 5) = "2024-02-29T07:55:00.000005"
  /\ Py.weekday 738945 = 3.
Proof. repeat split; vm_compute; reflexivity. Qed.

Example sample_index_loaded :
  routes sample_index !! "1" = Some "1 - A Line"
  /\ route_label_to_id sample_index !! "1 - A Line" = Some "1"
  /\ stop_label_to_id sample_index !! "X [s1]" = Some "s1"
  /\ departures_by_stop sample_index !! "s1"
     = Some [("t1", 28800); ("t2", 30300)]
  /\ trips_by_route sample_index !! "1" = Some ["t1"; "t2"].
Proof. repeat split; vm_compute; reflexivity. Qed.

(** The window is closed at both ends: at 08:00:00 with a window of 25
    minutes the board holds the departure of 08:00:00 and that of
    08:25:00; one microsecond later the first one is gone. *)
Example station_board_bounds_inclusive :
  let eight := Py.combine_midnight 738945 + 8 * 3600 * Py.US_PER_SECOND in
  (map b_rt <$> (station_direction_board Py.strptime_Ymd Py.strftime_Ymd
                   sample_index eight "X [s1]" "All" "All" 25 ∅
                   empty_store).1
   = Some ["2024-02-29T08:00:00"; "2024-02-29T08:25:00"])
  /\ (map b_rt <$> (station_direction_board Py.strptime_Ymd Py.strftime_Ymd
                      sample_index (eight + 1) "X [s1]" "All" "All" 25 ∅
                      empty_store).1
      = Some ["2024-02-29T08:25:00"]).
Proof. split; vm_compute; reflexivity. Qed.

(** A delay moves the realtime departure, not the planned one. *)
Example station_board_delay :
  (map (fun e => (b_planned e, b_rt e))
     <$> (station_direction_board Py.strptime_Ymd Py.strftime_Ymd
            sample_index sample_now "X [s1]" "All" "All" 30 {[ "t1" := 900 ]}
            empty_store).1)
  = Some [("2024-02-29T08:00:00", "2024-02-29T08:15:00");
          ("2024-02-29T08:25:00", "2024-02-29T08:25:00")].
Proof. vm_compute. reflexivity. Qed.

(** An unknown label gives the empty list; a window that overflows
    [timedelta] raises. *)
Example station_board_edge_cases :
  (station_direction_board Py.strptime_Ymd Py.strftime_Ymd sample_index
     sample_now "Z [s9]" "All" "All" 30 ∅ empty_store).1 = Some []
  /\ (station_direction_board Py.strptime_Ymd Py.strftime_Ymd sample_index
        sample_now "X [s1]" "All" "All" (10 ^ 15) ∅ empty_store).1 = None.
Proof. split; vm_compute; reflexivity. Qed.

(** The listing fallback on the sample listing: the first link is
    skipped, the second feed has expired, and of the two valid ones the
    higher version wins. *)
Example listing_fallback_sample :
  (version <$> (refresh_previous_from_listing sample_listing sample_download
                  738945
                  {| listing_candidates := []; tried_listing_urls := [];
                     selected_strategy := "none"; listing_attempts := 0 |}
                  tt).1.1) = Some "102".
Proof. vm_compute. reflexivity. Qed.

(** A message with two trips: the first delay found wins, a trip without
    identifier is passed over, and the latest timestamp is kept. *)
Example scan_entities_sample :
  scan_entities
    [ {| trip_update := Some {| trip_id := "t1";
           stop_time_update :=
             [ {| departure_delay := None; arrival_delay := None |};
               {| departure_delay := None; arrival_delay := Some 60 |};
               {| departure_delay := Some 90; arrival_delay := None |} ];
           timestamp := Some 1709190000 |} |};
      {| trip_update := None |};
      {| trip_update := Some {| trip_id := ""; stop_time_update := [];
                                timestamp := Some 1709199999 |} |};
      {| trip_update := Some {| trip_id := "t2"; stop_time_update := [];
                                timestamp := Some 1709180000 |} |} ]
    ∅ None
  = ({[ "t1" := 60; "t2" := 0 ]}, Some 1709190000).
Proof. vm_compute. reflexivity. Qed.

Example selectors_sample :
  route_options sample_index None = ["1 - A Line"]
  /\ route_options sample_index (Some "tram") = ["1 - A Line"]
  /\ route_options sample_index (Some "bus") = []
  /\ station_options sample_index = ["X [s1]"; "Y [s2]"]
  /\ get_stops_for_route sample_index "1 - A Line" (Some "Y")
     = ["X [s1]"; "Y [s2]"]
  /\ get_stops_for_route sample_index "1 - A Line" (Some "Z") = []
  /\ get_stops_for_route sample_index "2" None = []
  /\ get_to_stops sample_index "1 - A Line" "X [s1]" None = ["Y [s2]"]
  /\ get_to_stops sample_index "1 - A Line" "Y [s2]" None = []
  /\ get_directions_for_route sample_index "1 - A Line" = ["Y"]
  /\ get_directions_for_station sample_index "Y [s2]" = ["Y"].
Proof. repeat split; vm_compute; reflexivity. Qed.

(** A query finds a stop by a part of its name, whatever its case, and
    by an id between brackets at its end, whatever precedes it. *)
Example stop_query_sample :
  _stop_ids_for_query sample_lower sample_index "x" = {[ "s1" ]}
  /\ _stop_ids_for_query sample_lower sample_index "anything [s2]" = {[ "s2" ]}
  /\ _stop_ids_for_query sample_lower sample_index "q [ s1 ]" = {[ "s1" ]}
  /\ _stop_ids_for_query sample_lower sample_index "[s2" = ∅
  /\ _stop_ids_for_query sample_lower sample_index "  " = ∅.
Proof. repeat split; vm_compute; reflexivity. Qed.

(** The stations come in the order of the queries; a bound that is not
    positive leaves one station. *)
Example stations_matching_sample :
  stations_matching_queries sample_lower sample_index ["Y"; " "; "x"; "["] 12
  = ["Y [s2]"; "X [s1]"]
  /\ stations_matching_queries sample_lower sample_index ["["] 0 = ["X [s1]"]
  /\ stations_matching_queries sample_lower sample_index ["["] (-3)
     = ["X [s1]"]
  /\ stations_matching_queries sample_lower sample_index [" "] 5 = [].
Proof. repeat split; vm_compute; reflexivity. Qed.

(** With a delay of half an hour the first trip leaves after the
    second; a negative limit drops the last record; from Y to X nothing
    runs. *)
Example between_names_sample :
  (map (fun e => (n_trip_id e, n_departure_rt e, n_arrival_rt e))
     <$> (upcoming_between_stop_names Py.strptime_Ymd Py.strftime_Ymd
            sample_lower sample_index sample_trip_items sample_now "X" "Y [s2]"
            40 {[ "t1" := 1800 ]} None 40 empty_store).1
   = Some [("t2", "2024-02-29T08:25:00", "2024-02-29T08:35:00");
           ("t1", "2024-02-29T08:30:00", "2024-02-29T08:40:00")])
  /\ (upcoming_between_stop_names Py.strptime_Ymd Py.strftime_Ymd sample_lower
        sample_index sample_trip_items sample_now "X" "Y [s2]" 30
        {[ "t1" := 1800 ]} None (-1) empty_store).1 = Some []
  /\ (upcoming_between_stop_names Py.strptime_Ymd Py.strftime_Ymd sample_lower
        sample_index sample_trip_items sample_now "y" "x" 30 ∅ None 40
        empty_store).1 = Some []
  /\ (upcoming_between_stop_names Py.strptime_Ymd Py.strftime_Ymd sample_lower
        sample_index sample_trip_items sample_now "x" "y" 30 ∅ (Some "bus") 40
        empty_store).1 = Some [].
Proof. repeat split; vm_compute; reflexivity. Qed.

(** Within twelve minutes nothing leaves from Y, which gets no board. *)
Example boards_for_queries_sample :
  (map (fun b => (sb_stop b, map b_rt (sb_departures b)))
     <$> (boards_for_station_queries Py.strptime_Ymd Py.strftime_Ymd
            sample_lower sample_index sample_now ["["] 12 ∅ 12 empty_store).1)
  = Some [("X [s1]", ["2024-02-29T08:00:00"])].
Proof. vm_compute. reflexivity. Qed.

Example str_zfill_examples :
  Py.str_int 0 = "0" /\ Py.str_int (-120) = "-120"
  /\ Py.zfill (Py.str_int 7) 3 = "007" /\ Py.zfill "-7" 4 = "-007"
  /\ Py.zfill "+7" 4 = "+007" /\ Py.zfill "12345" 3 = "12345"
  /\ Py.before_last "/" STATIC_GTFS_URL = "https://www.zet.hr/gtfs-scheduled"
  /\ _safe_version "2024/05 v.1-a_b" = "2024_05_v.1-a_b".
Proof. repeat split; vm_compute; reflexivity. Qed.

(** From 0101 the fallback asks for 0100, which fails, and for 0099;
    from 0003 it asks for 0002 and 0001 and stops before 0000; from a
    version that is no number it asks for nothing. *)
Example version_fallback_sample :
  (let '(found, dbg, _) :=
     refresh_previous_from_version sample_version_download "0101" 738945
       sample_debug tt in
   (version <$> default None found, tried_version_urls dbg,
    version_attempts dbg))
  = (Some "0099",
     ["https://www.zet.hr/gtfs-scheduled/0100";
      "https://www.zet.hr/gtfs-scheduled/0099"], 2)
  /\ (let '(found, dbg, _) :=
        refresh_previous_from_version sample_version_download "0003" 738945
          sample_debug tt in
      (found, tried_version_urls dbg, version_attempts dbg))
     = (Some None,
        ["https://www.zet.hr/gtfs-scheduled/0002";
         "https://www.zet.hr/gtfs-scheduled/0001"], 2)
  /\ refresh_previous_from_version sample_version_download "v3" 738945
       sample_debug tt = (Some None, sample_debug, tt).
Proof. repeat split; vm_compute; reflexivity. Qed.

(** The cached feeds come newest first, whatever the order of their
    files. *)
Example cached_feeds_sample :
  version <$> (list_cached_feeds sample_read_metas tt).1 = ["102"; "101"; "100"].
Proof. vm_compute. reflexivity. Qed.

(** The strategies of the selection, one after the other: the previous
    version, the listing, a cached feed that is valid, and the feed of
    the state file when nothing is valid. *)
Example active_feed_sample :
  (get_active_feed (fun _ w => (None, w)) sample_version_download
     sample_read_metas sample_save_state sample_load_active_version 738945
     (Some (sample_feed "0101" 739000 739100)) sample_debug tt).1.1
  = Some (Some (sample_feed "0099" 738900 739000), "version_previous", "ok")
  /\ (get_active_feed sample_listing sample_download sample_read_metas
        sample_save_state sample_load_active_version 738945
        (Some (sample_feed "103" 739000 739100)) sample_debug tt).1.1
     = Some (Some (sample_feed "102" 738900 739000), "listing_previous", "ok")
  /\ (get_active_feed (fun _ w => (None, w)) (fun _ _ w => (None, w))
        sample_read_metas sample_save_state sample_load_active_version 738950
        None sample_debug tt).1.1
     = Some (Some (sample_feed "102" 738900 739000), "fallback_local", "ok")
  /\ (get_active_feed (fun _ w => (None, w)) (fun _ _ w => (None, w))
        sample_read_metas sample_save_state sample_load_active_version 739500
        None sample_debug tt).1.1
     = Some (Some (sample_feed "100" 738000 738100), "fallback_local",
             "degraded").
Proof. repeat split; vm_compute; reflexivity. Qed.
